(** * scPortrait: segmentation-mask filtering ([scportrait/processing/filtering.py])

    A shallow embedding of the three classes of [filtering.py]:
    [_BaseFilter] (mask utilities), [SizeFilter] and [MatchNucleusCytosolIds].

    Modelling conventions.
    - A label mask is a 2-D [numpy] integer array: its shape and its pixels in
      row-major order ([ndarray]).  Pixel values are [Z]; dtype overflow is
      out of scope.
    - Python exceptions are the [Raise] branch of [result].
    - A filter object is a record of its attributes ([session]); a method is a
      function taking the session and returning the new one.  The attribute
      [nucleus_lookup_dict] is either [None] or an alias of
      [_nucleus_lookup_dict]: it is modelled by a flag next to the one dict.
    - A Python [dict] is an association list in insertion order with unique
      keys; [list(set(l))] is a duplicate-free list with the elements of [l]
      (its order is unspecified in Python and is only used through
      membership tests).
    - [counts / all_counts] and the thresholds are exact rationals ([Q]).
    - Logging and plotting calls have no effect on the results and are
      left out. *)

From Stdlib Require Import ZArith QArith List Bool Lia Sorted Arith.
From Stdlib Require String.
Import ListNotations.
Open Scope Z_scope.

(** ** Exceptions *)

Inductive exn : Type :=
| IndexError      (* fancy index out of bounds *)
| AttributeError  (* attribute not defined on the object *)
| TypeError       (* operation on [None] *)
| KeyError        (* [del d[k]] on a missing key *)
| ValueError.     (* rejected constructor arguments *)

Inductive result (A : Type) : Type :=
| Ok (a : A)
| Raise (e : exn).
Arguments Ok {A} a.
Arguments Raise {A} e.

Definition bind {A B : Type} (r : result A) (k : A -> result B) : result B :=
  match r with
  | Ok a => k a
  | Raise e => Raise e
  end.

Notation "x <- r ;; k" := (bind r (fun x => k))
  (at level 61, r at next level, right associativity).
Notation "' p <- r ;; k" := (bind r (fun x => let p := x in k))
  (at level 61, p pattern, r at next level, right associativity).

Fixpoint mapM {A B : Type} (f : A -> result B) (l : list A) : result (list B) :=
  match l with
  | [] => Ok []
  | a :: t => b <- f a ;; bs <- mapM f t ;; Ok (b :: bs)
  end.

(** [for x in l: body(x)] over a state [S]. *)
Fixpoint forM {A S : Type} (body : A -> S -> result S) (l : list A) (s : S)
  : result S :=
  match l with
  | [] => Ok s
  | a :: t => s' <- body a s ;; forM body t s'
  end.

(** ** numpy arrays and primitives *)

Record ndarray : Type := mk_ndarray {
  nrows : nat;
  ncols : nat;
  ravel : list Z   (* row-major *)
}.

Definition well_shaped (m : ndarray) : Prop :=
  length (ravel m) = (nrows m * ncols m)%nat.

Definition same_shape (a b : ndarray) : Prop :=
  nrows a = nrows b /\ ncols a = ncols b.

(** A label mask: background 0 and positive object ids. *)
Definition label_mask (m : ndarray) : Prop :=
  well_shaped m /\ Forall (fun v => 0 <= v) (ravel m).

(** Insertion into a strictly increasing list. *)
Fixpoint insert_unique (x : Z) (l : list Z) : list Z :=
  match l with
  | [] => [x]
  | y :: t =>
      if x <? y then x :: l
      else if x =? y then l
      else y :: insert_unique x t
  end.

(** [np.unique(a)]: the sorted distinct values of the flattened array. *)
Definition np_unique (l : list Z) : list Z := fold_right insert_unique [] l.

(** [np.unique(a, return_counts=True)[1]]. *)
Definition np_unique_counts (l : list Z) : list nat :=
  map (count_occ Z.eq_dec l) (np_unique l).

(** [np.isin(v, ids)] at one element. *)
Definition np_isin (v : Z) (ids : list Z) : bool := existsb (Z.eqb v) ids.

(** Flat positions of the pixels equal to [v], in row-major order. *)
Fixpoint flat_where (i : nat) (l : list Z) (v : Z) : list nat :=
  match l with
  | [] => []
  | x :: t =>
      if x =? v then i :: flat_where (S i) t v else flat_where (S i) t v
  end.

(** [np.where(m == v)]: the (row, column) index pairs. *)
Definition np_where_eq (m : ndarray) (v : Z) : list (nat * nat) :=
  map (fun i => (i / ncols m, i mod ncols m)%nat) (flat_where 0 (ravel m) v).

(** [m[(rows, cols)]]: every index is bounds-checked against [m]'s shape. *)
Definition getitem (m : ndarray) (rc : nat * nat) : result Z :=
  let '(r, c) := rc in
  if (r <? nrows m)%nat && (c <? ncols m)%nat
  then Ok (nth (r * ncols m + c) (ravel m) 0)
  else Raise IndexError.

Definition fancy_index (m : ndarray) (idx : list (nat * nat)) : result (list Z) :=
  mapM (getitem m) idx.

(** [a.repeat(n)] along one axis: every item [n] times in a row. *)
Definition repeat_each {A : Type} (n : nat) (l : list A) : list A :=
  flat_map (fun x => repeat x n) l.

(** The [r] rows of [c] pixels of a row-major pixel list. *)
Fixpoint rows_of (r c : nat) (l : list Z) : list (list Z) :=
  match r with
  | O => []
  | S r' => firstn c l :: rows_of r' c (skipn c l)
  end.

(** [m.repeat(n, axis=0).repeat(n, axis=1)]. *)
Definition np_repeat2 (n : nat) (m : ndarray) : ndarray :=
  {| nrows := nrows m * n;
     ncols := ncols m * n;
     ravel := concat (repeat_each n
                (map (repeat_each n) (rows_of (nrows m) (ncols m) (ravel m)))) |}.

(** Code this file does not contain: [downsample_img_pxs] of
    [scportrait.processing.preprocessing] and [disk], [erosion], [dilation]
    of [skimage.morphology]. *)
Record externals : Type := {
  downsample_img_pxs : ndarray -> nat -> ndarray;
  disk : nat -> ndarray;
  erosion : ndarray -> ndarray -> ndarray;
  dilation : ndarray -> ndarray -> ndarray
}.

(** The [downsampling_factor], [erosion_dilation] and
    [smoothing_kernel_size] attributes, set only when a factor is given. *)
Record downsampling : Type := {
  downsampling_factor : nat;
  erosion_dilation : bool;
  smoothing_kernel_size : nat
}.

(** ** Python containers *)

(** A [dict] with integer keys, in insertion order. *)
Definition dict (V : Type) : Type := list (Z * V).

Fixpoint dict_get {V : Type} (k : Z) (d : dict V) : option V :=
  match d with
  | [] => None
  | (k', v) :: t => if k =? k' then Some v else dict_get k t
  end.

(** [d[k] = v]: overwrite in place, or append a new key. *)
Fixpoint dict_set {V : Type} (k : Z) (v : V) (d : dict V) : dict V :=
  match d with
  | [] => [(k, v)]
  | (k', v') :: t =>
      if k =? k' then (k, v) :: t else (k', v') :: dict_set k v t
  end.

(** [del d[k]]. *)
Fixpoint dict_del {V : Type} (k : Z) (d : dict V) : result (dict V) :=
  match d with
  | [] => Raise KeyError
  | (k', v) :: t =>
      if k =? k' then Ok t
      else t' <- dict_del k t ;; Ok ((k', v) :: t')
  end.

Definition dict_values {V : Type} (d : dict V) : list V := map snd d.

(** [list(set(l))]. *)
Definition list_set (l : list Z) : list Z := nodup Z.eq_dec l.

(** [x in l] for a list (or a dict view) of integers. *)
Definition py_in (x : Z) (l : list Z) : bool := existsb (Z.eqb x) l.

(** [np.argmax] of a boolean array: the first [True], or 0. *)
Fixpoint np_argmax (l : list bool) : nat :=
  match l with
  | [] => 0
  | true :: _ => 0
  | false :: t => if existsb (fun b => b) t then S (np_argmax t) else 0
  end.

(** ** [_BaseFilter] *)

Module _BaseFilter.

(** [np.unique(mask)[1:]  # to remove the background] *)
Definition get_unique_ids (mask : ndarray) : list Z :=
  tl (np_unique (ravel mask)).

(** [np.where(np.isin(mask, ids_to_remove), 0, mask)] *)
Definition get_updated_mask (mask : ndarray) (ids_to_remove : list Z)
  : ndarray :=
  {| nrows := nrows mask;
     ncols := ncols mask;
     ravel := map (fun v => if np_isin v ids_to_remove then 0 else v)
                  (ravel mask) |}.

Section External.
Variable ext : externals.
Variable ds : downsampling.


Definition get_downsampled_mask (mask : ndarray) : ndarray :=
  downsample_img_pxs ext mask (downsampling_factor ds).

Definition get_upscaled_mask_basic (mask : ndarray) (erosion_dilation : bool)
  : ndarray :=
  let mask := np_repeat2 (downsampling_factor ds) mask in
  if erosion_dilation then
    let mask := erosion ext mask (disk ext (smoothing_kernel_size ds)) in
    dilation ext mask (disk ext (smoothing_kernel_size ds))
  else mask.

End External.

End _BaseFilter.

(** ** [MatchNucleusCytosolIds] *)

Module MatchNucleusCytosolIds.

(** The attributes of a filter object.  [downsample] is [Some] exactly when
    [self.downsample] is true.  [nucleus_lookup_dict] is [false] for [None]
    and [true] once it aliases [_nucleus_lookup_dict].  [cytosol_count] does
    not exist before [_count_cytosol_occurances] has run. *)
Record session : Type := mk_session {
  filtering_threshold : Q;
  downsample : option downsampling;
  nucleus_mask : option ndarray;
  cytosol_mask : option ndarray;
  _nucleus_lookup_dict : dict Z;
  nuclei_discard_list : list Z;
  cytosol_discard_list : list Z;
  cytosol_count : option (dict nat);
  nucleus_lookup_dict : bool
}.

Definition set_nucleus_mask (m : ndarray) (self : session) : session :=
  mk_session (filtering_threshold self) (downsample self) (Some m)
    (cytosol_mask self) (_nucleus_lookup_dict self) (nuclei_discard_list self)
    (cytosol_discard_list self) (cytosol_count self) (nucleus_lookup_dict self).

Definition set_cytosol_mask (m : ndarray) (self : session) : session :=
  mk_session (filtering_threshold self) (downsample self) (nucleus_mask self)
    (Some m) (_nucleus_lookup_dict self) (nuclei_discard_list self)
    (cytosol_discard_list self) (cytosol_count self) (nucleus_lookup_dict self).

Definition set_lookup (d : dict Z) (self : session) : session :=
  mk_session (filtering_threshold self) (downsample self) (nucleus_mask self)
    (cytosol_mask self) d (nuclei_discard_list self)
    (cytosol_discard_list self) (cytosol_count self) (nucleus_lookup_dict self).

Definition set_nuclei_discard (l : list Z) (self : session) : session :=
  mk_session (filtering_threshold self) (downsample self) (nucleus_mask self)
    (cytosol_mask self) (_nucleus_lookup_dict self) l
    (cytosol_discard_list self) (cytosol_count self) (nucleus_lookup_dict self).

Definition set_cytosol_discard (l : list Z) (self : session) : session :=
  mk_session (filtering_threshold self) (downsample self) (nucleus_mask self)
    (cytosol_mask self) (_nucleus_lookup_dict self) (nuclei_discard_list self)
    l (cytosol_count self) (nucleus_lookup_dict self).

Definition set_cytosol_count (c : dict nat) (self : session) : session :=
  mk_session (filtering_threshold self) (downsample self) (nucleus_mask self)
    (cytosol_mask self) (_nucleus_lookup_dict self) (nuclei_discard_list self)
    (cytosol_discard_list self) (Some c) (nucleus_lookup_dict self).

Definition publish_lookup (self : session) : session :=
  mk_session (filtering_threshold self) (downsample self) (nucleus_mask self)
    (cytosol_mask self) (_nucleus_lookup_dict self) (nuclei_discard_list self)
    (cytosol_discard_list self) (cytosol_count self) true.

(** [MatchNucleusCytosolIds(filtering_threshold, downsampling_factor,
    erosion_dilation, smoothing_kernel_size)]; the Python defaults are
    [0.5], [None], [True] and [7]. *)
Definition __init__ (filtering_threshold : Q) (downsampling_factor : option nat)
  (erosion_dilation : bool) (smoothing_kernel_size : nat) : session :=
  {| filtering_threshold := filtering_threshold;
     downsample :=
       match downsampling_factor with
       | Some f => Some (Build_downsampling f erosion_dilation smoothing_kernel_size)
       | None => None
       end;
     nucleus_mask := None;
     cytosol_mask := None;
     _nucleus_lookup_dict := [];
     nuclei_discard_list := [];
     cytosol_discard_list := [];
     cytosol_count := None;
     nucleus_lookup_dict := false |}.

(** [self.downsample_mask(mask)]: no class of the hierarchy defines an
    attribute of this name (the helper of [_BaseFilter] is
    [get_downsampled_mask], and [Logable] of [pipeline/base.py] has only its
    logging methods), so the attribute lookup fails. *)
Definition downsample_mask (mask : ndarray) : result ndarray :=
  Raise AttributeError.

Definition _load_masks (nuc_mask cyto_mask : ndarray) (self : session)
  : result session :=
  match downsample self with
  | Some _ =>
      self <- match nucleus_mask self with
              | None => m <- downsample_mask nuc_mask ;; Ok (set_nucleus_mask m self)
              | Some _ => Ok self
              end ;;
      match cytosol_mask self with
      | None => m <- downsample_mask cyto_mask ;; Ok (set_cytosol_mask m self)
      | Some _ => Ok self
      end
  | None =>
      let self := match nucleus_mask self with
                  | None => set_nucleus_mask nuc_mask self
                  | Some _ => self
                  end in
      let self := match cytosol_mask self with
                  | None => set_cytosol_mask cyto_mask self
                  | Some _ => self
                  end in
      Ok self
  end.

(** The two loaded masks.  [get_lookup_table] and [filter] reach the
    methods below after [_load_masks] has set both masks.  A direct call on
    an object whose masks are still [None] is outside the model, which stops
    there with [TypeError]. *)
Definition loaded_masks (self : session) : result (ndarray * ndarray) :=
  match nucleus_mask self, cytosol_mask self with
  | Some n, Some c => Ok (n, c)
  | _, _ => Raise TypeError
  end.

(** [counts / all_counts] at one entry. *)
Definition proportion (count all_counts : nat) : Q :=
  inject_Z (Z.of_nat count) / inject_Z (Z.of_nat all_counts).

(** The fraction of the pixels of a footprint that carry the label [c]. *)
Definition fraction (footprint : list Z) (c : Z) : Q :=
  proportion (count_occ Z.eq_dec footprint c) (length footprint).

(** [self.cytosol_mask[np.where(self.nucleus_mask == nucleus_id)]] *)
Definition potential_cytosol (nuc cyt : ndarray) (nucleus_id : Z)
  : result (list Z) :=
  fancy_index cyt (np_where_eq nuc nucleus_id).

Definition _match_nucleus_id (nucleus_id : Z) (self : session)
  : result (option Z * session) :=
  '(nuc, cyt) <- loaded_masks self ;;
  potential_cytosol <- potential_cytosol nuc cyt nucleus_id ;;
  if forallb (fun v => negb (v =? 0)) potential_cytosol then
    let unique_cytosol := np_unique potential_cytosol in
    let counts := np_unique_counts potential_cytosol in
    let all_counts := list_sum counts in
    let cytosol_proportions := map (fun c => proportion c all_counts) counts in
    let reached := map (Qle_bool (filtering_threshold self)) cytosol_proportions in
    if existsb (fun b => b) reached then
      let cytosol_id := nth (np_argmax reached) unique_cytosol 0 in
      if negb (cytosol_id =? 0) then
        Ok (Some cytosol_id,
            set_lookup (dict_set nucleus_id cytosol_id (_nucleus_lookup_dict self)) self)
      else
        Ok (None, set_nuclei_discard (nuclei_discard_list self ++ [nucleus_id]) self)
    else
      Ok (None, set_nuclei_discard (nuclei_discard_list self ++ [nucleus_id]) self)
  else
    Ok (None, set_nuclei_discard (nuclei_discard_list self ++ [nucleus_id]) self).

Definition _initialize_lookup_table (self : session) : result session :=
  '(nuc, _) <- loaded_masks self ;;
  let all_nucleus_ids := _BaseFilter.get_unique_ids nuc in
  forM (fun nucleus_id self => r <- _match_nucleus_id nucleus_id self ;; Ok (snd r))
       all_nucleus_ids self.

(** [cytosol_count[cytosol]] on a [defaultdict(int)]. *)
Definition count_get (cytosol : Z) (cytosol_count : dict nat) : nat :=
  match dict_get cytosol cytosol_count with
  | Some n => n
  | None => 0%nat
  end.

Definition _count_cytosol_occurances (self : session) : session :=
  let cytosol_count :=
    fold_left (fun cytosol_count cytosol =>
                 dict_set cytosol (count_get cytosol cytosol_count + 1)%nat cytosol_count)
              (dict_values (_nucleus_lookup_dict self)) [] in
  set_cytosol_count cytosol_count self.

Definition _check_for_unassigned_cytosols (self : session) : result session :=
  '(_, cyt) <- loaded_masks self ;;
  let all_cytosol_ids := _BaseFilter.get_unique_ids cyt in
  Ok (fold_left
        (fun self cytosol_id =>
           if negb (py_in cytosol_id (dict_values (_nucleus_lookup_dict self)))
           then set_cytosol_discard (cytosol_discard_list self ++ [cytosol_id]) self
           else self)
        all_cytosol_ids self).

Definition _identify_multinucleated_cells (self : session) : result session :=
  match cytosol_count self with
  | None => Raise AttributeError
  | Some cytosol_count =>
      Ok (fold_left
            (fun self '(nucleus, cytosol) =>
               if (1 <? count_get cytosol cytosol_count)%nat
               then set_cytosol_discard (cytosol_discard_list self ++ [cytosol])
                      (set_nuclei_discard (nuclei_discard_list self ++ [nucleus]) self)
               else self)
            (_nucleus_lookup_dict self) self)
  end.

Definition _cleanup_filtering_lists (self : session) : session :=
  set_cytosol_discard (list_set (cytosol_discard_list self))
    (set_nuclei_discard (list_set (nuclei_discard_list self)) self).

Definition _cleanup_lookup_dictionary (self : session) : result session :=
  let _cleanup :=
    fold_left
      (fun _cleanup '(nucleus_id, cytosol_id) =>
         let _cleanup :=
           if py_in nucleus_id (nuclei_discard_list self)
           then _cleanup ++ [nucleus_id] else _cleanup in
         if py_in cytosol_id (cytosol_discard_list self)
         then _cleanup ++ [nucleus_id] else _cleanup)
      (_nucleus_lookup_dict self) [] in
  let _cleanup := list_set _cleanup in
  d <- forM dict_del _cleanup (_nucleus_lookup_dict self) ;;
  Ok (set_lookup d self).

Definition get_lookup_table (nuc_mask cyto_mask : ndarray) (self : session)
  : result session :=
  self <- _load_masks nuc_mask cyto_mask self ;;
  self <- _initialize_lookup_table self ;;
  let self := _count_cytosol_occurances self in
  self <- _check_for_unassigned_cytosols self ;;
  self <- _identify_multinucleated_cells self ;;
  let self := _cleanup_filtering_lists self in
  self <- _cleanup_lookup_dictionary self ;;
  Ok (publish_lookup self).

(** What the stages after [_initialize_lookup_table] compute, read off the
    loops: the cytosol ids that no lookup entry maps to, the lookup items
    whose cytosol id is the value of more than one item, and the items that
    [_cleanup_lookup_dictionary] deletes. *)
Definition orphans (cyt : ndarray) (lookup : dict Z) : list Z :=
  List.filter (fun cytosol_id => negb (py_in cytosol_id (dict_values lookup)))
              (_BaseFilter.get_unique_ids cyt).

Definition multinucleated (lookup : dict Z) (item : Z * Z) : bool :=
  (1 <? count_occ Z.eq_dec (dict_values lookup) (snd item))%nat.

Definition deleted (nuclei_discard cytosol_discard : list Z) (item : Z * Z)
  : bool :=
  py_in (fst item) nuclei_discard || py_in (snd item) cytosol_discard.

(** The discard lists and the lookup dict that [get_lookup_table] leaves,
    in terms of the session [s] that [_initialize_lookup_table] returned. *)
Definition final_nuclei_discard (s : session) : list Z :=
  list_set (nuclei_discard_list s
            ++ map fst (List.filter (multinucleated (_nucleus_lookup_dict s))
                                    (_nucleus_lookup_dict s))).

Definition final_cytosol_discard (cyt : ndarray) (s : session) : list Z :=
  list_set ((cytosol_discard_list s ++ orphans cyt (_nucleus_lookup_dict s))
            ++ map snd (List.filter (multinucleated (_nucleus_lookup_dict s))
                                    (_nucleus_lookup_dict s))).

Definition final_lookup (cyt : ndarray) (s : session) : dict Z :=
  List.filter
    (fun item => negb (deleted (final_nuclei_discard s)
                               (final_cytosol_discard cyt s) item))
    (_nucleus_lookup_dict s).

(** A lookup item is sound for the masks when the footprint of its nucleus
    lies off the cytosol background and its cytosol label covers at least
    the threshold fraction of the footprint. *)
Definition sound_match (nuc cyt : ndarray) (threshold : Q) (item : Z * Z)
  : Prop :=
  exists footprint,
    potential_cytosol nuc cyt (fst item) = Ok footprint /\
    ~ In 0 footprint /\
    In (snd item) footprint /\
    (threshold <= fraction footprint (snd item))%Q.

(** A session whose masks are loaded and whose lookup dict has only sound
    items. *)
Definition consistent (nuc cyt : ndarray) (s : session) : Prop :=
  loaded_masks s = Ok (nuc, cyt) /\
  NoDup (map fst (_nucleus_lookup_dict s)) /\
  Forall (sound_match nuc cyt (filtering_threshold s)) (_nucleus_lookup_dict s).

(** No cytosol id is the value of two nucleus keys. *)
Definition injective (lookup : dict Z) : Prop :=
  forall n1 n2 c, In (n1, c) lookup -> In (n2, c) lookup -> n1 = n2.

(** One turn of the relabelling loop on the pixels paired with their
    [updated] flag:
    [condition = (cytosol_mask == cytosol_id) & ~updated;
     cytosol_mask[condition] = nucleus_id; updated = updated | condition]. *)
Definition relabel (px : list (Z * bool)) (item : Z * Z) : list (Z * bool) :=
  let '(nucleus_id, cytosol_id) := item in
  map (fun '(v, updated) =>
         if (v =? cytosol_id) && negb updated then (nucleus_id, true)
         else (v, updated))
      px.

Definition _get_updated_cytosol_mask (cytosol_mask : ndarray) (self : session)
  : result ndarray :=
  let updated := map (fun _ => false) (ravel cytosol_mask) in
  let cytosol_mask :=
    _BaseFilter.get_updated_mask cytosol_mask (cytosol_discard_list self) in
  if nucleus_lookup_dict self then
    let px := fold_left relabel (_nucleus_lookup_dict self)
                (combine (ravel cytosol_mask) updated) in
    Ok {| nrows := nrows cytosol_mask;
          ncols := ncols cytosol_mask;
          ravel := map fst px |}
  else Raise AttributeError.

Section External.
Variable ext : externals.

Definition _get_updated_masks (self : session) : result (ndarray * ndarray) :=
  '(self_nucleus_mask, self_cytosol_mask) <- loaded_masks self ;;
  let nucleus_mask :=
    _BaseFilter.get_updated_mask self_nucleus_mask (nuclei_discard_list self) in
  cytosol_mask <- _get_updated_cytosol_mask self_cytosol_mask self ;;
  match downsample self with
  | Some ds =>
      let nucleus_mask :=
        _BaseFilter.get_upscaled_mask_basic ext ds nucleus_mask (erosion_dilation ds) in
      let cytosol_mask :=
        _BaseFilter.get_upscaled_mask_basic ext ds self_cytosol_mask (erosion_dilation ds) in
      Ok (nucleus_mask, cytosol_mask)
  | None => Ok (nucleus_mask, cytosol_mask)
  end.

(** [filter] returns the two masks; the object it leaves behind is returned
    with them. *)
Definition filter (nuc_mask cyto_mask : ndarray) (self : session)
  : result (ndarray * ndarray * session) :=
  self <- _load_masks nuc_mask cyto_mask self ;;
  self <- (if nucleus_lookup_dict self then Ok self
           else get_lookup_table nuc_mask cyto_mask self) ;;
  masks <- _get_updated_masks self ;;
  Ok (masks, self).

End External.

(** [visualize_filtering_results(plot_fig=False, return_maps=True)]: the
    two class maps, without any plotting.  A pixel of a discarded id becomes
    1, a pixel of a kept id 2. *)
Definition visualize_filtering_results (self : session)
  : result (ndarray * ndarray) :=
  match nucleus_mask self, cytosol_mask self with
  | Some nuc_mask, Some cyto_mask =>
      let class_ids_nuc := remove Z.eq_dec 0 (np_unique (ravel nuc_mask)) in
      let class_ids_cyto := remove Z.eq_dec 0 (np_unique (ravel cyto_mask)) in
      let ids_discard_nuc := nuclei_discard_list self in
      let ids_keep_nuc :=
        List.filter (fun v => negb (py_in v ids_discard_nuc)) class_ids_nuc in
      let ids_discard_cyto := cytosol_discard_list self in
      let ids_keep_cyto :=
        List.filter (fun v => negb (py_in v ids_discard_cyto)) class_ids_cyto in
      let final_mask_nuc :=
        map (fun v => if np_isin v ids_keep_nuc then 2 else v) (ravel nuc_mask) in
      let final_mask_nuc :=
        map (fun '(v, final) => if np_isin v ids_discard_nuc then 1 else final)
            (combine (ravel nuc_mask) final_mask_nuc) in
      let final_mask_cyto :=
        map (fun v => if np_isin v ids_keep_cyto then 2 else v) (ravel cyto_mask) in
      let final_mask_cyto :=
        map (fun '(v, final) => if np_isin v ids_discard_cyto then 1 else final)
            (combine (ravel cyto_mask) final_mask_cyto) in
      Ok (mk_ndarray (nrows nuc_mask) (ncols nuc_mask) final_mask_nuc,
          mk_ndarray (nrows cyto_mask) (ncols cyto_mask) final_mask_cyto)
  | _, _ => Raise AttributeError
  end.

End MatchNucleusCytosolIds.

(** ** [SizeFilter] *)

Module SizeFilter.

Record session : Type := mk_session {
  filter_threshold : option (Q * Q);
  filter_lower : bool;
  filter_upper : bool;
  downsample : option downsampling;
  mask : option ndarray;
  ids : list Z;
  ids_to_remove : option (list Z)
}.

(** [SizeFilter(filter_threshold, filter_lower, filter_upper,
    downsampling_factor, erosion_dilation, smoothing_kernel_size)].  The
    arguments that only drive the fitted threshold, the plots and the log
    ([label], [log], [plot_qc], [directory], [confidence_interval],
    [n_components], [population_to_keep]) are not attributes of the model. *)
Definition __init__ (filter_threshold : option (Q * Q))
  (filter_lower filter_upper : bool) (downsampling_factor : option nat)
  (erosion_dilation : bool) (smoothing_kernel_size : nat) : result session :=
  if negb filter_lower && negb filter_upper then Raise ValueError
  else
    Ok {| filter_threshold := filter_threshold;
          filter_lower := filter_lower;
          filter_upper := filter_upper;
          downsample :=
            match downsampling_factor with
            | Some f => Some (Build_downsampling f erosion_dilation smoothing_kernel_size)
            | None => None
            end;
          mask := None;
          ids := [];
          ids_to_remove := None |}.

Definition set_mask (m : ndarray) (self : session) : session :=
  mk_session (filter_threshold self) (filter_lower self) (filter_upper self)
    (downsample self) (Some m) (ids self) (ids_to_remove self).

Definition set_ids (l : list Z) (self : session) : session :=
  mk_session (filter_threshold self) (filter_lower self) (filter_upper self)
    (downsample self) (mask self) l (ids_to_remove self).

Definition set_filter_threshold (t : Q * Q) (self : session) : session :=
  mk_session (Some t) (filter_lower self) (filter_upper self)
    (downsample self) (mask self) (ids self) (ids_to_remove self).

Definition set_ids_to_remove (l : list Z) (self : session) : session :=
  mk_session (filter_threshold self) (filter_lower self) (filter_upper self)
    (downsample self) (mask self) (ids self) (Some l).

(** As in [MatchNucleusCytosolIds]: [self.downsample_mask] is not defined. *)
Definition downsample_mask (mask : ndarray) : result ndarray :=
  Raise AttributeError.

Definition load_mask (input_mask : ndarray) (self : session) : result session :=
  match downsample self with
  | Some _ =>
      match mask self with
      | None => m <- downsample_mask input_mask ;; Ok (set_mask m self)
      | Some _ => Ok self
      end
  | None =>
      match mask self with
      | None => Ok (set_mask input_mask self)
      | Some _ => Ok self
      end
  end.

(** [pixel_counts < t] and [pixel_counts > t] at one entry. *)
Definition count_below (count : nat) (t : Q) : bool :=
  negb (Qle_bool t (inject_Z (Z.of_nat count))).

Definition count_above (count : nat) (t : Q) : bool :=
  negb (Qle_bool (inject_Z (Z.of_nat count)) t).

(** [ids[np.where(test(pixel_counts))]] *)
Definition select_ids (test : nat -> bool) (ids : list Z) (pixel_counts : list nat)
  : list Z :=
  map fst (List.filter (fun p => test (snd p)) (combine ids pixel_counts)).

Section Fit.
(** [_calculate_filtering_threshold]: the threshold fitted to the pixel
    counts by [sklearn.mixture.GaussianMixture] and [scipy.stats.norm]. *)
Variable _calculate_filtering_threshold : list nat -> result (Q * Q).

Definition _get_ids_to_remove (input_mask : ndarray) (self : session)
  : result session :=
  self <- load_mask input_mask self ;;
  match mask self with
  | None => Raise TypeError
  | Some self_mask =>
      let counts0 := np_unique (ravel self_mask) in
      let counts1 := np_unique_counts (ravel self_mask) in
      let self := set_ids (tl counts0) self in
      let pixel_counts := tl counts1 in
      self <- match filter_threshold self with
              | None => t <- _calculate_filtering_threshold pixel_counts ;;
                        Ok (set_filter_threshold t self)
              | Some _ => Ok self
              end ;;
      match filter_threshold self with
      | None => Raise TypeError
      | Some (lower, upper) =>
          let ids_remove := [] in
          let ids_remove :=
            if filter_lower self
            then ids_remove
                   ++ select_ids (fun c => count_below c lower) (tl counts0) pixel_counts
            else ids_remove in
          let ids_remove :=
            if filter_upper self
            then ids_remove
                   ++ select_ids (fun c => count_above c upper) (tl counts0) pixel_counts
            else ids_remove in
          Ok (set_ids_to_remove ids_remove self)
      end
  end.

Definition filter (input_mask : ndarray) (self : session)
  : result (ndarray * session) :=
  self <- match ids_to_remove self with
          | None => _get_ids_to_remove input_mask self
          | Some _ => Ok self
          end ;;
  match ids_to_remove self with
  | None => Raise TypeError
  | Some ids_to_remove =>
      Ok (_BaseFilter.get_updated_mask input_mask ids_to_remove, self)
  end.

End Fit.

(** The number of pixels of the mask that carry the value [v]. *)
Definition pixel_count (mask : ndarray) (v : Z) : nat :=
  count_occ Z.eq_dec (ravel mask) v.

(** The ids that [_get_ids_to_remove] collects for an explicit threshold
    with both tails enabled. *)
Definition outliers (lower upper : Q) (mask : ndarray) : list Z :=
  List.filter (fun v => count_below (pixel_count mask v) lower)
              (_BaseFilter.get_unique_ids mask)
  ++ List.filter (fun v => count_above (pixel_count mask v) upper)
                 (_BaseFilter.get_unique_ids mask).

(** [np.argmax] and [np.argmin] of a float array: the first index of the
    greatest (least) entry.  [best] is the entry at [best_i], the best of
    the entries before position [i]. *)
Fixpoint argbest (better : Q -> Q -> bool) (best : Q) (best_i i : nat)
  (l : list Q) : nat :=
  match l with
  | [] => best_i
  | x :: t =>
      if better x best then argbest better x i (S i) t
      else argbest better best best_i (S i) t
  end.

Definition Qgtb (x y : Q) : bool := negb (Qle_bool x y).
Definition Qltb (x y : Q) : bool := negb (Qle_bool y x).

(** What a call of [_get_index_population] gives: an index, the
    [ValueError] of [np.argmax] ([np.argmin]) on an empty array, or the
    [UnboundLocalError] of [return idx] when no branch assigned [idx]. *)
Inductive population_index : Type :=
| Idx (idx : nat)
| EmptySequence
| UnboundLocalError.

Definition np_argmax_Q (l : list Q) : population_index :=
  match l with
  | [] => EmptySequence
  | x :: t => Idx (argbest Qgtb x 0 1 t)
  end.

Definition np_argmin_Q (l : list Q) : population_index :=
  match l with
  | [] => EmptySequence
  | x :: t => Idx (argbest Qltb x 0 1 t)
  end.

Import String.

(** [_get_index_population], with the attribute [population_to_keep] as
    first argument. *)
Definition _get_index_population (population_to_keep : String.string)
  (means weights : list Q) : population_index :=
  if String.eqb population_to_keep "largest"%string then np_argmax_Q means
  else if String.eqb population_to_keep "smallest"%string then np_argmin_Q means
  else if String.eqb population_to_keep "mostcommon"%string then np_argmax_Q weights
  else if String.eqb population_to_keep "leastcommon"%string then np_argmin_Q weights
  else UnboundLocalError.

(** [visualize_filtering_results(plot_fig=False, return_maps=True)]: the
    class map, without any plotting.  On an object that has not filtered
    yet, [self.mask] is [None] or [self.ids] does not exist: the attribute
    access fails. *)
Definition visualize_filtering_results (self : session) : result ndarray :=
  match mask self with
  | None => Raise AttributeError
  | Some mask =>
      let class_ids := list_set (ids self) in
      match ids_to_remove self with
      | None => Raise AttributeError
      | Some ids_to_remove =>
          let ids_discard := ids_to_remove in
          let ids_keep :=
            List.filter (fun v => negb (py_in v ids_to_remove)) class_ids in
          let final_mask :=
            map (fun v => if np_isin v ids_keep then 2 else v) (ravel mask) in
          let final_mask :=
            map (fun '(v, final) => if np_isin v ids_discard then 1 else final)
                (combine (ravel mask) final_mask) in
          Ok (mk_ndarray (nrows mask) (ncols mask) final_mask)
      end
  end.

End SizeFilter.

(** ** Example sessions *)

Module Examples.
Import MatchNucleusCytosolIds.

(** A session of [MatchNucleusCytosolIds(filtering_threshold=0.5)] whose
    masks are loaded. *)
Definition loaded (nuc cyt : ndarray) : session :=
  set_cytosol_mask cyt (set_nucleus_mask nuc (__init__ (1 # 2) None true 7)).

(** Nucleus 1 on nine pixels: eight on cytosol 10, one on cytosol 7. *)
Definition nuc_90 : ndarray := mk_ndarray 1 10 [0; 1; 1; 1; 1; 1; 1; 1; 1; 1].
Definition cyt_90 : ndarray := mk_ndarray 1 10 [0; 10; 10; 10; 10; 10; 10; 10; 10; 7].

(** Nucleus 1 on three pixels: two on cytosol 5, one on background. *)
Definition nuc_edge : ndarray := mk_ndarray 1 4 [0; 1; 1; 1].
Definition cyt_edge : ndarray := mk_ndarray 1 4 [0; 0; 5; 5].

(** Nuclei 1 and 2 inside cytosol 10, next to cytosol 20. *)
Definition nuc_pair : ndarray := mk_ndarray 2 4 [1; 1; 0; 0; 2; 2; 0; 0].
Definition cyt_pair : ndarray := mk_ndarray 2 4 [10; 10; 10; 20; 10; 10; 20; 20].

(** A nucleus mask of shape (1, 2) and a cytosol mask of shape (2, 3). *)
Definition nuc_small : ndarray := mk_ndarray 1 2 [0; 1].
Definition cyt_large : ndarray := mk_ndarray 2 3 [0; 5; 5; 5; 5; 5].

(** An all-background nucleus mask and a cytosol mask without background. *)
Definition nuc_empty : ndarray := mk_ndarray 1 2 [0; 0].
Definition cyt_full : ndarray := mk_ndarray 1 2 [5; 7].

(** A session with downsampling factor 1 and no smoothing whose masks and
    results are in place: the lookup table [{1: 10}] and cytosol 7
    discarded. *)
Definition downsampled_session : session :=
  {| filtering_threshold := 1 # 2;
     downsample := Some (Build_downsampling 1 false 7);
     nucleus_mask := Some nuc_90;
     cytosol_mask := Some cyt_90;
     _nucleus_lookup_dict := [(1, 10)];
     nuclei_discard_list := [];
     cytosol_discard_list := [7];
     cytosol_count := Some [(10, 1%nat)];
     nucleus_lookup_dict := true |}.

(** Object 1 on one pixel and object 2 on three, without background. *)
Definition mask_no_background : ndarray := mk_ndarray 1 4 [1; 2; 2; 2].

(** Objects 1, 2 and 3 on one, two and three pixels, with background. *)
Definition mask_three_objects : ndarray := mk_ndarray 1 7 [0; 1; 2; 2; 3; 3; 3].

(** Stand-ins for the external functions, to evaluate sessions that do not
    reach them. *)
Definition no_externals : externals :=
  {| downsample_img_pxs := fun m _ => m;
     disk := fun _ => mk_ndarray 0 0 [];
     erosion := fun m _ => m;
     dilation := fun m _ => m |}.

End Examples.

(** ** Scenarios *)

(** Nucleus ids {1, 2} and cytosol ids {10, 20} on pixel-aligned masks, with
    every pixel of both nuclei on cytosol 10. *)
Definition two_nuclei_in_cytosol_10 (nuc cyt : ndarray) : Prop :=
  well_shaped nuc /\ well_shaped cyt /\ same_shape nuc cyt /\
  (forall v, In v (ravel nuc) -> v = 0 \/ v = 1 \/ v = 2) /\
  In 1 (ravel nuc) /\ In 2 (ravel nuc) /\
  (forall v, In v (ravel cyt) -> v = 0 \/ v = 10 \/ v = 20) /\
  In 10 (ravel cyt) /\ In 20 (ravel cyt) /\
  Forall2 (fun n c => n <> 0 -> c = 10) (ravel nuc) (ravel cyt).

(** * Properties *)

(** ** [np.unique] *)

Lemma insert_unique_In (x y : Z) (l : list Z) :
  In y (insert_unique x l) <-> y = x \/ In y l.
Proof.
  induction l as [|h t IH]; simpl.
  - intuition.
  - destruct (Z.ltb_spec x h); simpl; [intuition|].
    destruct (Z.eqb_spec x h); simpl; [subst; intuition|].
    rewrite IH. intuition.
Qed.

Lemma insert_unique_sorted (x : Z) (l : list Z) :
  StronglySorted Z.lt l -> StronglySorted Z.lt (insert_unique x l).
Proof.
  induction 1 as [|h t Hs IH Hh]; simpl.
  - repeat constructor.
  - destruct (Z.ltb_spec x h).
    + constructor; [constructor; assumption|].
      constructor; [assumption|].
      eapply Forall_impl; [|exact Hh]. simpl; intros; lia.
    + destruct (Z.eqb_spec x h); [constructor; assumption|].
      constructor; [assumption|].
      apply Forall_forall. intros y Hy.
      apply insert_unique_In in Hy. destruct Hy as [->|Hy]; [lia|].
      rewrite Forall_forall in Hh. auto.
Qed.

Lemma np_unique_In (l : list Z) (x : Z) : In x (np_unique l) <-> In x l.
Proof.
  induction l as [|h t IH]; simpl; [tauto|].
  rewrite insert_unique_In, IH. intuition.
Qed.

Lemma np_unique_sorted (l : list Z) : StronglySorted Z.lt (np_unique l).
Proof.
  induction l; simpl; [constructor | apply insert_unique_sorted; assumption].
Qed.

Lemma sorted_lt_NoDup (l : list Z) : StronglySorted Z.lt l -> NoDup l.
Proof.
  induction 1 as [|h t Hs IH Hh]; constructor; [|assumption].
  intro Hin. rewrite Forall_forall in Hh. specialize (Hh _ Hin). lia.
Qed.

Lemma np_unique_NoDup (l : list Z) : NoDup (np_unique l).
Proof. apply sorted_lt_NoDup, np_unique_sorted. Qed.

(** Two strictly increasing lists with the same elements are equal. *)
Lemma sorted_lt_ext (l1 l2 : list Z) :
  StronglySorted Z.lt l1 -> StronglySorted Z.lt l2 ->
  (forall x, In x l1 <-> In x l2) -> l1 = l2.
Proof.
  intros H1. revert l2.
  induction H1 as [|h1 t1 Hs1 IH Hh1]; intros l2 H2 Hext.
  - destruct l2 as [|h2 t2]; [reflexivity|].
    exfalso. apply (Hext h2). left; reflexivity.
  - destruct H2 as [|h2 t2 Hs2 Hh2].
    + exfalso. apply (Hext h1). left; reflexivity.
    + rewrite Forall_forall in Hh1, Hh2.
      assert (h1 = h2) as ->.
      { assert (In h1 (h2 :: t2)) as [E|E] by (apply Hext; left; reflexivity);
          [congruence|].
        assert (In h2 (h1 :: t1)) as [E'|E'] by (apply Hext; left; reflexivity);
          [congruence|].
        specialize (Hh1 _ E'). specialize (Hh2 _ E). lia. }
      f_equal. apply IH; [assumption|].
      intro x. split; intro Hx.
      * assert (In x (h2 :: t2)) as [E|E] by (apply Hext; right; assumption);
          [|assumption].
        specialize (Hh1 _ Hx). lia.
      * assert (In x (h2 :: t1)) as [E|E] by (apply Hext; right; assumption);
          [|assumption].
        specialize (Hh2 _ Hx). lia.
Qed.

(** The first item of [np.unique] is the least value of the array. *)
Lemma np_unique_head (l : list Z) (h : Z) (t : list Z) :
  np_unique l = h :: t ->
  In h l /\ (forall x, In x l -> h <= x) /\ (forall x, In x t <-> In x l /\ h < x).
Proof.
  intro E.
  pose proof (np_unique_sorted l) as Hs. rewrite E in Hs.
  apply StronglySorted_inv in Hs. destruct Hs as [_ Hh].
  rewrite Forall_forall in Hh.
  assert (Hin : forall x, In x l <-> x = h \/ In x t).
  { intro x. rewrite <- np_unique_In, E. simpl. intuition. }
  split; [apply Hin; left; reflexivity|]. split.
  - intros x Hx. apply Hin in Hx. destruct Hx as [->|Hx]; [lia|].
    specialize (Hh _ Hx). lia.
  - intro x. split.
    + intro Hx. split; [apply Hin; right; assumption | apply Hh; assumption].
    + intros [Hx Hlt]. apply Hin in Hx. destruct Hx as [->|Hx]; [lia|assumption].
Qed.

(** [np.unique(mask)[1:]] keeps the values above the least one of the mask. *)
Lemma get_unique_ids_spec (mask : ndarray) (v : Z) :
  In v (_BaseFilter.get_unique_ids mask) <->
  In v (ravel mask) /\ exists u, In u (ravel mask) /\ u < v.
Proof.
  unfold _BaseFilter.get_unique_ids.
  destruct (np_unique (ravel mask)) as [|h t] eqn:E; simpl.
  - split; [tauto|]. intros [Hv _]. apply np_unique_In in Hv.
    rewrite E in Hv. destruct Hv.
  - apply np_unique_head in E. destruct E as (Hh & Hmin & Ht).
    rewrite Ht. split.
    + intros [Hv Hlt]. split; [assumption|]. exists h. auto.
    + intros [Hv (u & Hu & Hlt)]. split; [assumption|].
      specialize (Hmin _ Hu). lia.
Qed.

(** On a label mask with a background pixel, [get_unique_ids] is the set of
    positive values of the mask. *)
Lemma get_unique_ids_with_background (mask : ndarray) (v : Z) :
  Forall (fun x => 0 <= x) (ravel mask) -> In 0 (ravel mask) ->
  (In v (_BaseFilter.get_unique_ids mask) <-> In v (ravel mask) /\ 0 < v).
Proof.
  intros Hnn H0. rewrite get_unique_ids_spec. rewrite Forall_forall in Hnn.
  split.
  - intros [Hv (u & Hu & Hlt)]. split; [assumption|].
    specialize (Hnn _ Hu). lia.
  - intros [Hv Hpos]. split; [assumption|]. exists 0. auto.
Qed.

Lemma get_unique_ids_NoDup (mask : ndarray) :
  NoDup (_BaseFilter.get_unique_ids mask).
Proof.
  unfold _BaseFilter.get_unique_ids.
  pose proof (np_unique_NoDup (ravel mask)) as H.
  destruct (np_unique (ravel mask)); simpl; [constructor|].
  inversion H; assumption.
Qed.

Lemma get_unique_ids_no_background (mask : ndarray) :
  Forall (fun x => 0 <= x) (ravel mask) ->
  ~ In 0 (_BaseFilter.get_unique_ids mask).
Proof.
  intros Hnn H0. apply get_unique_ids_spec in H0.
  destruct H0 as [_ (u & Hu & Hlt)].
  rewrite Forall_forall in Hnn. specialize (Hnn _ Hu). lia.
Qed.

(** C8 (code defect).  [get_unique_ids] is [np.unique(mask)[1:]]: it drops
    the least value of the mask, whatever it is.  On the label mask [[1, 2]],
    which has no background pixel, the result is [[2]]: the positive id 1
    occurs in the mask and is omitted. *)
Theorem get_unique_ids_omits_least_id :
  let mask := mk_ndarray 1 2 [1; 2] in
  label_mask mask /\
  _BaseFilter.get_unique_ids mask = [2] /\
  In 1 (ravel mask) /\ 0 < 1 /\
  ~ In 1 (_BaseFilter.get_unique_ids mask).
Proof.
  cbv zeta. repeat split.
  - repeat constructor; lia.
  - simpl. auto.
  - simpl. intros [H|[]]. discriminate.
Qed.

(** ** [get_updated_mask] *)

Lemma np_isin_In (v : Z) (ids : list Z) : np_isin v ids = true <-> In v ids.
Proof.
  unfold np_isin. rewrite existsb_exists. split.
  - intros (x & Hx & E). apply Z.eqb_eq in E. subst. assumption.
  - intro H. exists v. split; [assumption | apply Z.eqb_refl].
Qed.

Lemma np_isin_false (v : Z) (ids : list Z) : np_isin v ids = false <-> ~ In v ids.
Proof.
  rewrite <- np_isin_In. destruct (np_isin v ids); intuition congruence.
Qed.

Lemma get_updated_mask_nil (mask : ndarray) :
  _BaseFilter.get_updated_mask mask [] = mask.
Proof.
  destruct mask as [r c px]. unfold _BaseFilter.get_updated_mask. simpl.
  f_equal. apply map_id.
Qed.

Lemma get_updated_mask_pixels (mask : ndarray) (ids : list Z) :
  Forall2 (fun v v' => (In v ids -> v' = 0) /\ (~ In v ids -> v' = v))
          (ravel mask) (ravel (_BaseFilter.get_updated_mask mask ids)).
Proof.
  simpl. induction (ravel mask) as [|v px IH]; simpl; constructor; [|exact IH].
  destruct (np_isin v ids) eqn:E.
  - apply np_isin_In in E. tauto.
  - apply np_isin_false in E. tauto.
Qed.

(** C9.  [get_updated_mask] keeps the shape, sets to 0 exactly the pixels
    whose original value is among the ids and leaves every other pixel as it
    was; with no id to remove the mask is returned unchanged. *)
Theorem get_updated_mask_zeroes_exactly (mask : ndarray) (ids : list Z) :
  nrows (_BaseFilter.get_updated_mask mask ids) = nrows mask /\
  ncols (_BaseFilter.get_updated_mask mask ids) = ncols mask /\
  Forall2 (fun v v' => (In v ids -> v' = 0) /\ (~ In v ids -> v' = v))
          (ravel mask) (ravel (_BaseFilter.get_updated_mask mask ids)) /\
  _BaseFilter.get_updated_mask mask [] = mask.
Proof.
  repeat split.
  - apply get_updated_mask_pixels.
  - apply get_updated_mask_nil.
Qed.

(** ** Counting *)

Lemma list_sum_map_add {A : Type} (f g : A -> nat) (l : list A) :
  list_sum (map (fun x => (f x + g x)%nat) l)
  = (list_sum (map f l) + list_sum (map g l))%nat.
Proof. induction l; simpl; lia. Qed.

Lemma list_sum_indicator (x : Z) (u : list Z) :
  NoDup u -> In x u ->
  list_sum (map (fun v => if Z.eq_dec x v then 1%nat else 0%nat) u) = 1%nat.
Proof.
  induction 1 as [|h t Hnin Hnd IH]; simpl; [tauto|].
  intros [->|Hin].
  - destruct (Z.eq_dec x x); [|congruence].
    assert (list_sum (map (fun v => if Z.eq_dec x v then 1%nat else 0%nat) t) = 0%nat)
      as E; [|rewrite E; reflexivity].
    clear IH Hnd. induction t as [|a t IHt]; simpl; [reflexivity|].
    destruct (Z.eq_dec x a); [subst; exfalso; apply Hnin; left; reflexivity|].
    apply IHt. intro H. apply Hnin. right. assumption.
  - destruct (Z.eq_dec x h); [subst; contradiction|]. simpl. auto.
Qed.

Lemma list_sum_count_occ (l u : list Z) :
  NoDup u -> (forall x, In x l -> In x u) ->
  list_sum (map (count_occ Z.eq_dec l) u) = length l.
Proof.
  intros Hnd. induction l as [|x t IH]; intros Hsub; simpl.
  - clear. induction u; simpl; auto.
  - rewrite (map_ext _ (fun v => (count_occ Z.eq_dec t v
                                  + if Z.eq_dec x v then 1 else 0)%nat)).
    + rewrite list_sum_map_add, IH, list_sum_indicator.
      * lia.
      * assumption.
      * apply Hsub. left; reflexivity.
      * intros y Hy. apply Hsub. right; assumption.
    + intro v. destruct (Z.eq_dec x v); lia.
Qed.

(** [np.sum(counts)] is the number of pixels of the array. *)
Lemma np_unique_counts_sum (l : list Z) :
  list_sum (np_unique_counts l) = length l.
Proof.
  apply list_sum_count_occ; [apply np_unique_NoDup|].
  intros x Hx. apply np_unique_In. assumption.
Qed.

(** ** [np.argmax] on a boolean array *)

Lemma existsb_map_id {A : Type} (f : A -> bool) (l : list A) :
  existsb (fun b => b) (map f l) = existsb f l.
Proof. induction l; simpl; congruence. Qed.

Lemma np_argmax_find {A : Type} (f : A -> bool) (l : list A) (d : A) :
  existsb f l = true ->
  find f l = Some (nth (np_argmax (map f l)) l d).
Proof.
  induction l as [|a t IH]; simpl; [discriminate|].
  destruct (f a) eqn:E; simpl; [reflexivity|].
  intro H. rewrite existsb_map_id, H. simpl. auto.
Qed.

(** In a strictly increasing list, [find] returns the least item that
    passes the test. *)
Lemma find_least (f : Z -> bool) (l : list Z) (c : Z) :
  StronglySorted Z.lt l ->
  In c l -> f c = true ->
  (forall c', In c' l -> c' < c -> f c' = false) ->
  find f l = Some c.
Proof.
  induction 1 as [|h t Hs IH Hh]; simpl; [tauto|].
  intros Hin Hc Hleast. rewrite Forall_forall in Hh.
  destruct Hin as [->|Hin]; [rewrite Hc; reflexivity|].
  rewrite (Hleast h); [|left; reflexivity|apply Hh; assumption].
  apply IH; auto.
Qed.

Lemma find_before (f : Z -> bool) (l : list Z) (c : Z) :
  StronglySorted Z.lt l -> find f l = Some c ->
  forall c', In c' l -> c' < c -> f c' = false.
Proof.
  induction 1 as [|h t Hs IH Hh]; simpl; [discriminate|].
  rewrite Forall_forall in Hh.
  destruct (f h) eqn:Fh.
  - intros E c' Hin Hlt. inversion E; subst.
    destruct Hin as [->|Hin]; [lia|]. specialize (Hh _ Hin). lia.
  - intros E c' [->|Hin] Hlt; [assumption|]. apply (IH E); assumption.
Qed.

Lemma find_none_existsb {A : Type} (f : A -> bool) (l : list A) :
  (forall x, In x l -> f x = false) -> existsb f l = false.
Proof.
  intro H. induction l as [|a t IH]; simpl; [reflexivity|].
  rewrite (H a) by (left; reflexivity). simpl.
  apply IH. intros x Hx. apply H. right. assumption.
Qed.

(** ** [_match_nucleus_id] *)

Section MatchNucleusId.
Import MatchNucleusCytosolIds.

Variable self : session.
Variables nuc cyt : ndarray.
Variable nucleus_id : Z.
Variable footprint : list Z.
Hypothesis Hloaded : loaded_masks self = Ok (nuc, cyt).
Hypothesis Hfootprint : potential_cytosol nuc cyt nucleus_id = Ok footprint.

Let discarded : session :=
  set_nuclei_discard (nuclei_discard_list self ++ [nucleus_id]) self.

Let reaches (c : Z) : bool :=
  Qle_bool (filtering_threshold self) (fraction footprint c).

Lemma forallb_nonzero (l : list Z) :
  forallb (fun v => negb (v =? 0)) l = true <-> ~ In 0 l.
Proof.
  rewrite forallb_forall. split.
  - intros H H0. specialize (H _ H0). discriminate.
  - intros H x Hx. destruct (Z.eqb_spec x 0); [subst; contradiction|reflexivity].
Qed.

(** The method, with numpy's vector operations read label by label. *)
Lemma match_nucleus_id_unfold :
  _match_nucleus_id nucleus_id self =
  if forallb (fun v => negb (v =? 0)) footprint then
    match find reaches (np_unique footprint) with
    | Some cytosol_id =>
        if negb (cytosol_id =? 0) then
          Ok (Some cytosol_id,
              set_lookup (dict_set nucleus_id cytosol_id (_nucleus_lookup_dict self)) self)
        else Ok (None, discarded)
    | None => Ok (None, discarded)
    end
  else Ok (None, discarded).
Proof.
  unfold _match_nucleus_id. rewrite Hloaded. simpl.
  rewrite Hfootprint. simpl.
  destruct (forallb _ footprint); [|reflexivity].
  rewrite np_unique_counts_sum. unfold np_unique_counts.
  rewrite !map_map.
  change (fun x => Qle_bool (filtering_threshold self)
                     (proportion (count_occ Z.eq_dec footprint x) (length footprint)))
    with reaches.
  rewrite existsb_map_id.
  destruct (existsb reaches (np_unique footprint)) eqn:E.
  - rewrite (np_argmax_find reaches _ 0 E). reflexivity.
  - destruct (find reaches (np_unique footprint)) as [c|] eqn:F; [|reflexivity].
    apply find_some in F. destruct F as [Hin Hc].
    assert (existsb reaches (np_unique footprint) = true)
      by (apply existsb_exists; eauto).
    congruence.
Qed.

Lemma match_nucleus_id_background :
  In 0 footprint -> _match_nucleus_id nucleus_id self = Ok (None, discarded).
Proof.
  intro H0. rewrite match_nucleus_id_unfold.
  destruct (forallb _ footprint) eqn:E; [|reflexivity].
  apply forallb_nonzero in E. contradiction.
Qed.

Lemma match_nucleus_id_matched (c : Z) :
  ~ In 0 footprint ->
  In c footprint ->
  (filtering_threshold self <= fraction footprint c)%Q ->
  (forall c', In c' footprint -> c' < c ->
              ~ (filtering_threshold self <= fraction footprint c')%Q) ->
  _match_nucleus_id nucleus_id self
  = Ok (Some c, set_lookup (dict_set nucleus_id c (_nucleus_lookup_dict self)) self).
Proof.
  intros Hnz Hin Hc Hleast. rewrite match_nucleus_id_unfold.
  rewrite (proj2 (forallb_nonzero footprint) Hnz).
  rewrite (find_least reaches _ c).
  - destruct (Z.eqb_spec c 0); [subst; contradiction|reflexivity].
  - apply np_unique_sorted.
  - apply np_unique_In. assumption.
  - apply Qle_bool_iff. assumption.
  - intros c' Hin' Hlt. apply -> np_unique_In in Hin'.
    specialize (Hleast _ Hin' Hlt). unfold reaches.
    destruct (Qle_bool _ _) eqn:E; [|reflexivity].
    apply Qle_bool_iff in E. contradiction.
Qed.

Lemma match_nucleus_id_unmatched :
  (forall c, In c footprint ->
             ~ (filtering_threshold self <= fraction footprint c)%Q) ->
  _match_nucleus_id nucleus_id self = Ok (None, discarded).
Proof.
  intros Hnone. rewrite match_nucleus_id_unfold.
  destruct (forallb _ footprint); [|reflexivity].
  destruct (find reaches (np_unique footprint)) as [c|] eqn:F; [|reflexivity].
  apply find_some in F. destruct F as [Hin Hc].
  apply -> np_unique_In in Hin. apply Qle_bool_iff in Hc.
  exfalso. exact (Hnone _ Hin Hc).
Qed.

(** The converse reading: what a returned match says about the label. *)
Lemma match_nucleus_id_result (r : option Z) (self' : session) :
  _match_nucleus_id nucleus_id self = Ok (r, self') ->
  match r with
  | Some c =>
      ~ In 0 footprint /\ In c footprint /\
      (filtering_threshold self <= fraction footprint c)%Q /\
      (forall c', In c' footprint -> c' < c ->
                  ~ (filtering_threshold self <= fraction footprint c')%Q) /\
      self' = set_lookup (dict_set nucleus_id c (_nucleus_lookup_dict self)) self
  | None => self' = discarded
  end.
Proof.
  rewrite match_nucleus_id_unfold.
  destruct (forallb _ footprint) eqn:Hnz; [|intro E; inversion E; reflexivity].
  destruct (find reaches (np_unique footprint)) as [c|] eqn:F;
    [|intro E; inversion E; reflexivity].
  destruct (negb (c =? 0)); intro E; inversion E; subst; [|reflexivity].
  apply forallb_nonzero in Hnz.
  pose proof (find_some _ _ F) as [Hin Hc].
  apply -> np_unique_In in Hin. apply Qle_bool_iff in Hc.
  repeat split; try assumption.
  intros c' Hin' Hlt Hc'.
  apply <- np_unique_In in Hin'. apply Qle_bool_iff in Hc'.
  pose proof (find_before reaches _ c (np_unique_sorted footprint) F c' Hin' Hlt).
  unfold reaches in *. congruence.
Qed.

End MatchNucleusId.

(** ** Claims on [_match_nucleus_id] *)

Lemma dict_get_set_same {V : Type} (k : Z) (v : V) (d : dict V) :
  dict_get k (dict_set k v d) = Some v.
Proof.
  induction d as [|[k' v'] t IH]; simpl.
  - rewrite Z.eqb_refl. reflexivity.
  - destruct (Z.eqb_spec k k') as [E|E]; simpl.
    + rewrite Z.eqb_refl. reflexivity.
    + destruct (Z.eqb_spec k k'); [contradiction|assumption].
Qed.

(** C3.  For a nucleus whose footprint has no cytosol-background pixel,
    [_match_nucleus_id] returns normally and either
    - returns the numerically least label of the footprint whose fraction
      reaches the threshold (the first such label of the ascending scan) and
      records it in the lookup dict, leaving the discard lists as they were,
      or
    - no label reaches the threshold: it returns [None], appends the nucleus
      to the nuclei discard list and leaves the lookup dict as it was. *)
Theorem match_nucleus_id_first_label_in_ascending_order
  (self : MatchNucleusCytosolIds.session) (nuc cyt : ndarray)
  (nucleus_id : Z) (footprint : list Z) :
  MatchNucleusCytosolIds.loaded_masks self = Ok (nuc, cyt) ->
  MatchNucleusCytosolIds.potential_cytosol nuc cyt nucleus_id = Ok footprint ->
  ~ In 0 footprint ->
  let threshold := MatchNucleusCytosolIds.filtering_threshold self in
  let fraction := MatchNucleusCytosolIds.fraction footprint in
  exists r self',
    MatchNucleusCytosolIds._match_nucleus_id nucleus_id self = Ok (r, self') /\
    match r with
    | Some c =>
        In c footprint /\ (threshold <= fraction c)%Q /\
        (forall c', In c' footprint -> c' < c -> ~ (threshold <= fraction c')%Q) /\
        dict_get nucleus_id (MatchNucleusCytosolIds._nucleus_lookup_dict self') = Some c /\
        self' = MatchNucleusCytosolIds.set_lookup
                  (dict_set nucleus_id c
                     (MatchNucleusCytosolIds._nucleus_lookup_dict self)) self
    | None =>
        (forall c, In c footprint -> ~ (threshold <= fraction c)%Q) /\
        MatchNucleusCytosolIds.nuclei_discard_list self'
        = MatchNucleusCytosolIds.nuclei_discard_list self ++ [nucleus_id] /\
        MatchNucleusCytosolIds._nucleus_lookup_dict self'
        = MatchNucleusCytosolIds._nucleus_lookup_dict self
    end.
Proof.
  intros Hloaded Hfp Hnz threshold fraction.
  pose proof (match_nucleus_id_unfold self nuc cyt nucleus_id footprint Hloaded Hfp)
    as Hunfold.
  rewrite (proj2 (forallb_nonzero footprint) Hnz) in Hunfold.
  destruct (find _ (np_unique footprint)) as [c|] eqn:F.
  - pose proof (find_some _ _ F) as [Hin Hc].
    apply -> np_unique_In in Hin.
    destruct (Z.eqb_spec c 0) as [->|Hc0]; [contradiction|]. simpl in Hunfold.
    eexists _, _. split; [exact Hunfold|].
    pose proof (match_nucleus_id_result self nuc cyt nucleus_id footprint
                  Hloaded Hfp _ _ Hunfold) as (_ & _ & Hreach & Hleast & _).
    repeat split; try assumption.
    apply dict_get_set_same.
  - eexists _, _. split; [exact Hunfold|]. simpl. repeat split.
    intros c Hin Hc.
    apply <- np_unique_In in Hin. apply Qle_bool_iff in Hc.
    pose proof (find_none _ _ F _ Hin) as Hf. simpl in Hf.
    unfold threshold, fraction in Hc. congruence.
Qed.

Lemma match_nucleus_id_first_label_witness :
  let self := Examples.loaded Examples.nuc_90 Examples.cyt_90 in
  let footprint := [10; 10; 10; 10; 10; 10; 10; 10; 7] in
  MatchNucleusCytosolIds.potential_cytosol Examples.nuc_90 Examples.cyt_90 1
  = Ok footprint /\
  ~ In 0 footprint /\
  exists r self',
    MatchNucleusCytosolIds._match_nucleus_id 1 self = Ok (r, self') /\
    match r with
    | Some c =>
        In c footprint /\
        (MatchNucleusCytosolIds.filtering_threshold self
         <= MatchNucleusCytosolIds.fraction footprint c)%Q /\
        (forall c', In c' footprint -> c' < c ->
           ~ (MatchNucleusCytosolIds.filtering_threshold self
              <= MatchNucleusCytosolIds.fraction footprint c')%Q) /\
        dict_get 1 (MatchNucleusCytosolIds._nucleus_lookup_dict self') = Some c /\
        self' = MatchNucleusCytosolIds.set_lookup
                  (dict_set 1 c (MatchNucleusCytosolIds._nucleus_lookup_dict self))
                  self
    | None =>
        (forall c, In c footprint ->
           ~ (MatchNucleusCytosolIds.filtering_threshold self
              <= MatchNucleusCytosolIds.fraction footprint c)%Q) /\
        MatchNucleusCytosolIds.nuclei_discard_list self'
        = MatchNucleusCytosolIds.nuclei_discard_list self ++ [1] /\
        MatchNucleusCytosolIds._nucleus_lookup_dict self'
        = MatchNucleusCytosolIds._nucleus_lookup_dict self
    end.
Proof.
  cbv zeta.
  assert (Hnz : ~ In 0 [10; 10; 10; 10; 10; 10; 10; 10; 7])
    by (simpl; intuition discriminate).
  split; [reflexivity|]. split; [exact Hnz|].
  exact (match_nucleus_id_first_label_in_ascending_order
           (Examples.loaded Examples.nuc_90 Examples.cyt_90)
           Examples.nuc_90 Examples.cyt_90 1 _ eq_refl eq_refl Hnz).
Defined.

(** C4.  When a pixel of the nucleus footprint lies on cytosol label 0,
    [_match_nucleus_id] returns [None] and appends the nucleus to the nuclei
    discard list; nothing else of the session changes, in particular no
    lookup entry is written, whatever the threshold and whatever the other
    labels of the footprint are. *)
Theorem match_nucleus_id_discards_nucleus_on_background
  (self : MatchNucleusCytosolIds.session) (nuc cyt : ndarray)
  (nucleus_id : Z) (footprint : list Z) :
  MatchNucleusCytosolIds.loaded_masks self = Ok (nuc, cyt) ->
  MatchNucleusCytosolIds.potential_cytosol nuc cyt nucleus_id = Ok footprint ->
  In 0 footprint ->
  exists self',
    MatchNucleusCytosolIds._match_nucleus_id nucleus_id self = Ok (None, self') /\
    self' = MatchNucleusCytosolIds.set_nuclei_discard
              (MatchNucleusCytosolIds.nuclei_discard_list self ++ [nucleus_id]) self /\
    In nucleus_id (MatchNucleusCytosolIds.nuclei_discard_list self') /\
    MatchNucleusCytosolIds._nucleus_lookup_dict self'
    = MatchNucleusCytosolIds._nucleus_lookup_dict self /\
    MatchNucleusCytosolIds.cytosol_discard_list self'
    = MatchNucleusCytosolIds.cytosol_discard_list self.
Proof.
  intros Hloaded Hfp H0. eexists. split.
  - exact (match_nucleus_id_background self nuc cyt nucleus_id footprint
             Hloaded Hfp H0).
  - repeat split. simpl. apply in_or_app. right. left. reflexivity.
Qed.

Lemma match_nucleus_id_discards_nucleus_on_background_witness :
  let self := Examples.loaded Examples.nuc_edge Examples.cyt_edge in
  MatchNucleusCytosolIds.potential_cytosol Examples.nuc_edge Examples.cyt_edge 1
  = Ok [0; 5; 5] /\
  In 0 [0; 5; 5] /\
  exists self',
    MatchNucleusCytosolIds._match_nucleus_id 1 self = Ok (None, self') /\
    self' = MatchNucleusCytosolIds.set_nuclei_discard
              (MatchNucleusCytosolIds.nuclei_discard_list self ++ [1]) self /\
    In 1 (MatchNucleusCytosolIds.nuclei_discard_list self') /\
    MatchNucleusCytosolIds._nucleus_lookup_dict self'
    = MatchNucleusCytosolIds._nucleus_lookup_dict self /\
    MatchNucleusCytosolIds.cytosol_discard_list self'
    = MatchNucleusCytosolIds.cytosol_discard_list self.
Proof.
  cbv zeta.
  assert (H0 : In 0 [0; 5; 5]) by (left; reflexivity).
  split; [reflexivity|]. split; [exact H0|].
  exact (match_nucleus_id_discards_nucleus_on_background
           (Examples.loaded Examples.nuc_edge Examples.cyt_edge)
           Examples.nuc_edge Examples.cyt_edge 1 _ eq_refl eq_refl H0).
Defined.

(** ** Dicts *)

Lemma py_in_In (x : Z) (l : list Z) : py_in x l = true <-> In x l.
Proof. exact (np_isin_In x l). Qed.

Lemma py_in_false (x : Z) (l : list Z) : py_in x l = false <-> ~ In x l.
Proof. exact (np_isin_false x l). Qed.

Lemma list_set_In (x : Z) (l : list Z) : In x (list_set l) <-> In x l.
Proof. apply nodup_In. Qed.

Lemma py_in_list_set (x : Z) (l : list Z) : py_in x (list_set l) = py_in x l.
Proof.
  destruct (py_in x l) eqn:E.
  - apply py_in_In, list_set_In, py_in_In. assumption.
  - apply py_in_false. rewrite list_set_In. apply py_in_false. assumption.
Qed.

Lemma dict_get_set {V : Type} (k k' : Z) (v : V) (d : dict V) :
  dict_get k (dict_set k' v d) = if k =? k' then Some v else dict_get k d.
Proof.
  induction d as [|[k0 v0] t IH]; simpl.
  - reflexivity.
  - destruct (Z.eqb_spec k' k0) as [->|E]; simpl.
    + destruct (Z.eqb_spec k k0); reflexivity.
    + rewrite IH. destruct (Z.eqb_spec k k0); [|reflexivity].
      destruct (Z.eqb_spec k k'); [congruence|reflexivity].
Qed.

Lemma dict_set_In {V : Type} (k : Z) (v : V) (d : dict V) (e : Z * V) :
  In e (dict_set k v d) -> e = (k, v) \/ In e d.
Proof.
  induction d as [|[k0 v0] t IH]; simpl.
  - intuition.
  - destruct (k =? k0); simpl; intuition.
Qed.

Lemma dict_set_keys {V : Type} (k : Z) (v : V) (d : dict V) (x : Z) :
  In x (map fst (dict_set k v d)) <-> x = k \/ In x (map fst d).
Proof.
  induction d as [|[k0 v0] t IH]; simpl.
  - intuition.
  - destruct (Z.eqb_spec k k0); simpl; [subst; intuition|].
    rewrite IH. intuition.
Qed.

Lemma dict_set_NoDup {V : Type} (k : Z) (v : V) (d : dict V) :
  NoDup (map fst d) -> NoDup (map fst (dict_set k v d)).
Proof.
  induction d as [|[k0 v0] t IH]; simpl; intro H.
  - repeat constructor. intros [].
  - inversion H as [|? ? Hnin Hnd]; subst.
    destruct (Z.eqb_spec k k0); simpl.
    + subst. constructor; assumption.
    + constructor; [|auto].
      rewrite dict_set_keys. intros [E|E]; [congruence|contradiction].
Qed.

(** With unique keys, an item of the dict is determined by its key. *)
Lemma dict_item_unique {V : Type} (d : dict V) (k : Z) (v v' : V) :
  NoDup (map fst d) -> In (k, v) d -> In (k, v') d -> v = v'.
Proof.
  induction d as [|[k0 v0] t IH]; simpl; [tauto|].
  intros H. inversion H as [|? ? Hnin Hnd]; subst.
  intros [E|E] [E'|E'].
  - congruence.
  - inversion E; subst. exfalso. apply Hnin.
    change k with (fst (k, v')). apply in_map. assumption.
  - inversion E'; subst. exfalso. apply Hnin.
    change k with (fst (k, v)). apply in_map. assumption.
  - auto.
Qed.

Lemma filter_keys_NoDup {V : Type} (f : Z * V -> bool) (d : dict V) :
  NoDup (map fst d) -> NoDup (map fst (List.filter f d)).
Proof.
  induction d as [|e t IH]; simpl; intro H; [constructor|].
  inversion H as [|? ? Hnin Hnd]; subst.
  destruct (f e); simpl; [|auto].
  constructor; [|auto].
  intro Hin. apply Hnin. apply in_map_iff in Hin.
  destruct Hin as (e' & E & Hin). apply filter_In in Hin.
  apply in_map_iff. exists e'. tauto.
Qed.

Lemma filter_filter {A : Type} (f g : A -> bool) (l : list A) :
  List.filter g (List.filter f l) = List.filter (fun x => f x && g x) l.
Proof.
  induction l as [|a t IH]; simpl; [reflexivity|].
  destruct (f a); simpl; [destruct (g a)|]; congruence.
Qed.

Lemma filter_all {A : Type} (f : A -> bool) (l : list A) :
  (forall x, In x l -> f x = true) -> List.filter f l = l.
Proof.
  induction l as [|a t IH]; simpl; intro H; [reflexivity|].
  rewrite (H a) by (left; reflexivity). f_equal. auto.
Qed.

(** [del d[k]] on a present key drops its item. *)
Lemma dict_del_present {V : Type} (k : Z) (d : dict V) :
  NoDup (map fst d) -> In k (map fst d) ->
  dict_del k d = Ok (List.filter (fun e => negb (fst e =? k)) d).
Proof.
  induction d as [|[k0 v0] t IH]; simpl; [tauto|].
  intro H. inversion H as [|? ? Hnin Hnd]; subst.
  intros Hin. rewrite (Z.eqb_sym k0 k).
  destruct (Z.eqb_spec k k0) as [->|E]; simpl.
  - f_equal. symmetry. apply filter_all.
    intros [k1 v1] H1. simpl.
    destruct (Z.eqb_spec k1 k0); [|reflexivity].
    subst. exfalso. apply Hnin. change k0 with (fst (k0, v1)).
    apply in_map. assumption.
  - destruct Hin as [E'|Hin]; [congruence|].
    rewrite (IH Hnd Hin). reflexivity.
Qed.

(** [for k in ks: del d[k]] for distinct present keys. *)
Lemma forM_dict_del {V : Type} (ks : list Z) (d : dict V) :
  NoDup ks -> NoDup (map fst d) -> (forall k, In k ks -> In k (map fst d)) ->
  forM dict_del ks d = Ok (List.filter (fun e => negb (py_in (fst e) ks)) d).
Proof.
  intro Hks. revert d.
  induction Hks as [|k ks Hnin Hnd IH]; intros d Hd Hsub; simpl.
  - symmetry. f_equal. apply filter_all. reflexivity.
  - rewrite dict_del_present; [|assumption|apply Hsub; left; reflexivity].
    simpl. rewrite IH.
    + rewrite filter_filter. f_equal. apply filter_ext.
      intros [k1 v1]. simpl. unfold py_in. simpl.
      rewrite negb_orb. reflexivity.
    + apply filter_keys_NoDup. assumption.
    + intros k' Hk'. specialize (Hsub k' (or_intror Hk')).
      apply in_map_iff in Hsub. destruct Hsub as ([k1 v1] & E & Hin).
      simpl in E. subst k1. apply in_map_iff. exists (k', v1).
      split; [reflexivity|]. apply filter_In. split; [assumption|]. simpl.
      destruct (Z.eqb_spec k' k); [subst; contradiction|reflexivity].
Qed.

(** ** The stages of [get_lookup_table] *)

Section Stages.
Import MatchNucleusCytosolIds.

Lemma count_get_set (c x : Z) (n : nat) (cc : dict nat) :
  count_get c (dict_set x n cc) = if c =? x then n else count_get c cc.
Proof.
  unfold count_get. rewrite dict_get_set. destruct (c =? x); reflexivity.
Qed.

Lemma count_fold (vals : list Z) (cc : dict nat) (c : Z) :
  count_get c
    (fold_left (fun cytosol_count cytosol =>
                  dict_set cytosol (count_get cytosol cytosol_count + 1)%nat
                           cytosol_count) vals cc)
  = (count_get c cc + count_occ Z.eq_dec vals c)%nat.
Proof.
  revert cc. induction vals as [|x t IH]; intro cc; simpl; [lia|].
  rewrite IH, count_get_set.
  destruct (Z.eqb_spec c x) as [E|E]; destruct (Z.eq_dec x c);
    try congruence; subst; lia.
Qed.

(** [_count_cytosol_occurances]: the count of a cytosol id is the number of
    lookup items that map to it. *)
Lemma count_cytosol_occurances_spec (self : session) :
  exists cc,
    _count_cytosol_occurances self = set_cytosol_count cc self /\
    forall c, count_get c cc
              = count_occ Z.eq_dec (dict_values (_nucleus_lookup_dict self)) c.
Proof.
  eexists. split; [reflexivity|]. intro c. rewrite count_fold. reflexivity.
Qed.

Lemma check_for_unassigned_fold (ids : list Z) (self : session) :
  fold_left
    (fun self cytosol_id =>
       if negb (py_in cytosol_id (dict_values (_nucleus_lookup_dict self)))
       then set_cytosol_discard (cytosol_discard_list self ++ [cytosol_id]) self
       else self)
    ids self
  = set_cytosol_discard
      (cytosol_discard_list self
       ++ List.filter
            (fun c => negb (py_in c (dict_values (_nucleus_lookup_dict self)))) ids)
      self.
Proof.
  revert self. induction ids as [|c t IH]; intro self; simpl.
  - destruct self. unfold set_cytosol_discard. simpl. rewrite app_nil_r.
    reflexivity.
  - rewrite IH. destruct (py_in c _); simpl; [reflexivity|].
    unfold set_cytosol_discard. simpl. rewrite <- app_assoc. reflexivity.
Qed.

Lemma identify_multinucleated_fold (cc : dict nat) (items : dict Z)
  (self : session) :
  fold_left
    (fun self '(nucleus, cytosol) =>
       if (1 <? count_get cytosol cc)%nat
       then set_cytosol_discard (cytosol_discard_list self ++ [cytosol])
              (set_nuclei_discard (nuclei_discard_list self ++ [nucleus]) self)
       else self)
    items self
  = set_cytosol_discard
      (cytosol_discard_list self
       ++ map snd (List.filter (fun e => (1 <? count_get (snd e) cc)%nat) items))
      (set_nuclei_discard
         (nuclei_discard_list self
          ++ map fst (List.filter (fun e => (1 <? count_get (snd e) cc)%nat) items))
         self).
Proof.
  revert self. induction items as [|[n c] t IH]; intro self; simpl.
  - destruct self. unfold set_cytosol_discard, set_nuclei_discard. simpl.
    rewrite !app_nil_r. reflexivity.
  - rewrite IH. destruct (1 <? count_get c cc)%nat; simpl; [|reflexivity].
    unfold set_cytosol_discard, set_nuclei_discard. simpl.
    rewrite <- !app_assoc. reflexivity.
Qed.

Lemma cleanup_fold (nd cd : list Z) (items : dict Z) (acc : list Z) (n : Z) :
  In n (fold_left
          (fun _cleanup '(nucleus_id, cytosol_id) =>
             let _cleanup :=
               if py_in nucleus_id nd
               then _cleanup ++ [nucleus_id] else _cleanup in
             if py_in cytosol_id cd
             then _cleanup ++ [nucleus_id] else _cleanup)
          items acc)
  <-> In n acc \/ exists c, In (n, c) items /\ deleted nd cd (n, c) = true.
Proof.
  revert acc. induction items as [|[k v] t IH]; intro acc; simpl.
  - split; [auto|]. intros [H|(c & [] & _)]. assumption.
  - rewrite IH. unfold deleted. simpl. split.
    + intros [H|(c & Hin & Hd)].
      * destruct (py_in k nd) eqn:E1; destruct (py_in v cd) eqn:E2;
          repeat (apply in_app_or in H; destruct H as [H|H]);
          try (left; assumption);
          try (destruct H as [<-|[]]; right; exists v; split;
               [left; reflexivity | simpl; rewrite ?E1, ?E2; reflexivity]).
      * right. exists c. split; [right; assumption|assumption].
    + intros [H|(c & [E|Hin] & Hd)].
      * left. destruct (py_in k nd); destruct (py_in v cd);
          repeat (apply in_or_app; left); assumption.
      * inversion E; subst. left. simpl in Hd.
        destruct (py_in n nd); destruct (py_in c cd); try discriminate;
          apply in_or_app; right; left; reflexivity.
      * right. exists c. split; assumption.
Qed.

(** [_cleanup_lookup_dictionary] on a dict with unique keys: it returns
    normally and keeps the items that are not [deleted]. *)
Lemma cleanup_lookup_dictionary_spec (self : session) :
  NoDup (map fst (_nucleus_lookup_dict self)) ->
  _cleanup_lookup_dictionary self
  = Ok (set_lookup
          (List.filter
             (fun e => negb (deleted (nuclei_discard_list self)
                                     (cytosol_discard_list self) e))
             (_nucleus_lookup_dict self))
          self).
Proof.
  intro Hnd. unfold _cleanup_lookup_dictionary.
  rewrite forM_dict_del.
  - simpl. do 2 f_equal. apply filter_ext_in. intros [n c] Hin. simpl.
    f_equal. rewrite py_in_list_set.
    destruct (deleted _ _ (n, c)) eqn:D.
    + apply py_in_In, cleanup_fold. right. eauto.
    + apply py_in_false. rewrite cleanup_fold.
      intros [[]|(c' & Hin' & D')].
      rewrite (dict_item_unique _ _ _ _ Hnd Hin Hin') in D. congruence.
  - apply NoDup_nodup.
  - assumption.
  - intros k Hk. apply list_set_In, cleanup_fold in Hk.
    destruct Hk as [[]|(c & Hin & _)].
    change k with (fst (k, c)). apply in_map. assumption.
Qed.

End Stages.

Section AfterInitialization.
Import MatchNucleusCytosolIds.

Variable s : session.
Variables nuc cyt : ndarray.
Hypothesis Hloaded : loaded_masks s = Ok (nuc, cyt).
Hypothesis Hkeys : NoDup (map fst (_nucleus_lookup_dict s)).

(** The stages that follow [_initialize_lookup_table] return normally, and
    leave the lookup dict and the discard lists given by [final_lookup],
    [final_nuclei_discard] and [final_cytosol_discard]. *)
Lemma stages_after_initialization :
  exists sf,
    (let self := _count_cytosol_occurances s in
     self <- _check_for_unassigned_cytosols self ;;
     self <- _identify_multinucleated_cells self ;;
     let self := _cleanup_filtering_lists self in
     self <- _cleanup_lookup_dictionary self ;;
     Ok (publish_lookup self)) = Ok sf /\
    _nucleus_lookup_dict sf = final_lookup cyt s /\
    nuclei_discard_list sf = final_nuclei_discard s /\
    cytosol_discard_list sf = final_cytosol_discard cyt s /\
    nucleus_mask sf = nucleus_mask s /\
    cytosol_mask sf = cytosol_mask s /\
    downsample sf = downsample s /\
    filtering_threshold sf = filtering_threshold s /\
    nucleus_lookup_dict sf = true.
Proof.
  destruct (count_cytosol_occurances_spec s) as (cc & -> & Hcc).
  cbv zeta. unfold _check_for_unassigned_cytosols.
  assert (loaded_masks (set_cytosol_count cc s) = Ok (nuc, cyt)) as ->
    by exact Hloaded.
  simpl bind. rewrite check_for_unassigned_fold.
  unfold _identify_multinucleated_cells.
  cbn [cytosol_count set_cytosol_discard set_cytosol_count].
  rewrite identify_multinucleated_fold. cbn [bind].
  rewrite cleanup_lookup_dictionary_spec by exact Hkeys.
  cbn [bind]. eexists. split; [reflexivity|].
  assert (Hext : List.filter (fun e => (1 <? count_get (snd e) cc)%nat)
                             (_nucleus_lookup_dict s)
                 = List.filter (multinucleated (_nucleus_lookup_dict s))
                               (_nucleus_lookup_dict s)).
  { apply filter_ext. intro e. unfold multinucleated. rewrite Hcc. reflexivity. }
  unfold final_lookup, final_nuclei_discard, final_cytosol_discard, orphans.
  simpl. rewrite Hext. repeat split.
Qed.

End AfterInitialization.

(** ** [_initialize_lookup_table] *)

Section Initialization.
Import MatchNucleusCytosolIds.

Variables nuc cyt : ndarray.

Lemma match_nucleus_id_step (nucleus_id : Z) (s s' : session) (r : option Z) :
  consistent nuc cyt s ->
  _match_nucleus_id nucleus_id s = Ok (r, s') ->
  consistent nuc cyt s' /\
  filtering_threshold s' = filtering_threshold s /\
  downsample s' = downsample s /\
  cytosol_discard_list s' = cytosol_discard_list s /\
  nucleus_lookup_dict s' = nucleus_lookup_dict s.
Proof.
  intros (Hloaded & Hkeys & Hsound) Hstep.
  destruct (potential_cytosol nuc cyt nucleus_id) as [fp|e] eqn:Hfp.
  - pose proof (match_nucleus_id_result s nuc cyt nucleus_id fp Hloaded Hfp
                  r s' Hstep) as Hr.
    destruct r as [c|].
    + destruct Hr as (Hnz & Hin & Hreach & _ & ->).
      repeat split; try reflexivity; try exact Hloaded.
      * apply dict_set_NoDup. exact Hkeys.
      * apply Forall_forall. intros item Hitem.
        apply dict_set_In in Hitem. destruct Hitem as [->|Hitem].
        -- exists fp. auto.
        -- rewrite Forall_forall in Hsound. apply Hsound. exact Hitem.
    + subst s'. repeat split; try reflexivity; assumption.
  - unfold _match_nucleus_id in Hstep. rewrite Hloaded in Hstep.
    simpl in Hstep. rewrite Hfp in Hstep. discriminate.
Qed.

Lemma initialize_loop (ids : list Z) (s s' : session) :
  consistent nuc cyt s ->
  forM (fun nucleus_id self => r <- _match_nucleus_id nucleus_id self ;; Ok (snd r))
       ids s = Ok s' ->
  consistent nuc cyt s' /\
  filtering_threshold s' = filtering_threshold s /\
  downsample s' = downsample s /\
  cytosol_discard_list s' = cytosol_discard_list s /\
  nucleus_lookup_dict s' = nucleus_lookup_dict s.
Proof.
  revert s. induction ids as [|n t IH]; intros s Hs; simpl.
  - intro E. inversion E; subst. split; [exact Hs|]. repeat split.
  - destruct (_match_nucleus_id n s) as [[r s1]|e] eqn:Hstep; simpl;
      [|discriminate].
    intro Hrest.
    destruct (match_nucleus_id_step n s s1 r Hs Hstep) as (Hs1 & E1 & E2 & E3 & E4).
    destruct (IH s1 Hs1 Hrest) as (Hs' & F1 & F2 & F3 & F4).
    split; [exact Hs'|]. repeat split; congruence.
Qed.

Lemma initialize_lookup_table_consistent (s s' : session) :
  consistent nuc cyt s ->
  _initialize_lookup_table s = Ok s' ->
  consistent nuc cyt s' /\
  filtering_threshold s' = filtering_threshold s /\
  downsample s' = downsample s /\
  cytosol_discard_list s' = cytosol_discard_list s /\
  nucleus_lookup_dict s' = nucleus_lookup_dict s.
Proof.
  intros Hs. unfold _initialize_lookup_table.
  destruct Hs as (Hloaded & Hrest). rewrite Hloaded. simpl.
  apply initialize_loop. split; assumption.
Qed.

End Initialization.

(** ** The lookup table *)

Lemma count_occ_two (d : dict Z) (n1 n2 c : Z) :
  In (n1, c) d -> In (n2, c) d -> n1 <> n2 ->
  (1 < count_occ Z.eq_dec (dict_values d) c)%nat.
Proof.
  unfold dict_values.
  assert (Hone : forall (t : dict Z) n, In (n, c) t ->
                   (0 < count_occ Z.eq_dec (map snd t) c)%nat).
  { intros t n Hin. apply count_occ_In.
    change c with (snd (n, c)). apply in_map. exact Hin. }
  induction d as [|[k v] t IH]; simpl; [tauto|].
  intros [E1|H1] [E2|H2] Hne.
  - congruence.
  - inversion E1; subst. destruct (Z.eq_dec c c); [|congruence].
    specialize (Hone t n2 H2). lia.
  - inversion E2; subst. destruct (Z.eq_dec c c); [|congruence].
    specialize (Hone t n1 H1). lia.
  - specialize (IH H1 H2 Hne). destruct (Z.eq_dec v c); lia.
Qed.

Section LookupTable.
Import MatchNucleusCytosolIds.

Variable s : session.
Variable cyt : ndarray.

Lemma final_lookup_In (item : Z * Z) :
  In item (final_lookup cyt s) <->
  In item (_nucleus_lookup_dict s) /\
  ~ In (fst item) (final_nuclei_discard s) /\
  ~ In (snd item) (final_cytosol_discard cyt s).
Proof.
  unfold final_lookup, deleted. rewrite filter_In, negb_true_iff, orb_false_iff.
  rewrite !py_in_false. tauto.
Qed.

Lemma multinucleated_discarded (n c : Z) :
  In (n, c) (_nucleus_lookup_dict s) ->
  multinucleated (_nucleus_lookup_dict s) (n, c) = true ->
  In n (final_nuclei_discard s) /\ In c (final_cytosol_discard cyt s).
Proof.
  intros Hin Hm. unfold final_nuclei_discard, final_cytosol_discard.
  rewrite !list_set_In. split; apply in_or_app; right.
  - change n with (fst (n, c)). apply in_map. apply filter_In. auto.
  - change c with (snd (n, c)). apply in_map. apply filter_In. auto.
Qed.

Lemma final_lookup_injective : injective (final_lookup cyt s).
Proof.
  intros n1 n2 c H1 H2.
  apply final_lookup_In in H1, H2.
  destruct H1 as (H1 & _ & Hc). destruct H2 as (H2 & _).
  destruct (Z.eq_dec n1 n2) as [|Hne]; [assumption|].
  exfalso. apply Hc.
  apply (multinucleated_discarded n1 c H1).
  unfold multinucleated. simpl. apply Nat.ltb_lt.
  exact (count_occ_two _ n1 n2 c H1 H2 Hne).
Qed.

End LookupTable.

(** ** [get_lookup_table] on a new filter object *)

Section FreshSession.
Import MatchNucleusCytosolIds.

Variable threshold : Q.
Variable smooth : bool.
Variable kernel : nat.
Variables nuc cyt : ndarray.

(** With a downsampling factor the masks cannot be loaded. *)
Lemma load_masks_downsampling (f : nat) :
  _load_masks nuc cyt (__init__ threshold (Some f) smooth kernel)
  = Raise AttributeError.
Proof. reflexivity. Qed.

Lemma load_masks_plain :
  _load_masks nuc cyt (__init__ threshold None smooth kernel)
  = Ok (set_cytosol_mask cyt
          (set_nucleus_mask nuc (__init__ threshold None smooth kernel))).
Proof. reflexivity. Qed.

(** A completed [get_lookup_table]: the session [s1] returned by
    [_initialize_lookup_table] is consistent, and the final lookup dict and
    discard lists are those of the closed forms. *)
Lemma get_lookup_table_fresh (factor : option nat) (sf : session) :
  get_lookup_table nuc cyt (__init__ threshold factor smooth kernel) = Ok sf ->
  factor = None /\
  exists s1,
    _initialize_lookup_table
      (set_cytosol_mask cyt
         (set_nucleus_mask nuc (__init__ threshold None smooth kernel)))
    = Ok s1 /\
    consistent nuc cyt s1 /\
    filtering_threshold s1 = threshold /\
    cytosol_discard_list s1 = [] /\
    _nucleus_lookup_dict sf = final_lookup cyt s1 /\
    nuclei_discard_list sf = final_nuclei_discard s1 /\
    cytosol_discard_list sf = final_cytosol_discard cyt s1 /\
    nucleus_mask sf = Some nuc /\
    cytosol_mask sf = Some cyt /\
    downsample sf = None /\
    nucleus_lookup_dict sf = true.
Proof.
  unfold get_lookup_table.
  destruct factor as [f|].
  - rewrite load_masks_downsampling. discriminate.
  - rewrite load_masks_plain. cbn [bind].
    set (l := set_cytosol_mask cyt _).
    assert (Hl : consistent nuc cyt l).
    { repeat split; simpl; constructor. }
    destruct (_initialize_lookup_table l) as [s1|e] eqn:Hinit;
      [|discriminate].
    cbn [bind].
    destruct (initialize_lookup_table_consistent nuc cyt l s1 Hl Hinit)
      as (Hs1 & E1 & E2 & E3 & E4).
    destruct Hs1 as (Hloaded & Hkeys & Hsound).
    destruct (stages_after_initialization s1 nuc cyt Hloaded Hkeys)
      as (sf' & Hst & F1 & F2 & F3 & F4 & F5 & F6 & F7 & F8).
    cbv zeta in Hst. intro E. cbv zeta in E. rewrite Hst in E.
    inversion E; subst sf'. split; [reflexivity|].
    exists s1. split; [reflexivity|]. split; [repeat split; assumption|].
    unfold loaded_masks in Hloaded.
    destruct (nucleus_mask s1) as [n|]; [|discriminate].
    destruct (cytosol_mask s1) as [c|]; [|discriminate].
    inversion Hloaded; subst n c.
    repeat split; try assumption.
    rewrite F6, E2. reflexivity.
Qed.

End FreshSession.

(** C1.  When [get_lookup_table] completes on a new filter object, the
    lookup table is injective (no cytosol id is the value of two nucleus
    keys), and every item (nucleus, cytosol) of it is sound: the footprint of
    the nucleus has no pixel on cytosol background and the cytosol label
    covers at least [filtering_threshold] of it; moreover the nucleus is not
    in the nuclei discard list and the cytosol not in the cytosol discard
    list. *)
Theorem get_lookup_table_invariant
  (threshold : Q) (factor : option nat) (smooth : bool) (kernel : nat)
  (nuc cyt : ndarray) (sf : MatchNucleusCytosolIds.session) :
  MatchNucleusCytosolIds.get_lookup_table nuc cyt
    (MatchNucleusCytosolIds.__init__ threshold factor smooth kernel) = Ok sf ->
  MatchNucleusCytosolIds.injective
    (MatchNucleusCytosolIds._nucleus_lookup_dict sf) /\
  forall nucleus cytosol,
    In (nucleus, cytosol) (MatchNucleusCytosolIds._nucleus_lookup_dict sf) ->
    (exists footprint,
        MatchNucleusCytosolIds.potential_cytosol nuc cyt nucleus = Ok footprint /\
        ~ In 0 footprint /\
        In cytosol footprint /\
        (threshold <= MatchNucleusCytosolIds.fraction footprint cytosol)%Q) /\
    ~ In nucleus (MatchNucleusCytosolIds.nuclei_discard_list sf) /\
    ~ In cytosol (MatchNucleusCytosolIds.cytosol_discard_list sf).
Proof.
  intro H.
  destruct (get_lookup_table_fresh threshold smooth kernel nuc cyt factor sf H)
    as (_ & s1 & _ & (_ & _ & Hsound) & Hthr & _ & -> & -> & -> & _).
  split; [apply final_lookup_injective|].
  intros nucleus cytosol Hin.
  apply final_lookup_In in Hin. destruct Hin as (Hin & Hn & Hc).
  split; [|split; assumption].
  rewrite Forall_forall in Hsound. specialize (Hsound _ Hin).
  rewrite Hthr in Hsound. exact Hsound.
Qed.

Lemma get_lookup_table_invariant_witness :
  exists sf,
    MatchNucleusCytosolIds.get_lookup_table Examples.nuc_90 Examples.cyt_90
      (MatchNucleusCytosolIds.__init__ (1 # 2) None true 7) = Ok sf /\
    MatchNucleusCytosolIds._nucleus_lookup_dict sf = [(1, 10)] /\
    MatchNucleusCytosolIds.injective
      (MatchNucleusCytosolIds._nucleus_lookup_dict sf) /\
    forall nucleus cytosol,
      In (nucleus, cytosol) (MatchNucleusCytosolIds._nucleus_lookup_dict sf) ->
      (exists footprint,
          MatchNucleusCytosolIds.potential_cytosol
            Examples.nuc_90 Examples.cyt_90 nucleus = Ok footprint /\
          ~ In 0 footprint /\
          In cytosol footprint /\
          (1 # 2 <= MatchNucleusCytosolIds.fraction footprint cytosol)%Q) /\
      ~ In nucleus (MatchNucleusCytosolIds.nuclei_discard_list sf) /\
      ~ In cytosol (MatchNucleusCytosolIds.cytosol_discard_list sf).
Proof.
  eexists. split; [vm_compute; reflexivity|]. split; [reflexivity|].
  apply (get_lookup_table_invariant (1 # 2) None true 7
           Examples.nuc_90 Examples.cyt_90).
  vm_compute. reflexivity.
Defined.

(** ** Pixel-aligned masks *)

Lemma skipn_nth_cons (l : list Z) (k : nat) :
  (k < length l)%nat -> skipn k l = nth k l 0 :: skipn (S k) l.
Proof.
  revert k. induction l as [|a t IH]; intros k Hk; simpl in Hk; [lia|].
  destruct k as [|k]; [reflexivity|].
  simpl. apply IH. lia.
Qed.

Lemma getitem_flat (m : ndarray) (k : nat) :
  well_shaped m -> (k < length (ravel m))%nat ->
  getitem m (k / ncols m, k mod ncols m)%nat = Ok (nth k (ravel m) 0).
Proof.
  unfold well_shaped, getitem. intros Hw Hk. rewrite Hw in Hk.
  assert (Hc : ncols m <> 0%nat) by (intro E; rewrite E in Hk; lia).
  assert (H1 : (k / ncols m < nrows m)%nat)
    by (apply Nat.Div0.div_lt_upper_bound; lia).
  assert (H2 : (k mod ncols m < ncols m)%nat)
    by (apply Nat.mod_upper_bound; assumption).
  apply Nat.ltb_lt in H1, H2. rewrite H1, H2. simpl.
  do 2 f_equal. pose proof (Nat.div_mod_eq k (ncols m)). lia.
Qed.

Lemma fancy_index_flat_where (m : ndarray) (l : list Z) (k : nat) (v : Z) :
  well_shaped m -> (k + length l = length (ravel m))%nat ->
  fancy_index m
    (map (fun i => (i / ncols m, i mod ncols m)%nat) (flat_where k l v))
  = Ok (map snd (List.filter (fun p => fst p =? v)
                             (combine l (skipn k (ravel m))))).
Proof.
  intro Hw. unfold fancy_index.
  revert k. induction l as [|x t IH]; intros k Hk; [reflexivity|].
  simpl in Hk. rewrite (skipn_nth_cons (ravel m) k) by lia.
  cbn -[getitem Nat.div Nat.modulo skipn].
  destruct (x =? v); cbn -[getitem Nat.div Nat.modulo skipn].
  - rewrite getitem_flat by (assumption || lia).
    rewrite IH by lia. reflexivity.
  - apply IH. lia.
Qed.

(** On masks of one shape the footprint of a nucleus is read pixel by
    pixel: the cytosol labels at the positions where the nucleus mask
    carries the id. *)
Lemma potential_cytosol_aligned (nuc cyt : ndarray) (v : Z) :
  well_shaped nuc -> well_shaped cyt -> same_shape nuc cyt ->
  MatchNucleusCytosolIds.potential_cytosol nuc cyt v
  = Ok (map snd (List.filter (fun p => fst p =? v)
                             (combine (ravel nuc) (ravel cyt)))).
Proof.
  intros Hn Hc [Hr Hcol].
  unfold MatchNucleusCytosolIds.potential_cytosol, np_where_eq.
  rewrite Hcol.
  rewrite (fancy_index_flat_where cyt (ravel nuc) 0 v Hc).
  - reflexivity.
  - unfold well_shaped in *. simpl. congruence.
Qed.

Lemma map_fst_combine_same_length {A B : Type} (l1 : list A) (l2 : list B) :
  length l1 = length l2 -> map fst (combine l1 l2) = l1.
Proof.
  revert l2. induction l1 as [|a t IH]; intros [|b t2]; simpl; intro H;
    try discriminate; [reflexivity|].
  f_equal. apply IH. lia.
Qed.

(** A value that survives [get_updated_mask] is the background or a value
    of the mask that was not to be removed. *)
Lemma get_updated_mask_In (mask : ndarray) (ids : list Z) (v : Z) :
  In v (ravel (_BaseFilter.get_updated_mask mask ids)) ->
  v = 0 \/ (In v (ravel mask) /\ ~ In v ids).
Proof.
  simpl. intro H. apply in_map_iff in H. destruct H as (x & E & Hx).
  destruct (np_isin x ids) eqn:I.
  - left. congruence.
  - right. subst x. split; [assumption|]. apply np_isin_false. assumption.
Qed.

(** ** [filter] on a new filter object without downsampling *)

Section FilterFresh.
Import MatchNucleusCytosolIds.

Variable ext : externals.
Variable threshold : Q.
Variable smooth : bool.
Variable kernel : nat.
Variables nuc cyt : ndarray.

Lemma filter_fresh (sf : session) :
  get_lookup_table nuc cyt (__init__ threshold None smooth kernel) = Ok sf ->
  filter ext nuc cyt (__init__ threshold None smooth kernel)
  = Ok (_BaseFilter.get_updated_mask nuc (nuclei_discard_list sf),
        {| nrows := nrows cyt;
           ncols := ncols cyt;
           ravel := map fst
                      (fold_left relabel (_nucleus_lookup_dict sf)
                         (combine
                            (ravel (_BaseFilter.get_updated_mask cyt
                                      (cytosol_discard_list sf)))
                            (map (fun _ => false) (ravel cyt)))) |},
        sf).
Proof.
  intro H. unfold filter. rewrite load_masks_plain. cbn [bind].
  cbn [nucleus_lookup_dict set_cytosol_mask set_nucleus_mask __init__].
  change (get_lookup_table nuc cyt _)
    with (get_lookup_table nuc cyt (__init__ threshold None smooth kernel)).
  rewrite H. cbn [bind].
  destruct (get_lookup_table_fresh threshold smooth kernel nuc cyt None sf H)
    as (_ & s1 & _ & _ & _ & _ & _ & _ & _ & Hn & Hc & Hd & Hflag).
  unfold _get_updated_masks, loaded_masks, _get_updated_cytosol_mask.
  rewrite Hn, Hc, Hd, Hflag. reflexivity.
Qed.

Lemma filter_fresh_raises (e : exn) :
  get_lookup_table nuc cyt (__init__ threshold None smooth kernel) = Raise e ->
  filter ext nuc cyt (__init__ threshold None smooth kernel) = Raise e.
Proof.
  intro H. unfold filter. rewrite load_masks_plain. cbn [bind].
  cbn [nucleus_lookup_dict set_cytosol_mask set_nucleus_mask __init__].
  change (get_lookup_table nuc cyt _)
    with (get_lookup_table nuc cyt (__init__ threshold None smooth kernel)).
  rewrite H. reflexivity.
Qed.

End FilterFresh.

(** ** The multinucleation rule *)

Lemma Forall2_In_l {A B : Type} (R : A -> B -> Prop) (l1 : list A) (l2 : list B)
  (x : A) :
  Forall2 R l1 l2 -> In x l1 -> exists y, In (x, y) (combine l1 l2) /\ R x y.
Proof.
  induction 1 as [|a b t1 t2 HR HF IH]; simpl; [tauto|].
  intros [->|Hin].
  - exists b. auto.
  - destruct (IH Hin) as (y & Hy & Hr). exists y. auto.
Qed.

Lemma Forall2_In_r {A B : Type} (R : A -> B -> Prop) (l1 : list A) (l2 : list B)
  (y : B) :
  Forall2 R l1 l2 -> In y l2 -> exists x, In (x, y) (combine l1 l2) /\ R x y.
Proof.
  induction 1 as [|a b t1 t2 HR HF IH]; simpl; [tauto|].
  intros [->|Hin].
  - exists a. auto.
  - destruct (IH Hin) as (x & Hx & Hr). exists x. auto.
Qed.

Lemma Forall2_combine {A B : Type} (R : A -> B -> Prop) (l1 : list A)
  (l2 : list B) (x : A) (y : B) :
  Forall2 R l1 l2 -> In (x, y) (combine l1 l2) -> R x y.
Proof.
  induction 1 as [|a b t1 t2 HR HF IH]; simpl; [tauto|].
  intros [E|Hin]; [inversion E; subst; assumption | auto].
Qed.

Lemma count_occ_all (l : list Z) (v : Z) :
  (forall x, In x l -> x = v) -> count_occ Z.eq_dec l v = length l.
Proof.
  induction l as [|a t IH]; simpl; intro H; [reflexivity|].
  destruct (Z.eq_dec a v) as [|Hne].
  - f_equal. apply IH. auto.
  - exfalso. apply Hne. apply H. left. reflexivity.
Qed.

Lemma proportion_whole (k : nat) :
  (0 < k)%nat -> (MatchNucleusCytosolIds.proportion k k == 1)%Q.
Proof.
  intro Hk. unfold MatchNucleusCytosolIds.proportion.
  apply Qmult_inv_r. unfold Qeq, inject_Z. simpl. lia.
Qed.

Section TwoNucleiInOneCytosol.
Import MatchNucleusCytosolIds.

Variables nuc cyt : ndarray.
Hypothesis Hscene : two_nuclei_in_cytosol_10 nuc cyt.

Lemma scene_nucleus_background : In 0 (ravel nuc).
Proof.
  destruct Hscene as (_ & _ & _ & _ & _ & _ & _ & _ & H20 & Hin).
  destruct (Forall2_In_r _ _ _ 20 Hin H20) as (n & Hn & Hr).
  destruct (Z.eq_dec n 0) as [->|Hne].
  - apply in_combine_l in Hn. exact Hn.
  - specialize (Hr Hne). discriminate.
Qed.

Lemma scene_nucleus_ids : _BaseFilter.get_unique_ids nuc = [1; 2].
Proof.
  destruct Hscene as (_ & _ & _ & Hvals & H1 & H2 & _).
  unfold _BaseFilter.get_unique_ids.
  rewrite (sorted_lt_ext (np_unique (ravel nuc)) [0; 1; 2]).
  - reflexivity.
  - apply np_unique_sorted.
  - repeat constructor; lia.
  - intro x. rewrite np_unique_In. simpl. split.
    + intro Hx. apply Hvals in Hx. intuition.
    + intros [<-|[<-|[<-|[]]]]; auto using scene_nucleus_background.
Qed.

(** The footprint of a nucleus of the scene lies on cytosol 10 only. *)
Lemma scene_footprint (v : Z) :
  v <> 0 -> In v (ravel nuc) ->
  exists footprint,
    potential_cytosol nuc cyt v = Ok footprint /\
    In 10 footprint /\ forall x, In x footprint -> x = 10.
Proof.
  intros Hv Hin.
  destruct Hscene as (Hwn & Hwc & Hshape & _ & _ & _ & _ & _ & _ & Hall).
  eexists. split; [apply potential_cytosol_aligned; assumption|].
  split.
  - destruct (Forall2_In_l _ _ _ v Hall Hin) as (c & Hc & Hr).
    rewrite (Hr Hv) in Hc.
    change 10 with (snd (v, 10)). apply in_map. apply filter_In.
    split; [assumption|]. simpl. apply Z.eqb_refl.
  - intros x Hx. apply in_map_iff in Hx. destruct Hx as ([n c] & E & Hp).
    simpl in E. subst c. apply filter_In in Hp. destruct Hp as [Hp Hn].
    simpl in Hn. apply Z.eqb_eq in Hn. subst n.
    exact (Forall2_combine _ _ _ _ _ Hall Hp Hv).
Qed.

Lemma scene_match (v : Z) (s : session) :
  v <> 0 -> In v (ravel nuc) ->
  loaded_masks s = Ok (nuc, cyt) ->
  filtering_threshold s = 1 # 2 ->
  _match_nucleus_id v s
  = Ok (Some 10, set_lookup (dict_set v 10 (_nucleus_lookup_dict s)) s).
Proof.
  intros Hv Hin Hloaded Hthr.
  destruct (scene_footprint v Hv Hin) as (fp & Hfp & H10 & Hall).
  apply (match_nucleus_id_matched s nuc cyt v fp Hloaded Hfp 10).
  - intro H0. apply Hall in H0. discriminate.
  - exact H10.
  - rewrite Hthr. unfold fraction. rewrite (count_occ_all fp 10 Hall).
    rewrite proportion_whole; [discriminate|].
    destruct fp; [destruct H10 | simpl; lia].
  - intros c' Hc' Hlt. apply Hall in Hc'. lia.
Qed.

Lemma scene_initialize (smooth : bool) (kernel : nat) :
  exists s1,
    _initialize_lookup_table
      (set_cytosol_mask cyt
         (set_nucleus_mask nuc (__init__ (1 # 2) None smooth kernel)))
    = Ok s1 /\
    _nucleus_lookup_dict s1 = [(1, 10); (2, 10)].
Proof.
  destruct Hscene as (_ & _ & _ & _ & H1 & H2 & _).
  unfold _initialize_lookup_table. cbn [loaded_masks set_cytosol_mask
    set_nucleus_mask nucleus_mask cytosol_mask __init__ bind].
  rewrite scene_nucleus_ids. cbn [forM].
  rewrite (scene_match 1) by (reflexivity || assumption || discriminate).
  cbn [bind snd].
  rewrite (scene_match 2) by (reflexivity || assumption || discriminate).
  cbn [bind snd]. eexists. split; reflexivity.
Qed.

End TwoNucleiInOneCytosol.

(** [get_lookup_table] completes as soon as [_initialize_lookup_table]
    does. *)
Lemma get_lookup_table_completes (threshold : Q) (smooth : bool) (kernel : nat)
  (nuc cyt : ndarray) (s1 : MatchNucleusCytosolIds.session) :
  MatchNucleusCytosolIds._initialize_lookup_table
    (MatchNucleusCytosolIds.set_cytosol_mask cyt
       (MatchNucleusCytosolIds.set_nucleus_mask nuc
          (MatchNucleusCytosolIds.__init__ threshold None smooth kernel)))
  = Ok s1 ->
  exists sf,
    MatchNucleusCytosolIds.get_lookup_table nuc cyt
      (MatchNucleusCytosolIds.__init__ threshold None smooth kernel) = Ok sf.
Proof.
  intro Hinit.
  assert (Hl : MatchNucleusCytosolIds.consistent nuc cyt
                 (MatchNucleusCytosolIds.set_cytosol_mask cyt
                    (MatchNucleusCytosolIds.set_nucleus_mask nuc
                       (MatchNucleusCytosolIds.__init__ threshold None smooth kernel))))
    by (repeat split; simpl; constructor).
  destruct (initialize_lookup_table_consistent nuc cyt _ s1 Hl Hinit)
    as ((Hloaded & Hkeys & _) & _).
  destruct (stages_after_initialization s1 nuc cyt Hloaded Hkeys)
    as (sf & Hst & _).
  exists sf. unfold MatchNucleusCytosolIds.get_lookup_table.
  rewrite load_masks_plain. cbn [bind]. rewrite Hinit. cbn [bind].
  exact Hst.
Qed.

(** C2.  (i) When [get_lookup_table] completes on a new filter object, every
    cytosol id that [_initialize_lookup_table] matched to two distinct
    nuclei is in the cytosol discard list, and every nucleus matched to it is
    in the nuclei discard list and has no item left in the lookup table.
    (ii) With nucleus ids {1, 2} and cytosol ids {10, 20}, both nuclei
    entirely inside cytosol 10 and threshold 0.5, [filter] completes with
    nuclei 1 and 2 and cytosol 10 discarded, an empty lookup table, and
    output masks without nucleus 1 or 2 and without cytosol id 10. *)
Theorem multinucleated_cytosol_is_discarded
  (ext : externals) (threshold : Q) (factor : option nat) (smooth : bool)
  (kernel : nat) (nuc cyt : ndarray) :
  (forall sf,
      MatchNucleusCytosolIds.get_lookup_table nuc cyt
        (MatchNucleusCytosolIds.__init__ threshold factor smooth kernel) = Ok sf ->
      exists s1,
        MatchNucleusCytosolIds._initialize_lookup_table
          (MatchNucleusCytosolIds.set_cytosol_mask cyt
             (MatchNucleusCytosolIds.set_nucleus_mask nuc
                (MatchNucleusCytosolIds.__init__ threshold None smooth kernel)))
        = Ok s1 /\
        forall c n1 n2,
          n1 <> n2 ->
          In (n1, c) (MatchNucleusCytosolIds._nucleus_lookup_dict s1) ->
          In (n2, c) (MatchNucleusCytosolIds._nucleus_lookup_dict s1) ->
          In c (MatchNucleusCytosolIds.cytosol_discard_list sf) /\
          forall n,
            In (n, c) (MatchNucleusCytosolIds._nucleus_lookup_dict s1) ->
            In n (MatchNucleusCytosolIds.nuclei_discard_list sf) /\
            forall c', ~ In (n, c') (MatchNucleusCytosolIds._nucleus_lookup_dict sf))
  /\
  (two_nuclei_in_cytosol_10 nuc cyt ->
   exists nuc' cyt' sf,
     MatchNucleusCytosolIds.filter ext nuc cyt
       (MatchNucleusCytosolIds.__init__ (1 # 2) None smooth kernel)
     = Ok (nuc', cyt', sf) /\
     MatchNucleusCytosolIds._nucleus_lookup_dict sf = [] /\
     In 1 (MatchNucleusCytosolIds.nuclei_discard_list sf) /\
     In 2 (MatchNucleusCytosolIds.nuclei_discard_list sf) /\
     In 10 (MatchNucleusCytosolIds.cytosol_discard_list sf) /\
     ~ In 1 (ravel nuc') /\ ~ In 2 (ravel nuc') /\
     ~ In 10 (ravel cyt')).
Proof.
  split.
  - intros sf H.
    destruct (get_lookup_table_fresh threshold smooth kernel nuc cyt factor sf H)
      as (_ & s1 & Hinit & _ & _ & _ & -> & -> & -> & _).
    exists s1. split; [exact Hinit|].
    intros c n1 n2 Hne H1 H2.
    assert (Hmulti : forall n,
               In (n, c) (MatchNucleusCytosolIds._nucleus_lookup_dict s1) ->
               MatchNucleusCytosolIds.multinucleated
                 (MatchNucleusCytosolIds._nucleus_lookup_dict s1) (n, c) = true).
    { intros n _. unfold MatchNucleusCytosolIds.multinucleated. simpl.
      apply Nat.ltb_lt. exact (count_occ_two _ n1 n2 c H1 H2 Hne). }
    split.
    + exact (proj2 (multinucleated_discarded s1 cyt n1 c H1 (Hmulti n1 H1))).
    + intros n Hn.
      pose proof (multinucleated_discarded s1 cyt n c Hn (Hmulti n Hn))
        as [Hnd _].
      split; [exact Hnd|].
      intros c' Hin. apply final_lookup_In in Hin. simpl in Hin. tauto.
  - intro Hscene.
    destruct (scene_initialize nuc cyt Hscene smooth kernel)
      as (s1 & Hinit & Hdict).
    destruct (get_lookup_table_completes _ _ _ _ _ _ Hinit) as (sf & Hsf).
    destruct (get_lookup_table_fresh _ _ _ _ _ None sf Hsf)
      as (_ & s1' & Hinit' & _ & _ & _ & Hlookup & Hnd & Hcd & _).
    rewrite Hinit in Hinit'. inversion Hinit'; subst s1'.
    assert (Hm : forall n, In (n, 10) (MatchNucleusCytosolIds._nucleus_lookup_dict s1) ->
               In n (MatchNucleusCytosolIds.nuclei_discard_list sf) /\
               In 10 (MatchNucleusCytosolIds.cytosol_discard_list sf)).
    { intros n Hn. rewrite Hnd, Hcd.
      apply multinucleated_discarded; [exact Hn|].
      rewrite Hdict. reflexivity. }
    assert (H1 := Hm 1). assert (H2 := Hm 2). rewrite Hdict in H1, H2.
    specialize (H1 (or_introl eq_refl)).
    specialize (H2 (or_intror (or_introl eq_refl))).
    assert (Hempty : MatchNucleusCytosolIds._nucleus_lookup_dict sf = []).
    { destruct (MatchNucleusCytosolIds._nucleus_lookup_dict sf)
        as [|[n c] t] eqn:E; [reflexivity|]. exfalso.
      assert (Hin : In (n, c) (MatchNucleusCytosolIds.final_lookup cyt s1))
        by (rewrite <- Hlookup; left; reflexivity).
      apply final_lookup_In in Hin. destruct Hin as (Hin & Hn & _).
      rewrite <- Hnd in Hn. rewrite Hdict in Hin. simpl in Hin, Hn.
      destruct Hin as [Ei|[Ei|[]]]; inversion Ei; subst; tauto. }
    eexists _, _, sf. split; [apply filter_fresh; exact Hsf|].
    rewrite Hempty. repeat split; try tauto.
    + intro Hin. apply get_updated_mask_In in Hin.
      destruct Hin as [|[_ Hin]]; [discriminate|tauto].
    + intro Hin. apply get_updated_mask_In in Hin.
      destruct Hin as [|[_ Hin]]; [discriminate|tauto].
    + cbn [fold_left ravel].
      rewrite map_fst_combine_same_length by (simpl; rewrite !length_map; reflexivity).
      intro Hin. apply get_updated_mask_In in Hin.
      destruct Hin as [|[_ Hin]]; [discriminate|tauto].
Qed.

Lemma multinucleated_cytosol_is_discarded_witness :
  two_nuclei_in_cytosol_10 Examples.nuc_pair Examples.cyt_pair /\
  exists nuc' cyt' sf,
    MatchNucleusCytosolIds.filter Examples.no_externals
      Examples.nuc_pair Examples.cyt_pair
      (MatchNucleusCytosolIds.__init__ (1 # 2) None true 7)
    = Ok (nuc', cyt', sf) /\
    MatchNucleusCytosolIds._nucleus_lookup_dict sf = [] /\
    In 1 (MatchNucleusCytosolIds.nuclei_discard_list sf) /\
    In 2 (MatchNucleusCytosolIds.nuclei_discard_list sf) /\
    In 10 (MatchNucleusCytosolIds.cytosol_discard_list sf) /\
    ~ In 1 (ravel nuc') /\ ~ In 2 (ravel nuc') /\
    ~ In 10 (ravel cyt').
Proof.
  assert (Hscene : two_nuclei_in_cytosol_10 Examples.nuc_pair Examples.cyt_pair).
  { unfold two_nuclei_in_cytosol_10, well_shaped, same_shape. simpl.
    repeat split; try tauto; try lia.
    repeat constructor; intro H; try reflexivity; exfalso; apply H; reflexivity. }
  split; [exact Hscene|].
  exact (proj2 (multinucleated_cytosol_is_discarded Examples.no_externals
                  (1 # 2) None true 7 Examples.nuc_pair Examples.cyt_pair)
               Hscene).
Defined.

(** ** Masks of different shapes *)

Lemma mapM_raise {A B : Type} (f : A -> result B) (l : list A) (e : exn) :
  mapM f l = Raise e -> exists x, In x l /\ f x = Raise e.
Proof.
  induction l as [|a t IH]; simpl; [discriminate|].
  destruct (f a) as [b|e'] eqn:Fa; simpl.
  - destruct (mapM f t) as [bs|e'']; simpl; [discriminate|].
    intro E. inversion E; subst.
    destruct (IH eq_refl) as (x & Hx & Fx). exists x. auto.
  - intro E. inversion E; subst. exists a. auto.
Qed.

Lemma mapM_ok {A B : Type} (f : A -> result B) (l : list A) :
  (forall x, In x l -> exists y, f x = Ok y) -> exists ys, mapM f l = Ok ys.
Proof.
  induction l as [|a t IH]; simpl; intro H; [eexists; reflexivity|].
  destruct (H a (or_introl eq_refl)) as (b & ->).
  destruct IH as (bs & ->); [intros; apply H; right; assumption|].
  simpl. eexists; reflexivity.
Qed.

Lemma flat_where_bound (l : list Z) (k : nat) (v : Z) (i : nat) :
  In i (flat_where k l v) -> (k <= i < k + length l)%nat.
Proof.
  revert k. induction l as [|x t IH]; intro k; simpl; [tauto|].
  destruct (x =? v); simpl.
  - intros [<-|H]; [lia|]. apply IH in H. lia.
  - intro H. apply IH in H. lia.
Qed.

(** The positions of [np.where] lie inside the array. *)
Lemma np_where_eq_bound (m : ndarray) (v : Z) (r c : nat) :
  well_shaped m -> In (r, c) (np_where_eq m v) ->
  (r < nrows m /\ c < ncols m)%nat.
Proof.
  unfold well_shaped, np_where_eq. intros Hw Hin.
  apply in_map_iff in Hin. destruct Hin as (i & E & Hi).
  apply flat_where_bound in Hi. simpl in Hi. rewrite Hw in Hi.
  assert (Hc : ncols m <> 0%nat) by (intro Z0; rewrite Z0 in Hi; lia).
  inversion E; subst. split.
  - apply Nat.Div0.div_lt_upper_bound. lia.
  - apply Nat.mod_upper_bound. assumption.
Qed.

Lemma getitem_raise (m : ndarray) (r c : nat) (e : exn) :
  getitem m (r, c) = Raise e ->
  e = IndexError /\ ~ (r < nrows m /\ c < ncols m)%nat.
Proof.
  unfold getitem.
  destruct (Nat.ltb_spec r (nrows m)); destruct (Nat.ltb_spec c (ncols m));
    simpl; intro E; inversion E; split; try reflexivity; lia.
Qed.

Lemma getitem_ok (m : ndarray) (r c : nat) :
  (r < nrows m)%nat -> (c < ncols m)%nat -> exists v, getitem m (r, c) = Ok v.
Proof.
  intros Hr Hc. unfold getitem.
  apply Nat.ltb_lt in Hr, Hc. rewrite Hr, Hc. simpl. eexists; reflexivity.
Qed.

Section Misaligned.
Import MatchNucleusCytosolIds.

Variables nuc cyt : ndarray.

(** [_match_nucleus_id] fails only through the fancy index. *)
Lemma match_nucleus_id_raise (v : Z) (s : session) (e : exn) :
  loaded_masks s = Ok (nuc, cyt) ->
  _match_nucleus_id v s = Raise e ->
  potential_cytosol nuc cyt v = Raise e.
Proof.
  intros Hloaded H.
  destruct (potential_cytosol nuc cyt v) as [fp|e'] eqn:Hfp.
  - rewrite (match_nucleus_id_unfold s nuc cyt v fp Hloaded Hfp) in H.
    destruct (forallb _ fp); [|discriminate].
    destruct (find _ _) as [c|]; [|discriminate].
    destruct (negb (c =? 0)); discriminate.
  - unfold _match_nucleus_id in H. rewrite Hloaded in H. simpl in H.
    rewrite Hfp in H. simpl in H. congruence.
Qed.

Lemma initialize_loop_raise (ids : list Z) (s : session) (e : exn) :
  consistent nuc cyt s ->
  forM (fun nucleus_id self => r <- _match_nucleus_id nucleus_id self ;; Ok (snd r))
       ids s = Raise e ->
  exists v, In v ids /\ potential_cytosol nuc cyt v = Raise e.
Proof.
  revert s. induction ids as [|n t IH]; intros s Hs; simpl; [discriminate|].
  destruct (_match_nucleus_id n s) as [[r s1]|e'] eqn:Hstep; simpl.
  - intro H.
    destruct (match_nucleus_id_step nuc cyt n s s1 r Hs Hstep) as (Hs1 & _).
    destruct (IH s1 Hs1 H) as (v & Hv & Hr). exists v. auto.
  - intro E. inversion E; subst. exists n. split; [left; reflexivity|].
    destruct Hs as (Hloaded & _).
    exact (match_nucleus_id_raise n s e Hloaded Hstep).
Qed.

Lemma initialize_loop_ok (ids : list Z) (s : session) :
  consistent nuc cyt s ->
  (forall v, In v ids -> exists fp, potential_cytosol nuc cyt v = Ok fp) ->
  exists s',
    forM (fun nucleus_id self => r <- _match_nucleus_id nucleus_id self ;; Ok (snd r))
         ids s = Ok s'.
Proof.
  revert s. induction ids as [|n t IH]; intros s Hs Hok; simpl;
    [eexists; reflexivity|].
  destruct (_match_nucleus_id n s) as [[r s1]|e] eqn:Hstep; simpl.
  - destruct (match_nucleus_id_step nuc cyt n s s1 r Hs Hstep) as (Hs1 & _).
    apply IH; [exact Hs1|]. intros v Hv. apply Hok. right. exact Hv.
  - exfalso. destruct Hs as (Hloaded & _).
    pose proof (match_nucleus_id_raise n s e Hloaded Hstep) as Hr.
    destruct (Hok n (or_introl eq_refl)) as (fp & Hfp). congruence.
Qed.

End Misaligned.

Section ShapeMismatch.
Import MatchNucleusCytosolIds.

Variable ext : externals.
Variable threshold : Q.
Variable smooth : bool.
Variable kernel : nat.
Variables nuc cyt : ndarray.

Let fresh : session := __init__ threshold None smooth kernel.

Lemma fresh_loaded_consistent :
  consistent nuc cyt (set_cytosol_mask cyt (set_nucleus_mask nuc fresh)).
Proof. repeat split; simpl; constructor. Qed.

Lemma get_lookup_table_raise (e : exn) :
  get_lookup_table nuc cyt fresh = Raise e ->
  exists v, In v (_BaseFilter.get_unique_ids nuc) /\
            potential_cytosol nuc cyt v = Raise e.
Proof.
  intro H.
  destruct (_initialize_lookup_table
              (set_cytosol_mask cyt (set_nucleus_mask nuc fresh)))
    as [s1|e'] eqn:Hinit.
  - destruct (get_lookup_table_completes threshold smooth kernel nuc cyt s1 Hinit)
      as (sf & Hsf).
    unfold fresh in H. congruence.
  - assert (e' = e) as ->.
    { unfold get_lookup_table in H. unfold fresh in H, Hinit.
      rewrite load_masks_plain in H. cbn [bind] in H.
      rewrite Hinit in H. simpl in H. congruence. }
    unfold _initialize_lookup_table in Hinit. simpl in Hinit.
    exact (initialize_loop_raise nuc cyt _ _ e fresh_loaded_consistent Hinit).
Qed.

Lemma get_lookup_table_fits :
  well_shaped nuc ->
  (nrows nuc <= nrows cyt)%nat -> (ncols nuc <= ncols cyt)%nat ->
  exists sf, get_lookup_table nuc cyt fresh = Ok sf.
Proof.
  intros Hw Hr Hc.
  destruct (initialize_loop_ok nuc cyt (_BaseFilter.get_unique_ids nuc) _
              fresh_loaded_consistent) as (s1 & Hinit).
  - intros v _. apply mapM_ok. intros [r c] Hin.
    destruct (np_where_eq_bound nuc v r c Hw Hin).
    apply getitem_ok; lia.
  - apply (get_lookup_table_completes threshold smooth kernel nuc cyt s1).
    unfold _initialize_lookup_table. simpl. exact Hinit.
Qed.

End ShapeMismatch.

(** C7 (counterexample).  A nucleus mask of shape (1, 2) and a cytosol mask
    of shape (2, 3): [get_lookup_table] and [filter] complete, with the
    lookup table [{1: 5}], and no error is raised. *)
Lemma shape_mismatch_is_not_rejected :
  ~ same_shape Examples.nuc_small Examples.cyt_large /\
  well_shaped Examples.nuc_small /\ well_shaped Examples.cyt_large /\
  exists sf,
    MatchNucleusCytosolIds.get_lookup_table Examples.nuc_small Examples.cyt_large
      (MatchNucleusCytosolIds.__init__ (1 # 2) None true 7) = Ok sf /\
    MatchNucleusCytosolIds._nucleus_lookup_dict sf = [(1, 5)] /\
    MatchNucleusCytosolIds.filter Examples.no_externals
      Examples.nuc_small Examples.cyt_large
      (MatchNucleusCytosolIds.__init__ (1 # 2) None true 7)
    = Ok (mk_ndarray 1 2 [0; 1], mk_ndarray 2 3 [0; 1; 1; 1; 1; 1], sf).
Proof.
  split; [intros [_ H]; discriminate|].
  split; [reflexivity|]. split; [reflexivity|].
  eexists. split; [vm_compute; reflexivity|].
  split; vm_compute; reflexivity.
Qed.

(** C7 (amended).  [MatchNucleusCytosolIds] does not compare the shapes of
    its masks.  On a new filter object without downsampling:
    - when the nucleus mask is no larger than the cytosol mask along either
      axis, [get_lookup_table] and [filter] complete, whether or not the
      shapes are equal;
    - when either of them raises, the exception is the [IndexError] of the
      fancy index, and some pixel of a scanned nucleus id lies at a position
      outside the cytosol mask. *)
Theorem shape_mismatch_raises_only_out_of_range
  (ext : externals) (threshold : Q) (smooth : bool) (kernel : nat)
  (nuc cyt : ndarray) :
  (well_shaped nuc ->
   (nrows nuc <= nrows cyt)%nat -> (ncols nuc <= ncols cyt)%nat ->
   exists nuc' cyt' sf,
     MatchNucleusCytosolIds.get_lookup_table nuc cyt
       (MatchNucleusCytosolIds.__init__ threshold None smooth kernel) = Ok sf /\
     MatchNucleusCytosolIds.filter ext nuc cyt
       (MatchNucleusCytosolIds.__init__ threshold None smooth kernel)
     = Ok (nuc', cyt', sf))
  /\
  (forall e,
      MatchNucleusCytosolIds.get_lookup_table nuc cyt
        (MatchNucleusCytosolIds.__init__ threshold None smooth kernel) = Raise e
      \/ MatchNucleusCytosolIds.filter ext nuc cyt
           (MatchNucleusCytosolIds.__init__ threshold None smooth kernel) = Raise e ->
      e = IndexError /\
      exists v r c,
        In v (_BaseFilter.get_unique_ids nuc) /\
        In (r, c) (np_where_eq nuc v) /\
        ~ (r < nrows cyt /\ c < ncols cyt)%nat).
Proof.
  split.
  - intros Hw Hr Hc.
    destruct (get_lookup_table_fits threshold smooth kernel nuc cyt Hw Hr Hc)
      as (sf & Hsf).
    eexists _, _, sf. split; [exact Hsf|].
    apply filter_fresh. exact Hsf.
  - intros e H.
    assert (Hraise : MatchNucleusCytosolIds.get_lookup_table nuc cyt
                       (MatchNucleusCytosolIds.__init__ threshold None smooth kernel)
                     = Raise e).
    { destruct H as [H|H]; [exact H|].
      destruct (MatchNucleusCytosolIds.get_lookup_table nuc cyt _)
        as [sf|e'] eqn:Hsf.
      - rewrite (filter_fresh ext threshold smooth kernel nuc cyt sf Hsf) in H.
        discriminate.
      - rewrite (filter_fresh_raises ext threshold smooth kernel nuc cyt e' Hsf)
          in H. congruence. }
    destruct (get_lookup_table_raise threshold smooth kernel nuc cyt e Hraise)
      as (v & Hv & Hfp).
    apply mapM_raise in Hfp. destruct Hfp as ([r c] & Hin & Hget).
    apply getitem_raise in Hget. destruct Hget as [-> Hout].
    split; [reflexivity|]. exists v, r, c. auto.
Qed.

Lemma shape_mismatch_raises_only_out_of_range_witness :
  well_shaped Examples.nuc_small /\
  (nrows Examples.nuc_small <= nrows Examples.cyt_large)%nat /\
  (ncols Examples.nuc_small <= ncols Examples.cyt_large)%nat /\
  exists nuc' cyt' sf,
    MatchNucleusCytosolIds.get_lookup_table Examples.nuc_small Examples.cyt_large
      (MatchNucleusCytosolIds.__init__ (1 # 2) None true 7) = Ok sf /\
    MatchNucleusCytosolIds.filter Examples.no_externals
      Examples.nuc_small Examples.cyt_large
      (MatchNucleusCytosolIds.__init__ (1 # 2) None true 7)
    = Ok (nuc', cyt', sf).
Proof.
  assert (Hw : well_shaped Examples.nuc_small) by reflexivity.
  assert (Hr : (nrows Examples.nuc_small <= nrows Examples.cyt_large)%nat)
    by (simpl; lia).
  assert (Hc : (ncols Examples.nuc_small <= ncols Examples.cyt_large)%nat)
    by (simpl; lia).
  repeat (split; [assumption|]).
  exact (proj1 (shape_mismatch_raises_only_out_of_range Examples.no_externals
                  (1 # 2) true 7 Examples.nuc_small Examples.cyt_large)
               Hw Hr Hc).
Defined.

(** ** Downsampling *)

(** C6 (code defect).  With a downsampling factor configured, [filter] on a
    new filter object stops in [_load_masks] with [AttributeError]
    ([downsample_mask] is not defined), for all masks: no pipeline runs and
    no mask is returned.  And on a session whose downsampled masks are in
    place, [_get_updated_masks] returns the upscaled nucleus mask with the
    discarded nuclei removed, but as cytosol mask the upscaled
    [self.cytosol_mask] as loaded: neither cleaned nor relabelled. *)
Theorem downsampling_filter_defects
  (ext : externals) (threshold : Q) (f : nat) (smooth : bool) (kernel : nat)
  (nuc cyt : ndarray) :
  MatchNucleusCytosolIds.filter ext nuc cyt
    (MatchNucleusCytosolIds.__init__ threshold (Some f) smooth kernel)
  = Raise AttributeError
  /\
  MatchNucleusCytosolIds._get_updated_masks ext Examples.downsampled_session
  = Ok (Examples.nuc_90, Examples.cyt_90)
  /\
  MatchNucleusCytosolIds._get_updated_cytosol_mask Examples.cyt_90
    Examples.downsampled_session
  = Ok (mk_ndarray 1 10 [0; 1; 1; 1; 1; 1; 1; 1; 1; 0])
  /\
  mk_ndarray 1 10 [0; 1; 1; 1; 1; 1; 1; 1; 1; 0] <> Examples.cyt_90.
Proof.
  split; [reflexivity|]. split; [reflexivity|].
  split; [reflexivity|]. discriminate.
Qed.

(** On any session with downsampling whose masks are loaded, the cytosol
    mask returned by [_get_updated_masks] is the upscaled loaded mask. *)
Lemma get_updated_masks_downsampled (ext : externals)
  (self : MatchNucleusCytosolIds.session) (nuc cyt : ndarray)
  (ds : downsampling) :
  MatchNucleusCytosolIds.loaded_masks self = Ok (nuc, cyt) ->
  MatchNucleusCytosolIds.downsample self = Some ds ->
  MatchNucleusCytosolIds.nucleus_lookup_dict self = true ->
  MatchNucleusCytosolIds._get_updated_masks ext self
  = Ok (_BaseFilter.get_upscaled_mask_basic ext ds
          (_BaseFilter.get_updated_mask nuc
             (MatchNucleusCytosolIds.nuclei_discard_list self))
          (erosion_dilation ds),
        _BaseFilter.get_upscaled_mask_basic ext ds cyt (erosion_dilation ds)).
Proof.
  intros Hloaded Hds Hflag.
  unfold MatchNucleusCytosolIds._get_updated_masks,
    MatchNucleusCytosolIds._get_updated_cytosol_mask.
  rewrite Hloaded, Hds, Hflag. reflexivity.
Qed.

(** ** An all-background nucleus mask *)

Lemma no_items_nil {A : Type} (l : list A) : (forall x, ~ In x l) -> l = [].
Proof.
  destruct l as [|a t]; [reflexivity|]. intro H.
  exfalso. apply (H a). left. reflexivity.
Qed.

Lemma get_unique_ids_all_background (mask : ndarray) :
  (forall v, In v (ravel mask) -> v = 0) ->
  _BaseFilter.get_unique_ids mask = [].
Proof.
  intro H. apply no_items_nil. intros v Hv.
  apply get_unique_ids_spec in Hv. destruct Hv as (Hv & u & Hu & Hlt).
  apply H in Hv, Hu. lia.
Qed.

(** C10 (code defect).  The nucleus mask [[0, 0]] is all background and the
    cytosol mask [[5, 7]] has no background pixel: [get_unique_ids] drops
    the least cytosol id 5, so only 7 is discarded as an orphan, and the
    output cytosol mask [[5, 0]] still carries id 5. *)
Theorem orphan_cytosol_kept_without_background :
  exists sf,
    MatchNucleusCytosolIds.filter Examples.no_externals
      Examples.nuc_empty Examples.cyt_full
      (MatchNucleusCytosolIds.__init__ (1 # 2) None true 7)
    = Ok (Examples.nuc_empty, mk_ndarray 1 2 [5; 0], sf) /\
    MatchNucleusCytosolIds._nucleus_lookup_dict sf = [] /\
    MatchNucleusCytosolIds.cytosol_discard_list sf = [7] /\
    In 5 (ravel Examples.cyt_full) /\
    ~ In 5 (MatchNucleusCytosolIds.cytosol_discard_list sf).
Proof.
  eexists. split; [vm_compute; reflexivity|].
  split; [reflexivity|]. split; [reflexivity|].
  split; [left; reflexivity|].
  simpl. intros [H|[]]. discriminate.
Qed.

(** X24.  When the cytosol mask is a label mask with at least
    one background pixel, an all-background nucleus mask gives an empty
    lookup table, every cytosol id in the cytosol discard list, the nucleus
    mask unchanged and a cytosol mask that is all background. *)
Lemma all_background_nucleus_with_cytosol_background
  (ext : externals) (threshold : Q) (smooth : bool) (kernel : nat)
  (nuc cyt : ndarray) :
  (forall v, In v (ravel nuc) -> v = 0) ->
  Forall (fun v => 0 <= v) (ravel cyt) -> In 0 (ravel cyt) ->
  exists cyt' sf,
    MatchNucleusCytosolIds.filter ext nuc cyt
      (MatchNucleusCytosolIds.__init__ threshold None smooth kernel)
    = Ok (nuc, cyt', sf) /\
    MatchNucleusCytosolIds._nucleus_lookup_dict sf = [] /\
    (forall c, In c (ravel cyt) -> 0 < c ->
               In c (MatchNucleusCytosolIds.cytosol_discard_list sf)) /\
    nrows cyt' = nrows cyt /\ ncols cyt' = ncols cyt /\
    length (ravel cyt') = length (ravel cyt) /\
    (forall v, In v (ravel cyt') -> v = 0).
Proof.
  intros Hnuc Hnn H0.
  assert (Hinit : MatchNucleusCytosolIds._initialize_lookup_table
                    (MatchNucleusCytosolIds.set_cytosol_mask cyt
                       (MatchNucleusCytosolIds.set_nucleus_mask nuc
                          (MatchNucleusCytosolIds.__init__ threshold None smooth kernel)))
                  = Ok (MatchNucleusCytosolIds.set_cytosol_mask cyt
                          (MatchNucleusCytosolIds.set_nucleus_mask nuc
                             (MatchNucleusCytosolIds.__init__ threshold None smooth kernel)))).
  { unfold MatchNucleusCytosolIds._initialize_lookup_table. simpl.
    rewrite (get_unique_ids_all_background nuc Hnuc). reflexivity. }
  destruct (get_lookup_table_completes _ _ _ _ _ _ Hinit) as (sf & Hsf).
  destruct (get_lookup_table_fresh _ _ _ _ _ None sf Hsf)
    as (_ & s1 & Hinit' & _ & _ & _ & Hlookup & Hnd & Hcd & _).
  rewrite Hinit in Hinit'. inversion Hinit'; subst s1. clear Hinit'.
  unfold MatchNucleusCytosolIds.final_lookup in Hlookup. simpl in Hlookup.
  unfold MatchNucleusCytosolIds.final_nuclei_discard in Hnd. simpl in Hnd.
  assert (Hdisc : forall c, In c (ravel cyt) -> 0 < c ->
                    In c (MatchNucleusCytosolIds.cytosol_discard_list sf)).
  { intros c Hc Hpos. rewrite Hcd.
    unfold MatchNucleusCytosolIds.final_cytosol_discard,
      MatchNucleusCytosolIds.orphans. simpl.
    apply list_set_In. rewrite app_nil_r. apply filter_In. split; [|reflexivity].
    apply get_unique_ids_with_background; auto. }
  eexists _, sf. split.
  - rewrite (filter_fresh ext threshold smooth kernel nuc cyt sf Hsf).
    rewrite Hnd, get_updated_mask_nil. reflexivity.
  - rewrite Hlookup. cbn [fold_left nrows ncols ravel].
    rewrite map_fst_combine_same_length by (simpl; rewrite !length_map; reflexivity).
    repeat split; try assumption.
    + simpl. apply length_map.
    + intros v Hv. apply get_updated_mask_In in Hv.
      destruct Hv as [|[Hv Hn]]; [assumption|].
      rewrite Forall_forall in Hnn. specialize (Hnn _ Hv).
      destruct (Z.eq_dec v 0); [assumption|].
      exfalso. apply Hn. apply Hdisc; [assumption|lia].
Qed.

(** ** [SizeFilter] with an explicit threshold *)

Lemma tl_map {A B : Type} (f : A -> B) (l : list A) : tl (map f l) = map f (tl l).
Proof. destruct l; reflexivity. Qed.

Lemma select_ids_map (test : nat -> bool) (f : Z -> nat) (l : list Z) :
  SizeFilter.select_ids test l (map f l) = List.filter (fun v => test (f v)) l.
Proof.
  unfold SizeFilter.select_ids.
  induction l as [|a t IH]; simpl; [reflexivity|].
  destruct (test (f a)); simpl; congruence.
Qed.

Section SizeFilterExplicit.
Import SizeFilter.

Variable fit : list nat -> result (Q * Q).
Variables lower upper : Q.
Variable smooth : bool.
Variable kernel : nat.

Let fresh : session :=
  {| filter_threshold := Some (lower, upper);
     filter_lower := true;
     filter_upper := true;
     downsample := None;
     mask := None;
     ids := [];
     ids_to_remove := None |}.

Lemma size_filter_init :
  __init__ (Some (lower, upper)) true true None smooth kernel = Ok fresh.
Proof. reflexivity. Qed.

(** [filter] on a new filter object: the ids to remove are the [outliers]
    of the mask. *)
Lemma size_filter_fresh (input_mask : ndarray) :
  exists self',
    filter fit input_mask fresh
    = Ok (_BaseFilter.get_updated_mask input_mask
            (outliers lower upper input_mask), self') /\
    ids_to_remove self' = Some (outliers lower upper input_mask).
Proof.
  unfold filter, _get_ids_to_remove, fresh. simpl.
  unfold np_unique_counts. rewrite tl_map, !select_ids_map.
  eexists. split; reflexivity.
Qed.

End SizeFilterExplicit.

(** C5 (code defect).  [_get_ids_to_remove] takes the ids and the pixel
    counts from [np.unique(...)][1:], which drops the least value of the
    mask.  On [[1, 2, 2, 2]] (no background pixel):
    - with threshold (2, 10), object 1 has one pixel, below the lower bound,
      and is not removed: the mask comes back unchanged;
    - with threshold (2, 2), the first pass removes object 2 only and gives
      [[1, 0, 0, 0]]; a second filter with the same threshold then removes
      object 1: filtering the filtered mask is not a no-op. *)
Theorem size_filter_misses_least_id (fit : list nat -> result (Q * Q)) :
  SizeFilter.pixel_count Examples.mask_no_background 1 = 1%nat /\
  SizeFilter.count_below 1 (2 # 1) = true /\
  (exists self self',
      SizeFilter.__init__ (Some (2 # 1, 10 # 1)) true true None true 7 = Ok self /\
      SizeFilter.filter fit Examples.mask_no_background self
      = Ok (Examples.mask_no_background, self')) /\
  (exists self self' self'',
      SizeFilter.__init__ (Some (2 # 1, 2 # 1)) true true None true 7 = Ok self /\
      SizeFilter.filter fit Examples.mask_no_background self
      = Ok (mk_ndarray 1 4 [1; 0; 0; 0], self') /\
      SizeFilter.filter fit (mk_ndarray 1 4 [1; 0; 0; 0]) self
      = Ok (mk_ndarray 1 4 [0; 0; 0; 0], self'')).
Proof.
  split; [reflexivity|]. split; [reflexivity|]. split.
  - eexists _, _. split; reflexivity.
  - eexists _, _, _. split; [reflexivity|]. split; reflexivity.
Qed.

(** What holds of C5: on a label mask with a background pixel, the filter
    removes exactly the objects whose pixel count is below the lower or
    above the upper bound, and a second filter with the same threshold
    leaves the filtered mask as it is. *)

Lemma count_below_lt (c : nat) (t : Q) :
  SizeFilter.count_below c t = true <-> (inject_Z (Z.of_nat c) < t)%Q.
Proof.
  unfold SizeFilter.count_below. rewrite negb_true_iff.
  destruct (Qle_bool t (inject_Z (Z.of_nat c))) eqn:E.
  - apply Qle_bool_iff in E. split; [discriminate|].
    intro H. exfalso. exact (Qlt_not_le _ _ H E).
  - split; [intros _|reflexivity]. apply Qnot_le_lt. intro H.
    apply Qle_bool_iff in H. congruence.
Qed.

Lemma count_above_gt (c : nat) (t : Q) :
  SizeFilter.count_above c t = true <-> (t < inject_Z (Z.of_nat c))%Q.
Proof.
  unfold SizeFilter.count_above. rewrite negb_true_iff.
  destruct (Qle_bool (inject_Z (Z.of_nat c)) t) eqn:E.
  - apply Qle_bool_iff in E. split; [discriminate|].
    intro H. exfalso. exact (Qlt_not_le _ _ H E).
  - split; [intros _|reflexivity]. apply Qnot_le_lt. intro H.
    apply Qle_bool_iff in H. congruence.
Qed.

Lemma outliers_In (lower upper : Q) (m : ndarray) (v : Z) :
  In v (SizeFilter.outliers lower upper m) <->
  In v (_BaseFilter.get_unique_ids m) /\
  ((inject_Z (Z.of_nat (SizeFilter.pixel_count m v)) < lower)%Q \/
   (upper < inject_Z (Z.of_nat (SizeFilter.pixel_count m v)))%Q).
Proof.
  unfold SizeFilter.outliers.
  rewrite in_app_iff, !filter_In, count_below_lt, count_above_gt. tauto.
Qed.

Lemma count_occ_get_updated_mask (m : ndarray) (ids : list Z) (v : Z) :
  v <> 0 -> ~ In v ids ->
  count_occ Z.eq_dec (ravel (_BaseFilter.get_updated_mask m ids)) v
  = count_occ Z.eq_dec (ravel m) v.
Proof.
  intros Hv Hn. simpl.
  induction (ravel m) as [|x t IH]; simpl; [reflexivity|].
  destruct (np_isin x ids) eqn:I.
  - apply np_isin_In in I.
    destruct (Z.eq_dec 0 v); [congruence|].
    destruct (Z.eq_dec x v); [subst; contradiction|]. exact IH.
  - destruct (Z.eq_dec x v); congruence.
Qed.

Lemma Forall2_impl_In_l {A B : Type} (R R' : A -> B -> Prop)
  (l : list A) (l' : list B) :
  Forall2 R l l' ->
  (forall x y, In x l -> R x y -> R' x y) ->
  Forall2 R' l l'.
Proof.
  induction 1 as [|a b t t' HR HF IH]; intro H; constructor.
  - apply H; [left; reflexivity|assumption].
  - apply IH. intros x y Hx. apply H. right. assumption.
Qed.

Section SizeFilterWithBackground.
Import SizeFilter.

Variable fit : list nat -> result (Q * Q).
Variables lower upper : Q.
Variable smooth : bool.
Variable kernel : nat.
Variable m : ndarray.
Hypothesis Hnn : Forall (fun v => 0 <= v) (ravel m).
Hypothesis H0 : In 0 (ravel m).

Let out_of_range (v : Z) : Prop :=
  (inject_Z (Z.of_nat (pixel_count m v)) < lower)%Q \/
  (upper < inject_Z (Z.of_nat (pixel_count m v)))%Q.

(** X7.  On a label mask with a background pixel, [filter] with an explicit
    threshold and both tails zeroes exactly the pixels of the positive ids
    whose pixel count is below the lower or above the upper bound. *)
Lemma size_filter_exact_with_background :
  exists self self' m',
    __init__ (Some (lower, upper)) true true None smooth kernel = Ok self /\
    filter fit m self = Ok (m', self') /\
    nrows m' = nrows m /\ ncols m' = ncols m /\
    Forall2 (fun v v' => (0 < v /\ out_of_range v -> v' = 0) /\
                         (~ (0 < v /\ out_of_range v) -> v' = v))
            (ravel m) (ravel m').
Proof.
  destruct (size_filter_fresh fit lower upper m) as (self' & Hf & _).
  eexists _, self', _. split; [apply size_filter_init|].
  split; [exact Hf|]. split; [reflexivity|]. split; [reflexivity|].
  apply (Forall2_impl_In_l _ _ _ _
           (get_updated_mask_pixels m (outliers lower upper m))).
  intros v v' Hv [Hz Hk]. split.
  - intros [Hpos Hout]. apply Hz. apply outliers_In. split; [|exact Hout].
    apply get_unique_ids_with_background; auto.
  - intro Hnot. apply Hk. intro Ho. apply outliers_In in Ho.
    destruct Ho as [Hid Hout]. apply Hnot. split; [|exact Hout].
    apply get_unique_ids_with_background in Hid; tauto.
Qed.

(** X8.  On a label mask with a background pixel, a second filter with the same
    explicit threshold returns the filtered mask unchanged. *)
Lemma size_filter_idempotent_with_background :
  exists self self' self'' m',
    __init__ (Some (lower, upper)) true true None smooth kernel = Ok self /\
    filter fit m self = Ok (m', self') /\
    filter fit m' self = Ok (m', self'').
Proof.
  destruct (size_filter_fresh fit lower upper m) as (self' & Hf & _).
  set (m' := _BaseFilter.get_updated_mask m (outliers lower upper m)) in *.
  destruct (size_filter_fresh fit lower upper m') as (self'' & Hf' & _).
  eexists _, self', self'', m'. split; [apply size_filter_init|].
  split; [exact Hf|]. rewrite Hf'. do 2 f_equal.
  assert (Hnone : outliers lower upper m' = []).
  { apply no_items_nil. intros v Hv. apply outliers_In in Hv.
    destruct Hv as [Hid Hout].
    apply get_unique_ids_spec in Hid. destruct Hid as (Hv & u & Hu & Hlt).
    apply get_updated_mask_In in Hv, Hu.
    pose proof (proj1 (Forall_forall _ _) Hnn) as Hnn'.
    assert (0 <= u) by (destruct Hu as [->|[Hu _]]; [lia|auto]).
    destruct Hv as [->|[Hv Hkept]]; [lia|].
    apply Hkept. apply outliers_In. split.
    - apply get_unique_ids_with_background; [exact Hnn|exact H0|].
      split; [assumption|lia].
    - unfold pixel_count, m' in Hout.
      rewrite (count_occ_get_updated_mask m _ v) in Hout by (lia || assumption).
      exact Hout. }
  rewrite Hnone. apply get_updated_mask_nil.
Qed.

End SizeFilterWithBackground.

(** * Further properties of the mask utilities *)

(** ** [get_updated_mask] composes *)

(** X3.  Removing the ids [a] and then the ids [b] is removing [a ++ b] at once;
    in particular a second removal of the same ids changes nothing. *)
Theorem get_updated_mask_twice (mask : ndarray) (a b : list Z) :
  _BaseFilter.get_updated_mask (_BaseFilter.get_updated_mask mask a) b
  = _BaseFilter.get_updated_mask mask (a ++ b) /\
  _BaseFilter.get_updated_mask (_BaseFilter.get_updated_mask mask a) a
  = _BaseFilter.get_updated_mask mask a.
Proof.
  assert (H : forall b' c,
             (forall v, In v c <-> In v a \/ In v b') ->
             _BaseFilter.get_updated_mask (_BaseFilter.get_updated_mask mask a) b'
             = _BaseFilter.get_updated_mask mask c).
  { intros b' c Hc. unfold _BaseFilter.get_updated_mask. simpl. f_equal.
    rewrite map_map. apply map_ext. intro v.
    destruct (np_isin v a) eqn:Ia.
    - assert (np_isin v c = true) as ->
        by (apply np_isin_In, Hc; left; apply np_isin_In; assumption).
      destruct (np_isin 0 b'); reflexivity.
    - destruct (np_isin v b') eqn:Ib.
      + assert (np_isin v c = true) as ->
          by (apply np_isin_In, Hc; right; apply np_isin_In; assumption).
        reflexivity.
      + assert (np_isin v c = false) as ->; [|reflexivity].
        apply np_isin_false. rewrite Hc.
        apply np_isin_false in Ia, Ib. tauto. }
  split.
  - apply H. intro v. apply in_app_iff.
  - apply H. tauto.
Qed.

(** X4.  On a label mask with a background pixel, the ids of the updated mask
    are the ids of the mask that were not removed. *)
Theorem get_unique_ids_of_updated_mask (mask : ndarray) (ids : list Z) (v : Z) :
  Forall (fun x => 0 <= x) (ravel mask) -> In 0 (ravel mask) ->
  (In v (_BaseFilter.get_unique_ids (_BaseFilter.get_updated_mask mask ids))
   <-> In v (_BaseFilter.get_unique_ids mask) /\ ~ In v ids).
Proof.
  intros Hnn H0.
  assert (Hnn' : Forall (fun x => 0 <= x)
                   (ravel (_BaseFilter.get_updated_mask mask ids))).
  { apply Forall_forall. intros x Hx. apply get_updated_mask_In in Hx.
    rewrite Forall_forall in Hnn. destruct Hx as [->|[Hx _]]; [lia|auto]. }
  assert (H0' : In 0 (ravel (_BaseFilter.get_updated_mask mask ids))).
  { simpl. apply in_map_iff. exists 0. split; [|assumption].
    destruct (np_isin 0 ids); reflexivity. }
  rewrite (get_unique_ids_with_background _ v Hnn' H0').
  rewrite (get_unique_ids_with_background _ v Hnn H0).
  split.
  - intros [Hv Hpos]. apply get_updated_mask_In in Hv.
    destruct Hv as [->|[Hv Hn]]; [lia|tauto].
  - intros [[Hv Hpos] Hn]. split; [|assumption].
    simpl. apply in_map_iff. exists v. split; [|assumption].
    apply np_isin_false in Hn. rewrite Hn. reflexivity.
Qed.

Lemma get_unique_ids_of_updated_mask_witness :
  Forall (fun x => 0 <= x) (ravel Examples.cyt_90) /\
  In 0 (ravel Examples.cyt_90) /\
  (In 10 (_BaseFilter.get_unique_ids
            (_BaseFilter.get_updated_mask Examples.cyt_90 [7]))
   <-> In 10 (_BaseFilter.get_unique_ids Examples.cyt_90) /\ ~ In 10 [7]).
Proof.
  assert (Hnn : Forall (fun x => 0 <= x) (ravel Examples.cyt_90))
    by (repeat constructor; lia).
  assert (H0 : In 0 (ravel Examples.cyt_90)) by (left; reflexivity).
  split; [exact Hnn|]. split; [exact H0|].
  exact (get_unique_ids_of_updated_mask Examples.cyt_90 [7] 10 Hnn H0).
Defined.

(** ** [get_upscaled_mask_basic] *)

Lemma repeat_each_length {A : Type} (n : nat) (l : list A) :
  length (repeat_each n l) = (n * length l)%nat.
Proof.
  unfold repeat_each. induction l as [|a t IH]; simpl; [lia|].
  rewrite length_app, repeat_length, IH. lia.
Qed.

Lemma nth_repeat_each {A : Type} (n : nat) (l : list A) (i : nat) (d : A) :
  n <> 0%nat -> nth i (repeat_each n l) d = nth (i / n) l d.
Proof.
  intro Hn. unfold repeat_each. revert i.
  induction l as [|a t IH]; intro i; simpl.
  - destruct i; destruct (_ / n)%nat; reflexivity.
  - destruct (Nat.lt_ge_cases i n) as [Hlt|Hge].
    + rewrite app_nth1 by (rewrite repeat_length; exact Hlt).
      rewrite (Nat.div_small i n Hlt). apply nth_repeat_lt. exact Hlt.
    + rewrite app_nth2 by (rewrite repeat_length; exact Hge).
      rewrite repeat_length, IH.
      replace (i / n)%nat with (S ((i - n) / n)); [reflexivity|].
      replace i with (1 * n + (i - n))%nat at 2 by lia.
      rewrite Nat.div_add_l by exact Hn. lia.
Qed.

Lemma rows_of_length (r c : nat) (l : list Z) : length (rows_of r c l) = r.
Proof. revert l. induction r; intro l; simpl; auto. Qed.

Lemma nth_rows_of (r c : nat) (l : list Z) (i : nat) :
  (i < r)%nat -> nth i (rows_of r c l) [] = firstn c (skipn (i * c) l).
Proof.
  revert l i. induction r as [|r IH]; intros l i Hi; [lia|].
  destruct i as [|i]; simpl; [reflexivity|].
  rewrite IH by lia. rewrite skipn_skipn. do 2 f_equal. lia.
Qed.

Lemma nth_firstn_skipn (l : list Z) (k c j : nat) :
  (j < c)%nat -> nth j (firstn c (skipn k l)) 0 = nth (k + j) l 0.
Proof.
  intro Hj. rewrite nth_firstn.
  apply Nat.ltb_lt in Hj. rewrite Hj. apply nth_skipn.
Qed.

Lemma nth_concat_uniform {A : Type} (w : nat) (ls : list (list A))
  (i j : nat) (d : A) :
  Forall (fun row => length row = w) ls -> (j < w)%nat ->
  nth (i * w + j) (concat ls) d = nth j (nth i ls []) d.
Proof.
  intros Hall Hj. revert i.
  induction Hall as [|row t Hrow Ht IH]; intro i; simpl.
  - destruct i; destruct j; destruct (_ + _)%nat; reflexivity.
  - destruct i as [|i]; simpl.
    + apply app_nth1. lia.
    + rewrite app_nth2 by lia. rewrite <- IH. f_equal. lia.
Qed.

Lemma rows_of_uniform (r c : nat) (l : list Z) :
  length l = (r * c)%nat ->
  Forall (fun row => length row = c) (rows_of r c l).
Proof.
  revert l. induction r as [|r IH]; intros l Hl; simpl; constructor.
  - rewrite length_firstn. simpl in Hl. lia.
  - apply IH. rewrite length_skipn. simpl in Hl. lia.
Qed.

Lemma repeat_each_In {A : Type} (n : nat) (l : list A) (x : A) :
  In x (repeat_each n l) -> In x l.
Proof.
  unfold repeat_each. intro H. apply in_flat_map in H.
  destruct H as (a & Ha & Hx). apply repeat_spec in Hx. subst. exact Ha.
Qed.

Lemma concat_uniform_length {A : Type} (w : nat) (ls : list (list A)) :
  Forall (fun row => length row = w) ls ->
  length (concat ls) = (length ls * w)%nat.
Proof.
  induction 1 as [|row t Hrow Ht IH]; simpl; [reflexivity|].
  rewrite length_app, IH, Hrow. reflexivity.
Qed.

(** X5.  Upscaling without smoothing: the shape is multiplied by the factor and
    the pixel at (i, j) is the pixel of the mask at (i / N, j / N). *)
Theorem get_upscaled_mask_basic_pixels
  (ext : externals) (ds : downsampling) (mask : ndarray) :
  well_shaped mask ->
  downsampling_factor ds <> 0%nat ->
  let N := downsampling_factor ds in
  let up := _BaseFilter.get_upscaled_mask_basic ext ds mask false in
  nrows up = (nrows mask * N)%nat /\
  ncols up = (ncols mask * N)%nat /\
  well_shaped up /\
  forall i j,
    (i < nrows up)%nat -> (j < ncols up)%nat ->
    nth (i * ncols up + j) (ravel up) 0
    = nth (i / N * ncols mask + j / N) (ravel mask) 0.
Proof.
  intros Hw HN N up.
  set (rows := rows_of (nrows mask) (ncols mask) (ravel mask)).
  assert (Hrows : Forall (fun row => length row = (ncols mask * N)%nat)
                    (repeat_each N (map (repeat_each N) rows))).
  { apply Forall_forall. intros row Hrow.
    apply repeat_each_In in Hrow. apply in_map_iff in Hrow.
    destruct Hrow as (row0 & <- & Hrow0).
    rewrite repeat_each_length.
    pose proof (rows_of_uniform _ _ _ Hw) as Hu.
    rewrite Forall_forall in Hu. rewrite (Hu _ Hrow0). lia. }
  split; [reflexivity|]. split; [reflexivity|]. split.
  - unfold well_shaped, up, _BaseFilter.get_upscaled_mask_basic, np_repeat2.
    cbn [ravel nrows ncols]. fold N. fold rows.
    rewrite (concat_uniform_length _ _ Hrows).
    rewrite repeat_each_length, length_map. unfold rows.
    rewrite rows_of_length. lia.
  - intros i j.
    unfold up, _BaseFilter.get_upscaled_mask_basic, np_repeat2.
    cbn [ravel nrows ncols]. fold N. fold rows. intros Hi Hj.
    rewrite (nth_concat_uniform _ _ i j 0 Hrows Hj).
    rewrite nth_repeat_each by exact HN.
    change (@nil Z) with (repeat_each N (@nil Z)).
    rewrite map_nth. rewrite nth_repeat_each by exact HN.
    assert (Hi' : (i / N < nrows mask)%nat)
      by (apply Nat.Div0.div_lt_upper_bound; lia).
    assert (Hj' : (j / N < ncols mask)%nat)
      by (apply Nat.Div0.div_lt_upper_bound; lia).
    unfold rows. rewrite nth_rows_of by exact Hi'.
    apply nth_firstn_skipn. exact Hj'.
Qed.

Lemma get_upscaled_mask_basic_pixels_witness :
  let mask := mk_ndarray 2 2 [1; 2; 3; 4] in
  let ds := Build_downsampling 2 false 7 in
  well_shaped mask /\
  downsampling_factor ds <> 0%nat /\
  let N := downsampling_factor ds in
  let up := _BaseFilter.get_upscaled_mask_basic Examples.no_externals ds mask false in
  nrows up = (nrows mask * N)%nat /\
  ncols up = (ncols mask * N)%nat /\
  well_shaped up /\
  forall i j,
    (i < nrows up)%nat -> (j < ncols up)%nat ->
    nth (i * ncols up + j) (ravel up) 0
    = nth (i / N * ncols mask + j / N) (ravel mask) 0.
Proof.
  intros mask ds.
  assert (Hw : well_shaped mask) by reflexivity.
  assert (HN : downsampling_factor ds <> 0%nat) by (simpl; lia).
  split; [exact Hw|]. split; [exact HN|].
  exact (get_upscaled_mask_basic_pixels Examples.no_externals ds mask Hw HN).
Defined.

(** * Further properties of [SizeFilter] *)

Section SizeFilterTails.
Import SizeFilter.

Variable fit : list nat -> result (Q * Q).

(** A session that has filtered once has its ids to remove, and the mask it
    returned is the input mask without these ids. *)
Lemma size_filter_result (input_mask m' : ndarray) (self self' : session) :
  filter fit input_mask self = Ok (m', self') ->
  exists R, ids_to_remove self' = Some R /\
            m' = _BaseFilter.get_updated_mask input_mask R.
Proof.
  unfold filter.
  destruct (match ids_to_remove self with
            | Some _ => Ok self
            | None => _get_ids_to_remove fit input_mask self
            end) as [s|e]; simpl; [|discriminate].
  destruct (ids_to_remove s) as [R|] eqn:E; [|discriminate].
  intro H. inversion H; subst. exists R. auto.
Qed.

End SizeFilterTails.

(** X9.  The ids to remove are computed once: after a first call of [filter],
    every later call on the same object, with whatever mask, removes the ids
    computed from the first mask and leaves the object as it is. *)
Theorem size_filter_reuses_ids_to_remove
  (fit fit' : list nat -> result (Q * Q))
  (m1 m1' m2 : ndarray) (self self' : SizeFilter.session) :
  SizeFilter.filter fit m1 self = Ok (m1', self') ->
  exists R,
    SizeFilter.ids_to_remove self' = Some R /\
    m1' = _BaseFilter.get_updated_mask m1 R /\
    SizeFilter.filter fit' m2 self'
    = Ok (_BaseFilter.get_updated_mask m2 R, self').
Proof.
  intro H. destruct (size_filter_result fit m1 m1' self self' H) as (R & HR & Hm).
  exists R. split; [exact HR|]. split; [exact Hm|].
  unfold SizeFilter.filter. rewrite HR. simpl. rewrite HR. reflexivity.
Qed.

Lemma size_filter_reuses_ids_to_remove_witness :
  exists self self',
    SizeFilter.__init__ (Some (2 # 1, 2 # 1)) true true None true 7 = Ok self /\
    SizeFilter.filter (fun _ => Raise ValueError)
      (mk_ndarray 1 4 [0; 1; 2; 2]) self
    = Ok (mk_ndarray 1 4 [0; 0; 2; 2], self') /\
    exists R,
      SizeFilter.ids_to_remove self' = Some R /\
      mk_ndarray 1 4 [0; 0; 2; 2]
      = _BaseFilter.get_updated_mask (mk_ndarray 1 4 [0; 1; 2; 2]) R /\
      SizeFilter.filter (fun _ => Raise ValueError)
        (mk_ndarray 1 4 [0; 1; 1; 2]) self'
      = Ok (_BaseFilter.get_updated_mask (mk_ndarray 1 4 [0; 1; 1; 2]) R, self').
Proof.
  eexists _, _. split; [reflexivity|].
  assert (H : SizeFilter.filter (fun _ => Raise ValueError)
                (mk_ndarray 1 4 [0; 1; 2; 2])
                (SizeFilter.mk_session (Some (2 # 1, 2 # 1)) true true None None [] None)
              = Ok (mk_ndarray 1 4 [0; 0; 2; 2],
                    SizeFilter.mk_session (Some (2 # 1, 2 # 1)) true true None
                      (Some (mk_ndarray 1 4 [0; 1; 2; 2])) [1; 2] (Some [1])))
    by reflexivity.
  split; [exact H|].
  exact (size_filter_reuses_ids_to_remove _ (fun _ => Raise ValueError) _ _
           (mk_ndarray 1 4 [0; 1; 1; 2]) _ _ H).
Defined.

(** X6.  With an explicit threshold, each tail is filtered only when it is
    enabled: the ids to remove are the scanned ids whose pixel count is below
    the lower bound, if [filter_lower], or above the upper bound, if
    [filter_upper]. *)
Theorem size_filter_tails
  (fit : list nat -> result (Q * Q)) (lower upper : Q)
  (filter_lower filter_upper smooth : bool) (kernel : nat) (m : ndarray) :
  filter_lower = true \/ filter_upper = true ->
  exists self self' R,
    SizeFilter.__init__ (Some (lower, upper)) filter_lower filter_upper
      None smooth kernel = Ok self /\
    SizeFilter.filter fit m self = Ok (_BaseFilter.get_updated_mask m R, self') /\
    SizeFilter.ids_to_remove self' = Some R /\
    forall v,
      In v R <->
      In v (_BaseFilter.get_unique_ids m) /\
      ((filter_lower = true /\
        (inject_Z (Z.of_nat (SizeFilter.pixel_count m v)) < lower)%Q) \/
       (filter_upper = true /\
        (upper < inject_Z (Z.of_nat (SizeFilter.pixel_count m v)))%Q)).
Proof.
  intro Hflags.
  assert (Hcalc : forall fl fu,
             negb fl && negb fu = false ->
             exists self self',
               SizeFilter.__init__ (Some (lower, upper)) fl fu None smooth kernel
               = Ok self /\
               SizeFilter.filter fit m self
               = Ok (_BaseFilter.get_updated_mask m
                       ((if fl then
                           List.filter
                             (fun v => SizeFilter.count_below
                                         (SizeFilter.pixel_count m v) lower)
                             (_BaseFilter.get_unique_ids m)
                         else [])
                        ++ (if fu then
                              List.filter
                                (fun v => SizeFilter.count_above
                                            (SizeFilter.pixel_count m v) upper)
                                (_BaseFilter.get_unique_ids m)
                            else [])), self') /\
               SizeFilter.ids_to_remove self'
               = Some ((if fl then
                          List.filter
                            (fun v => SizeFilter.count_below
                                        (SizeFilter.pixel_count m v) lower)
                            (_BaseFilter.get_unique_ids m)
                        else [])
                       ++ (if fu then
                             List.filter
                               (fun v => SizeFilter.count_above
                                           (SizeFilter.pixel_count m v) upper)
                               (_BaseFilter.get_unique_ids m)
                           else []))).
  { intros fl fu Hok. unfold SizeFilter.__init__. rewrite Hok.
    destruct fl, fu; try discriminate;
      (eexists _, _; split; [reflexivity|];
       unfold SizeFilter.filter, SizeFilter._get_ids_to_remove; simpl;
       unfold np_unique_counts; rewrite tl_map, ?select_ids_map;
       rewrite ?app_nil_r; split; reflexivity). }
  destruct (Hcalc filter_lower filter_upper) as (self & self' & Hinit & Hf & HR).
  { destruct Hflags as [->| ->]; [reflexivity|]. apply andb_false_r. }
  eexists self, self', _. split; [exact Hinit|]. split; [exact Hf|].
  split; [exact HR|].
  intro v. rewrite in_app_iff.
  destruct filter_lower, filter_upper; simpl;
    rewrite ?filter_In, ?count_below_lt, ?count_above_gt;
    intuition discriminate.
Qed.

Lemma size_filter_tails_witness :
  (true = true \/ false = true) /\
  exists self self' R,
    SizeFilter.__init__ (Some (2 # 1, 2 # 1)) true false None true 7 = Ok self /\
    SizeFilter.filter (fun _ => Raise ValueError)
      Examples.mask_three_objects self
    = Ok (_BaseFilter.get_updated_mask Examples.mask_three_objects R,
          self') /\
    SizeFilter.ids_to_remove self' = Some R /\
    forall v,
      In v R <->
      In v (_BaseFilter.get_unique_ids Examples.mask_three_objects) /\
      ((true = true /\
        (inject_Z (Z.of_nat (SizeFilter.pixel_count
                               Examples.mask_three_objects v))
         < 2 # 1)%Q) \/
       (false = true /\
        (2 # 1 < inject_Z (Z.of_nat (SizeFilter.pixel_count
                                       Examples.mask_three_objects v)))%Q)).
Proof.
  split; [left; reflexivity|].
  exact (size_filter_tails (fun _ => Raise ValueError) (2 # 1) (2 # 1)
           true false true 7 Examples.mask_three_objects
           (or_introl eq_refl)).
Defined.

(** X11.  With a downsampling factor, [filter] on a new [SizeFilter] stops in
    [load_mask] with [AttributeError], whatever the mask and the threshold. *)
Theorem size_filter_downsampling_raises
  (fit : list nat -> result (Q * Q)) (threshold : option (Q * Q))
  (filter_lower filter_upper smooth : bool) (factor kernel : nat)
  (m : ndarray) (self : SizeFilter.session) :
  SizeFilter.__init__ threshold filter_lower filter_upper (Some factor)
    smooth kernel = Ok self ->
  SizeFilter.filter fit m self = Raise AttributeError.
Proof.
  unfold SizeFilter.__init__.
  destruct (negb filter_lower && negb filter_upper); [discriminate|].
  intro H. inversion H; subst. reflexivity.
Qed.

Lemma size_filter_downsampling_raises_witness :
  SizeFilter.__init__ (Some (2 # 1, 10 # 1)) true true (Some 2%nat) true 7
  = Ok (SizeFilter.mk_session (Some (2 # 1, 10 # 1)) true true
          (Some (Build_downsampling 2 true 7)) None [] None) /\
  SizeFilter.filter (fun _ => Raise ValueError) Examples.cyt_90
    (SizeFilter.mk_session (Some (2 # 1, 10 # 1)) true true
       (Some (Build_downsampling 2 true 7)) None [] None)
  = Raise AttributeError.
Proof.
  split; [reflexivity|].
  exact (size_filter_downsampling_raises (fun _ => Raise ValueError)
           (Some (2 # 1, 10 # 1)) true true true 2 7 Examples.cyt_90 _ eq_refl).
Defined.

(** X10.  Without an explicit threshold, the fit is given the pixel counts of the
    scanned ids, in ascending order of the ids.  Its failure is the failure
    of [filter]; its threshold is stored on the object and the mask returned
    is the one an explicit threshold of the same value gives. *)
Theorem size_filter_automatic_threshold
  (fit : list nat -> result (Q * Q))
  (filter_lower filter_upper smooth : bool) (kernel : nat) (m : ndarray) :
  filter_lower = true \/ filter_upper = true ->
  exists self,
    SizeFilter.__init__ None filter_lower filter_upper None smooth kernel
    = Ok self /\
    match fit (map (SizeFilter.pixel_count m) (_BaseFilter.get_unique_ids m)) with
    | Raise e => SizeFilter.filter fit m self = Raise e
    | Ok t =>
        exists self' explicit explicit' m',
          SizeFilter.filter fit m self = Ok (m', self') /\
          SizeFilter.filter_threshold self' = Some t /\
          SizeFilter.__init__ (Some t) filter_lower filter_upper None smooth kernel
          = Ok explicit /\
          SizeFilter.filter fit m explicit = Ok (m', explicit')
    end.
Proof.
  intro Hflags.
  assert (Hok : negb filter_lower && negb filter_upper = false).
  { destruct Hflags as [->| ->]; [reflexivity|]. apply andb_false_r. }
  unfold SizeFilter.__init__. rewrite Hok.
  eexists. split; [reflexivity|].
  unfold SizeFilter.filter, SizeFilter._get_ids_to_remove. simpl.
  unfold np_unique_counts. rewrite tl_map.
  change (count_occ Z.eq_dec (ravel m)) with (SizeFilter.pixel_count m).
  change (tl (np_unique (ravel m))) with (_BaseFilter.get_unique_ids m).
  destruct (fit _) as [[lower upper]|e]; simpl; [|reflexivity].
  eexists _, _, _, _. split; [reflexivity|]. split; [reflexivity|].
  split; [reflexivity|]. simpl.
  unfold np_unique_counts. rewrite tl_map. reflexivity.
Qed.

Lemma size_filter_automatic_threshold_witness :
  (true = true \/ true = true) /\
  exists self,
    SizeFilter.__init__ None true true None true 7 = Ok self /\
    match (fun _ : list nat => Ok (2 # 1, 2 # 1))
            (map (SizeFilter.pixel_count Examples.mask_three_objects)
                 (_BaseFilter.get_unique_ids Examples.mask_three_objects)) with
    | Raise e =>
        SizeFilter.filter (fun _ => Ok (2 # 1, 2 # 1))
          Examples.mask_three_objects self = Raise e
    | Ok t =>
        exists self' explicit explicit' m',
          SizeFilter.filter (fun _ => Ok (2 # 1, 2 # 1))
            Examples.mask_three_objects self = Ok (m', self') /\
          SizeFilter.filter_threshold self' = Some t /\
          SizeFilter.__init__ (Some t) true true None true 7 = Ok explicit /\
          SizeFilter.filter (fun _ => Ok (2 # 1, 2 # 1))
            Examples.mask_three_objects explicit = Ok (m', explicit')
    end.
Proof.
  split; [left; reflexivity|].
  exact (size_filter_automatic_threshold (fun _ => Ok (2 # 1, 2 # 1))
           true true true 7 Examples.mask_three_objects (or_introl eq_refl)).
Defined.

(** ** [_get_index_population] *)

Section ArgBest.

Variable better : Q -> Q -> bool.
Variables le' lt' : Q -> Q -> Prop.
Hypothesis better_true : forall x b, better x b = true -> lt' b x.
Hypothesis better_false : forall x b, better x b = false -> le' x b.
Hypothesis le'_refl : forall x, le' x x.
Hypothesis lt'_le' : forall x y, lt' x y -> le' x y.
Hypothesis le'_lt'_trans : forall x y z, le' x y -> lt' y z -> lt' x z.

Lemma argbest_spec (l pre : list Q) (best : Q) (bi : nat) :
  (bi < length pre)%nat ->
  nth bi (pre ++ l) 0%Q = best ->
  (forall j, (j < length pre)%nat -> le' (nth j (pre ++ l) 0%Q) best) ->
  (forall j, (j < bi)%nat -> lt' (nth j (pre ++ l) 0%Q) best) ->
  let r := SizeFilter.argbest better best bi (length pre) l in
  (r < length (pre ++ l))%nat /\
  (forall j, (j < length (pre ++ l))%nat ->
             le' (nth j (pre ++ l) 0%Q) (nth r (pre ++ l) 0%Q)) /\
  (forall j, (j < r)%nat -> lt' (nth j (pre ++ l) 0%Q) (nth r (pre ++ l) 0%Q)).
Proof.
  revert pre best bi. induction l as [|x t IH]; intros pre best bi Hbi Hbest Hle Hlt.
  - simpl. rewrite app_nil_r in *. rewrite Hbest. auto.
  - assert (Hx : nth (length pre) (pre ++ x :: t) 0%Q = x)
      by (rewrite app_nth2, Nat.sub_diag by lia; reflexivity).
    assert (Hlen : length (pre ++ [x]) = S (length pre))
      by (rewrite length_app; simpl; lia).
    simpl. destruct (better x best) eqn:B.
    + apply better_true in B.
      specialize (IH (pre ++ [x]) x (length pre)).
      rewrite <- app_assoc, Hlen in IH. simpl in IH.
      apply IH; [lia|exact Hx| |].
      * intros j Hj. destruct (Nat.eq_dec j (length pre)) as [->|Hne].
        -- rewrite Hx. apply le'_refl.
        -- apply lt'_le'. apply (le'_lt'_trans _ best); [apply Hle; lia|exact B].
      * intros j Hj. apply (le'_lt'_trans _ best); [apply Hle; lia|exact B].
    + apply better_false in B.
      specialize (IH (pre ++ [x]) best bi).
      rewrite <- app_assoc, Hlen in IH. simpl in IH.
      apply IH; [lia|exact Hbest| |exact Hlt].
      intros j Hj. destruct (Nat.eq_dec j (length pre)) as [->|Hne].
      * rewrite Hx. exact B.
      * apply Hle. lia.
Qed.

Lemma argbest_first (x : Q) (t : list Q) :
  let r := SizeFilter.argbest better x 0 1 t in
  (r < length (x :: t))%nat /\
  (forall j, (j < length (x :: t))%nat ->
             le' (nth j (x :: t) 0%Q) (nth r (x :: t) 0%Q)) /\
  (forall j, (j < r)%nat -> lt' (nth j (x :: t) 0%Q) (nth r (x :: t) 0%Q)).
Proof.
  apply (argbest_spec t [x] x 0%nat); simpl.
  - lia.
  - reflexivity.
  - intros j Hj. assert (j = 0%nat) as -> by lia. apply le'_refl.
  - intros j Hj. lia.
Qed.

End ArgBest.

Lemma Qgtb_true (x b : Q) : SizeFilter.Qgtb x b = true -> (b < x)%Q.
Proof.
  unfold SizeFilter.Qgtb. rewrite negb_true_iff. intro H.
  apply Qnot_le_lt. intro Hle. apply Qle_bool_iff in Hle. congruence.
Qed.

Lemma Qgtb_false (x b : Q) : SizeFilter.Qgtb x b = false -> (x <= b)%Q.
Proof.
  unfold SizeFilter.Qgtb. rewrite negb_false_iff. apply Qle_bool_iff.
Qed.

Lemma Qltb_true (x b : Q) : SizeFilter.Qltb x b = true -> (x < b)%Q.
Proof.
  unfold SizeFilter.Qltb. rewrite negb_true_iff. intro H.
  apply Qnot_le_lt. intro Hle. apply Qle_bool_iff in Hle. congruence.
Qed.

Lemma Qltb_false (x b : Q) : SizeFilter.Qltb x b = false -> (b <= x)%Q.
Proof.
  unfold SizeFilter.Qltb. rewrite negb_false_iff. apply Qle_bool_iff.
Qed.

(** [np.argmax]: the first index of a greatest entry. *)
Lemma np_argmax_Q_spec (l : list Q) :
  l <> [] ->
  exists r,
    SizeFilter.np_argmax_Q l = SizeFilter.Idx r /\
    (r < length l)%nat /\
    (forall j, (j < length l)%nat -> (nth j l 0 <= nth r l 0)%Q) /\
    (forall j, (j < r)%nat -> (nth j l 0 < nth r l 0)%Q).
Proof.
  destruct l as [|x t]; [congruence|]. intros _.
  eexists. split; [reflexivity|].
  apply (argbest_first SizeFilter.Qgtb Qle Qlt).
  - exact Qgtb_true.
  - exact Qgtb_false.
  - exact Qle_refl.
  - exact Qlt_le_weak.
  - exact Qle_lt_trans.
Qed.

(** [np.argmin]: the first index of a least entry. *)
Lemma np_argmin_Q_spec (l : list Q) :
  l <> [] ->
  exists r,
    SizeFilter.np_argmin_Q l = SizeFilter.Idx r /\
    (r < length l)%nat /\
    (forall j, (j < length l)%nat -> (nth r l 0 <= nth j l 0)%Q) /\
    (forall j, (j < r)%nat -> (nth r l 0 < nth j l 0)%Q).
Proof.
  destruct l as [|x t]; [congruence|]. intros _.
  eexists. split; [reflexivity|].
  apply (argbest_first SizeFilter.Qltb (fun a b => (b <= a)%Q)
           (fun a b => (b < a)%Q)).
  - exact Qltb_true.
  - exact Qltb_false.
  - exact Qle_refl.
  - intros a b. apply Qlt_le_weak.
  - intros a b c Hab Hbc. exact (Qlt_le_trans _ _ _ Hbc Hab).
Qed.

Section PopulationPolicy.
Import String.

(** X12.  [_get_index_population] returns the first index of the greatest mean
    for [largest], of the least mean for [smallest], of the greatest weight
    for [mostcommon] and of the least weight for [leastcommon]. *)
Theorem get_index_population_selects (means weights : list Q) :
  means <> [] -> weights <> [] ->
  (exists r,
      SizeFilter._get_index_population "largest"%string means weights = SizeFilter.Idx r /\
      (r < List.length means)%nat /\
      (forall j, (j < List.length means)%nat -> (nth j means 0 <= nth r means 0)%Q) /\
      (forall j, (j < r)%nat -> (nth j means 0 < nth r means 0)%Q)) /\
  (exists r,
      SizeFilter._get_index_population "smallest"%string means weights = SizeFilter.Idx r /\
      (r < List.length means)%nat /\
      (forall j, (j < List.length means)%nat -> (nth r means 0 <= nth j means 0)%Q) /\
      (forall j, (j < r)%nat -> (nth r means 0 < nth j means 0)%Q)) /\
  (exists r,
      SizeFilter._get_index_population "mostcommon"%string means weights = SizeFilter.Idx r /\
      (r < List.length weights)%nat /\
      (forall j, (j < List.length weights)%nat ->
                 (nth j weights 0 <= nth r weights 0)%Q) /\
      (forall j, (j < r)%nat -> (nth j weights 0 < nth r weights 0)%Q)) /\
  (exists r,
      SizeFilter._get_index_population "leastcommon"%string means weights = SizeFilter.Idx r /\
      (r < List.length weights)%nat /\
      (forall j, (j < List.length weights)%nat ->
                 (nth r weights 0 <= nth j weights 0)%Q) /\
      (forall j, (j < r)%nat -> (nth r weights 0 < nth j weights 0)%Q)).
Proof.
  intros Hm Hw. repeat split.
  - exact (np_argmax_Q_spec means Hm).
  - exact (np_argmin_Q_spec means Hm).
  - exact (np_argmax_Q_spec weights Hw).
  - exact (np_argmin_Q_spec weights Hw).
Qed.

(** X13.  For any other value of [population_to_keep] no branch assigns [idx] and
    the method stops with [UnboundLocalError]. *)
Theorem get_index_population_unknown_policy (policy : string)
  (means weights : list Q) :
  policy <> "largest"%string -> policy <> "smallest"%string ->
  policy <> "mostcommon"%string -> policy <> "leastcommon"%string ->
  SizeFilter._get_index_population policy means weights
  = SizeFilter.UnboundLocalError.
Proof.
  intros H1 H2 H3 H4. unfold SizeFilter._get_index_population.
  apply String.eqb_neq in H1, H2, H3, H4. rewrite H1, H2, H3, H4. reflexivity.
Qed.

Lemma get_index_population_selects_witness :
  [1; 3; 3]%Q <> [] /\ [1 # 2; 1 # 4; 1 # 4]%Q <> [] /\
  exists r,
    SizeFilter._get_index_population "largest"%string
      [1; 3; 3]%Q [1 # 2; 1 # 4; 1 # 4]%Q = SizeFilter.Idx r /\
    (r < List.length [1; 3; 3]%Q)%nat /\
    (forall j, (j < List.length [1; 3; 3]%Q)%nat ->
               (nth j [1; 3; 3] 0 <= nth r [1; 3; 3] 0)%Q) /\
    (forall j, (j < r)%nat -> (nth j [1; 3; 3] 0 < nth r [1; 3; 3] 0)%Q).
Proof.
  assert (Hm : [1; 3; 3]%Q <> []) by discriminate.
  assert (Hw : [1 # 2; 1 # 4; 1 # 4]%Q <> []) by discriminate.
  split; [exact Hm|]. split; [exact Hw|].
  exact (proj1 (get_index_population_selects _ _ Hm Hw)).
Defined.

Lemma get_index_population_unknown_policy_witness :
  "median"%string <> "largest"%string /\
  "median"%string <> "smallest"%string /\
  "median"%string <> "mostcommon"%string /\
  "median"%string <> "leastcommon"%string /\
  SizeFilter._get_index_population "median"%string
    [1; 3; 3]%Q [1 # 2; 1 # 4; 1 # 4]%Q
  = SizeFilter.UnboundLocalError.
Proof.
  assert (H1 : "median"%string <> "largest"%string) by discriminate.
  assert (H2 : "median"%string <> "smallest"%string) by discriminate.
  assert (H3 : "median"%string <> "mostcommon"%string) by discriminate.
  assert (H4 : "median"%string <> "leastcommon"%string) by discriminate.
  repeat (split; [assumption|]).
  exact (get_index_population_unknown_policy _ _ _ H1 H2 H3 H4).
Defined.

End PopulationPolicy.

(** * Further properties of [MatchNucleusCytosolIds] *)

Lemma flat_where_absent (l : list Z) (k : nat) (v : Z) :
  ~ In v l -> flat_where k l v = [].
Proof.
  revert k. induction l as [|x t IH]; intros k Hn; simpl; [reflexivity|].
  destruct (Z.eqb_spec x v) as [->|_].
  - exfalso. apply Hn. left. reflexivity.
  - apply IH. intro H. apply Hn. right. exact H.
Qed.

(** X15.  An id that does not occur in the nucleus mask has an empty footprint:
    [_match_nucleus_id] returns [None] and appends the id to the nuclei
    discard list. *)
Theorem match_nucleus_id_absent_id
  (self : MatchNucleusCytosolIds.session) (nuc cyt : ndarray) (nucleus_id : Z) :
  MatchNucleusCytosolIds.loaded_masks self = Ok (nuc, cyt) ->
  ~ In nucleus_id (ravel nuc) ->
  MatchNucleusCytosolIds.potential_cytosol nuc cyt nucleus_id = Ok [] /\
  MatchNucleusCytosolIds._match_nucleus_id nucleus_id self
  = Ok (None,
        MatchNucleusCytosolIds.set_nuclei_discard
          (MatchNucleusCytosolIds.nuclei_discard_list self ++ [nucleus_id]) self).
Proof.
  intros Hloaded Hn.
  assert (Hfp : MatchNucleusCytosolIds.potential_cytosol nuc cyt nucleus_id = Ok []).
  { unfold MatchNucleusCytosolIds.potential_cytosol, np_where_eq.
    rewrite flat_where_absent by exact Hn. reflexivity. }
  split; [exact Hfp|].
  apply (match_nucleus_id_unmatched self nuc cyt nucleus_id [] Hloaded Hfp).
  intros c [].
Qed.

Lemma match_nucleus_id_absent_id_witness :
  MatchNucleusCytosolIds.loaded_masks
    (Examples.loaded Examples.nuc_90 Examples.cyt_90)
  = Ok (Examples.nuc_90, Examples.cyt_90) /\
  ~ In 4 (ravel Examples.nuc_90) /\
  MatchNucleusCytosolIds.potential_cytosol Examples.nuc_90 Examples.cyt_90 4
  = Ok [] /\
  MatchNucleusCytosolIds._match_nucleus_id 4
    (Examples.loaded Examples.nuc_90 Examples.cyt_90)
  = Ok (None,
        MatchNucleusCytosolIds.set_nuclei_discard
          (MatchNucleusCytosolIds.nuclei_discard_list
             (Examples.loaded Examples.nuc_90 Examples.cyt_90) ++ [4])
          (Examples.loaded Examples.nuc_90 Examples.cyt_90)).
Proof.
  assert (Hn : ~ In 4 (ravel Examples.nuc_90))
    by (simpl; intuition discriminate).
  split; [reflexivity|]. split; [exact Hn|].
  exact (match_nucleus_id_absent_id
           (Examples.loaded Examples.nuc_90 Examples.cyt_90)
           Examples.nuc_90 Examples.cyt_90 4 eq_refl Hn).
Defined.

(** ** The relabelling loop *)




(** ** Which ids end up where *)

Section Tracking.
Import MatchNucleusCytosolIds.

Variables nuc cyt : ndarray.

Lemma match_nucleus_id_cases (n : Z) (s s' : session) (r : option Z) :
  consistent nuc cyt s ->
  _match_nucleus_id n s = Ok (r, s') ->
  (exists c, s' = set_lookup (dict_set n c (_nucleus_lookup_dict s)) s) \/
  s' = set_nuclei_discard (nuclei_discard_list s ++ [n]) s.
Proof.
  intros (Hloaded & _) Hstep.
  destruct (potential_cytosol nuc cyt n) as [fp|e] eqn:Hfp.
  - pose proof (match_nucleus_id_result s nuc cyt n fp Hloaded Hfp r s' Hstep)
      as Hr.
    destruct r as [c|]; [left; exists c; tauto | right; exact Hr].
  - unfold _match_nucleus_id in Hstep. rewrite Hloaded in Hstep.
    simpl in Hstep. rewrite Hfp in Hstep. discriminate.
Qed.

(** Over a duplicate-free list of ids, the loop of
    [_initialize_lookup_table] puts every id either among the keys of the
    lookup dict or in the nuclei discard list, never in both. *)
Lemma initialize_loop_tracks (ids seen : list Z) (s s' : session) :
  consistent nuc cyt s ->
  NoDup ids -> (forall n, In n ids -> ~ In n seen) ->
  (forall n, In n (map fst (_nucleus_lookup_dict s)) -> In n seen) ->
  (forall n, In n (nuclei_discard_list s) -> In n seen) ->
  (forall n, In n (nuclei_discard_list s) ->
             ~ In n (map fst (_nucleus_lookup_dict s))) ->
  forM (fun nucleus_id self => r <- _match_nucleus_id nucleus_id self ;; Ok (snd r))
       ids s = Ok s' ->
  (forall n, In n (map fst (_nucleus_lookup_dict s')) -> In n (seen ++ ids)) /\
  (forall n, In n (nuclei_discard_list s') -> In n (seen ++ ids)) /\
  (forall n, In n (nuclei_discard_list s') ->
             ~ In n (map fst (_nucleus_lookup_dict s'))) /\
  (forall n, In n ids ->
             In n (map fst (_nucleus_lookup_dict s')) \/
             In n (nuclei_discard_list s')) /\
  (forall n, In n (map fst (_nucleus_lookup_dict s)) ->
             In n (map fst (_nucleus_lookup_dict s'))) /\
  (forall n, In n (nuclei_discard_list s) -> In n (nuclei_discard_list s')).
Proof.
  revert seen s. induction ids as [|a t IH];
    intros seen s Hs Hnd Hfresh Hkeys Hdisc Hdisj; simpl.
  - intro E. inversion E; subst. rewrite app_nil_r.
    repeat split; auto. intros n [].
  - destruct (_match_nucleus_id a s) as [[r s1]|e] eqn:Hstep; simpl;
      [|discriminate].
    intro Hrest.
    destruct (match_nucleus_id_step nuc cyt a s s1 r Hs Hstep) as (Hs1 & _).
    inversion Hnd as [|? ? Ha Hndt]; subst.
    assert (Hafresh : ~ In a seen) by (apply Hfresh; left; reflexivity).
    assert (Hstate :
              (forall n, In n (map fst (_nucleus_lookup_dict s1)) ->
                         In n (seen ++ [a])) /\
              (forall n, In n (nuclei_discard_list s1) -> In n (seen ++ [a])) /\
              (forall n, In n (nuclei_discard_list s1) ->
                         ~ In n (map fst (_nucleus_lookup_dict s1))) /\
              (In a (map fst (_nucleus_lookup_dict s1)) \/
               In a (nuclei_discard_list s1)) /\
              (forall n, In n (map fst (_nucleus_lookup_dict s)) ->
                         In n (map fst (_nucleus_lookup_dict s1))) /\
              (forall n, In n (nuclei_discard_list s) ->
                         In n (nuclei_discard_list s1))).
    { destruct (match_nucleus_id_cases a s s1 r Hs Hstep) as [(c & ->)| ->];
        simpl.
      - repeat split.
        + intros n Hn. apply dict_set_keys in Hn. apply in_or_app.
          destruct Hn as [->|Hn]; [right; left; reflexivity|left; auto].
        + intros n Hn. apply in_or_app. left. auto.
        + intros n Hn Hk. apply dict_set_keys in Hk.
          destruct Hk as [->|Hk]; [apply Hafresh; auto|exact (Hdisj n Hn Hk)].
        + left. apply dict_set_keys. left. reflexivity.
        + intros n Hn. apply dict_set_keys. right. exact Hn.
        + auto.
      - repeat split.
        + intros n Hn. apply in_or_app. left. auto.
        + intros n Hn. apply in_app_or in Hn. apply in_or_app.
          destruct Hn as [Hn|Hn]; [left; auto|right; exact Hn].
        + intros n Hn Hk. apply in_app_or in Hn.
          destruct Hn as [Hn|[<-|[]]]; [exact (Hdisj n Hn Hk)|].
          apply Hafresh. auto.
        + right. apply in_or_app. right. left. reflexivity.
        + auto.
        + intros n Hn. apply in_or_app. left. exact Hn. }
    destruct Hstate as (K1 & D1 & J1 & A1 & MK & MD).
    destruct (IH (seen ++ [a]) s1 Hs1 Hndt) as (K & D & J & A & MK' & MD');
      try assumption.
    { intros n Hn Hin. apply in_app_or in Hin.
      destruct Hin as [Hin|[<-|[]]]; [exact (Hfresh n (or_intror Hn) Hin)|].
      contradiction. }
    rewrite <- app_assoc in K, D. simpl in K, D.
    repeat split; auto.
    intros n [<-|Hn]; [|auto].
    destruct A1 as [A1|A1]; [left; auto|right; auto].
Qed.

End Tracking.

Section FreshTracking.
Import MatchNucleusCytosolIds.

Variable threshold : Q.
Variable smooth : bool.
Variable kernel : nat.
Variables nuc cyt : ndarray.

(** After [_initialize_lookup_table] on a new filter object, the keys of
    the lookup dict and the nuclei discard list partition the scanned
    nucleus ids. *)
Lemma initialize_fresh_tracks (s1 : session) :
  _initialize_lookup_table
    (set_cytosol_mask cyt
       (set_nucleus_mask nuc (__init__ threshold None smooth kernel)))
  = Ok s1 ->
  (forall n, In n (map fst (_nucleus_lookup_dict s1)) ->
             In n (_BaseFilter.get_unique_ids nuc)) /\
  (forall n, In n (nuclei_discard_list s1) ->
             In n (_BaseFilter.get_unique_ids nuc)) /\
  (forall n, In n (nuclei_discard_list s1) ->
             ~ In n (map fst (_nucleus_lookup_dict s1))) /\
  (forall n, In n (_BaseFilter.get_unique_ids nuc) ->
             In n (map fst (_nucleus_lookup_dict s1)) \/
             In n (nuclei_discard_list s1)).
Proof.
  unfold _initialize_lookup_table. simpl. intro Hloop.
  destruct (initialize_loop_tracks nuc cyt (_BaseFilter.get_unique_ids nuc) []
              _ s1 (fresh_loaded_consistent threshold smooth kernel nuc cyt)
              (get_unique_ids_NoDup nuc))
    as (K & D & J & A & _); simpl; try tauto.
Qed.

End FreshTracking.

(** X19.  The lookup table that [get_lookup_table] returns on a new filter object
    consists of exactly the matches of [_initialize_lookup_table] whose
    cytosol id was matched by one nucleus only. *)
Theorem lookup_table_is_unique_matches
  (threshold : Q) (factor : option nat) (smooth : bool) (kernel : nat)
  (nuc cyt : ndarray) (sf : MatchNucleusCytosolIds.session) :
  MatchNucleusCytosolIds.get_lookup_table nuc cyt
    (MatchNucleusCytosolIds.__init__ threshold factor smooth kernel) = Ok sf ->
  exists s1,
    MatchNucleusCytosolIds._initialize_lookup_table
      (MatchNucleusCytosolIds.set_cytosol_mask cyt
         (MatchNucleusCytosolIds.set_nucleus_mask nuc
            (MatchNucleusCytosolIds.__init__ threshold None smooth kernel)))
    = Ok s1 /\
    forall n c,
      In (n, c) (MatchNucleusCytosolIds._nucleus_lookup_dict sf) <->
      In (n, c) (MatchNucleusCytosolIds._nucleus_lookup_dict s1) /\
      count_occ Z.eq_dec
        (dict_values (MatchNucleusCytosolIds._nucleus_lookup_dict s1)) c = 1%nat.
Proof.
  intro H.
  destruct (get_lookup_table_fresh threshold smooth kernel nuc cyt factor sf H)
    as (_ & s1 & Hinit & (_ & Hkeys & _) & _ & Hcd0 & -> & _).
  destruct (initialize_fresh_tracks threshold smooth kernel nuc cyt s1 Hinit)
    as (_ & _ & Hdisj & _).
  exists s1. split; [exact Hinit|]. intros n c.
  rewrite final_lookup_In. simpl.
  set (d := MatchNucleusCytosolIds._nucleus_lookup_dict s1) in *.
  assert (Hval : In (n, c) d -> In c (dict_values d)).
  { intro Hin. change c with (snd (n, c)). apply in_map. exact Hin. }
  assert (Hmulti : forall n', In (n', c) d ->
             MatchNucleusCytosolIds.multinucleated d (n', c) = true ->
             (1 < count_occ Z.eq_dec (dict_values d) c)%nat).
  { intros n' _ Hm. unfold MatchNucleusCytosolIds.multinucleated in Hm.
    apply Nat.ltb_lt in Hm. exact Hm. }
  split.
  - intros (Hin & Hn & Hc). split; [exact Hin|].
    pose proof (proj1 (count_occ_In Z.eq_dec _ _) (Hval Hin)) as Hpos.
    destruct (Nat.ltb_spec 1 (count_occ Z.eq_dec (dict_values d) c))
      as [Hgt|Hle]; [|lia].
    exfalso. apply Hc.
    apply (multinucleated_discarded s1 cyt n c Hin).
    unfold MatchNucleusCytosolIds.multinucleated. simpl.
    apply Nat.ltb_lt. exact Hgt.
  - intros (Hin & Hone). split; [exact Hin|]. split.
    + unfold MatchNucleusCytosolIds.final_nuclei_discard.
      rewrite list_set_In, in_app_iff. intros [Hnd|Hm].
      * apply (Hdisj n Hnd). change n with (fst (n, c)). apply in_map. exact Hin.
      * apply in_map_iff in Hm. destruct Hm as ([n' c'] & E & Hf).
        simpl in E. subst n'. apply filter_In in Hf. destruct Hf as [Hin' Hm].
        rewrite (dict_item_unique d n c' c Hkeys Hin' Hin) in *.
        pose proof (Hmulti n Hin Hm). fold d in Hone. lia.
    + unfold MatchNucleusCytosolIds.final_cytosol_discard.
      rewrite list_set_In, !in_app_iff. rewrite Hcd0.
      intros [[[]|Ho]|Hm].
      * unfold MatchNucleusCytosolIds.orphans in Ho. apply filter_In in Ho.
        destruct Ho as [_ Ho]. apply negb_true_iff, py_in_false in Ho.
        apply Ho. exact (Hval Hin).
      * apply in_map_iff in Hm. destruct Hm as ([n' c'] & E & Hf).
        simpl in E. subst c'. apply filter_In in Hf. destruct Hf as [Hin' Hm].
        pose proof (Hmulti n' Hin' Hm). fold d in Hone. lia.
Qed.

Lemma lookup_table_is_unique_matches_witness :
  exists sf,
    MatchNucleusCytosolIds.get_lookup_table Examples.nuc_90 Examples.cyt_90
      (MatchNucleusCytosolIds.__init__ (1 # 2) None true 7) = Ok sf /\
    exists s1,
      MatchNucleusCytosolIds._initialize_lookup_table
        (MatchNucleusCytosolIds.set_cytosol_mask Examples.cyt_90
           (MatchNucleusCytosolIds.set_nucleus_mask Examples.nuc_90
              (MatchNucleusCytosolIds.__init__ (1 # 2) None true 7)))
      = Ok s1 /\
      forall n c,
        In (n, c) (MatchNucleusCytosolIds._nucleus_lookup_dict sf) <->
        In (n, c) (MatchNucleusCytosolIds._nucleus_lookup_dict s1) /\
        count_occ Z.eq_dec
          (dict_values (MatchNucleusCytosolIds._nucleus_lookup_dict s1)) c = 1%nat.
Proof.
  eexists. split; [vm_compute; reflexivity|].
  apply (lookup_table_is_unique_matches (1 # 2) None true 7
           Examples.nuc_90 Examples.cyt_90).
  vm_compute. reflexivity.
Defined.

(** ** The two output masks *)



Section FilterOutputs.
Import MatchNucleusCytosolIds.

Variable ext : externals.
Variable threshold : Q.
Variable smooth : bool.
Variable kernel : nat.
Variables nuc cyt nuc' cyt' : ndarray.
Variable sf : session.
Hypothesis Hfilter :
  filter ext nuc cyt (__init__ threshold None smooth kernel) = Ok (nuc', cyt', sf).


End FilterOutputs.



(** X23.  A second call of [filter] on the same object ignores its arguments: it
    returns the masks of the first call and leaves the object as it is. *)
Theorem filter_reuses_session
  (ext : externals) (threshold : Q) (factor : option nat) (smooth : bool)
  (kernel : nat) (nuc cyt nuc' cyt' nuc2 cyt2 : ndarray)
  (sf : MatchNucleusCytosolIds.session) :
  MatchNucleusCytosolIds.filter ext nuc cyt
    (MatchNucleusCytosolIds.__init__ threshold factor smooth kernel)
  = Ok (nuc', cyt', sf) ->
  MatchNucleusCytosolIds.filter ext nuc2 cyt2 sf = Ok (nuc', cyt', sf).
Proof.
  destruct factor as [f|]; [discriminate|]. intro Hfilter.
  destruct (MatchNucleusCytosolIds.get_lookup_table nuc cyt
              (MatchNucleusCytosolIds.__init__ threshold None smooth kernel))
    as [sf0|e] eqn:Hsf.
  - pose proof (filter_fresh ext threshold smooth kernel nuc cyt sf0 Hsf) as Hf.
    rewrite Hf in Hfilter. inversion Hfilter; subst sf0. clear Hfilter.
    destruct (get_lookup_table_fresh threshold smooth kernel nuc cyt None sf Hsf)
      as (_ & s1 & _ & _ & _ & _ & _ & _ & _ & Hn & Hc & Hd & Hflag).
    unfold MatchNucleusCytosolIds.filter, MatchNucleusCytosolIds._load_masks.
    rewrite Hd, Hn, Hc. cbn [bind]. rewrite Hflag. cbn [bind].
    unfold MatchNucleusCytosolIds._get_updated_masks,
      MatchNucleusCytosolIds.loaded_masks,
      MatchNucleusCytosolIds._get_updated_cytosol_mask.
    rewrite Hn, Hc, Hd, Hflag. reflexivity.
  - rewrite (filter_fresh_raises ext threshold smooth kernel nuc cyt e Hsf)
      in Hfilter. discriminate.
Qed.

Lemma filter_reuses_session_witness :
  exists sf,
    MatchNucleusCytosolIds.filter Examples.no_externals
      Examples.nuc_90 Examples.cyt_90
      (MatchNucleusCytosolIds.__init__ (1 # 2) None true 7)
    = Ok (Examples.nuc_90, mk_ndarray 1 10 [0; 1; 1; 1; 1; 1; 1; 1; 1; 0], sf) /\
    MatchNucleusCytosolIds.filter Examples.no_externals
      Examples.nuc_pair Examples.cyt_pair sf
    = Ok (Examples.nuc_90, mk_ndarray 1 10 [0; 1; 1; 1; 1; 1; 1; 1; 1; 0], sf).
Proof.
  eexists. split; [vm_compute; reflexivity|].
  apply (filter_reuses_session Examples.no_externals (1 # 2) None true 7
           Examples.nuc_90 Examples.cyt_90).
  vm_compute. reflexivity.
Defined.

(** ** The class maps of [visualize_filtering_results] *)

Lemma map_combine_map {A B C : Type} (f : A -> B) (g : A * B -> C) (l : list A) :
  map g (combine l (map f l)) = map (fun x => g (x, f x)) l.
Proof. induction l; simpl; congruence. Qed.

Lemma Forall2_map_In {A B : Type} (R : A -> B -> Prop) (f : A -> B) (l : list A) :
  (forall x, In x l -> R x (f x)) -> Forall2 R l (map f l).
Proof.
  induction l as [|a t IH]; intro H; simpl; constructor.
  - apply H. left. reflexivity.
  - apply IH. intros x Hx. apply H. right. exact Hx.
Qed.

Lemma class_map_pixels (px discard : list Z) :
  Forall2 (fun v w => (In v discard -> w = 1) /\
                      (~ In v discard -> v <> 0 -> w = 2) /\
                      (~ In v discard -> v = 0 -> w = 0))
    px
    (map (fun '(v, final) => if np_isin v discard then 1 else final)
       (combine px
          (map (fun v =>
                  if np_isin v
                       (List.filter (fun x => negb (py_in x discard))
                          (remove Z.eq_dec 0 (np_unique px)))
                  then 2 else v)
               px))).
Proof.
  rewrite map_combine_map. apply Forall2_map_In. intros v Hv.
  destruct (np_isin v discard) eqn:D.
  - apply np_isin_In in D. repeat split; tauto.
  - apply np_isin_false in D.
    destruct (np_isin v _) eqn:K.
    + apply np_isin_In, filter_In in K. destruct K as [K _].
      apply in_remove in K. repeat split; tauto.
    + apply np_isin_false in K. repeat split; try tauto.
      intros _ Hv0. exfalso. apply K. apply filter_In. split.
      * apply in_in_remove; [exact Hv0|]. apply np_unique_In. exact Hv.
      * apply negb_true_iff, py_in_false. exact D.
Qed.

(** X25.  The class maps of [MatchNucleusCytosolIds.visualize_filtering_results]:
    in either mask a pixel of a discarded id is 1, a pixel of any other
    nonzero id is 2 and a background pixel stays 0. *)
Theorem visualize_filtering_results_classes
  (self : MatchNucleusCytosolIds.session) (nuc cyt : ndarray) :
  MatchNucleusCytosolIds.loaded_masks self = Ok (nuc, cyt) ->
  exists nuc_map cyt_map,
    MatchNucleusCytosolIds.visualize_filtering_results self
    = Ok (nuc_map, cyt_map) /\
    nrows nuc_map = nrows nuc /\ ncols nuc_map = ncols nuc /\
    nrows cyt_map = nrows cyt /\ ncols cyt_map = ncols cyt /\
    Forall2 (fun v w =>
               (In v (MatchNucleusCytosolIds.nuclei_discard_list self) -> w = 1) /\
               (~ In v (MatchNucleusCytosolIds.nuclei_discard_list self) ->
                v <> 0 -> w = 2) /\
               (~ In v (MatchNucleusCytosolIds.nuclei_discard_list self) ->
                v = 0 -> w = 0))
            (ravel nuc) (ravel nuc_map) /\
    Forall2 (fun v w =>
               (In v (MatchNucleusCytosolIds.cytosol_discard_list self) -> w = 1) /\
               (~ In v (MatchNucleusCytosolIds.cytosol_discard_list self) ->
                v <> 0 -> w = 2) /\
               (~ In v (MatchNucleusCytosolIds.cytosol_discard_list self) ->
                v = 0 -> w = 0))
            (ravel cyt) (ravel cyt_map).
Proof.
  unfold MatchNucleusCytosolIds.loaded_masks,
    MatchNucleusCytosolIds.visualize_filtering_results.
  destruct (MatchNucleusCytosolIds.nucleus_mask self) as [n|]; [|discriminate].
  destruct (MatchNucleusCytosolIds.cytosol_mask self) as [c|]; [|discriminate].
  intro E. inversion E; subst n c.
  eexists _, _. split; [reflexivity|].
  cbn [nrows ncols ravel]. repeat split; apply class_map_pixels.
Qed.

Lemma visualize_filtering_results_classes_witness :
  let self :=
    MatchNucleusCytosolIds.mk_session (1 # 2) None
      (Some Examples.nuc_pair) (Some Examples.cyt_pair)
      [] [1; 2] [20; 10] None true in
  MatchNucleusCytosolIds.loaded_masks self
  = Ok (Examples.nuc_pair, Examples.cyt_pair) /\
  MatchNucleusCytosolIds.visualize_filtering_results self
  = Ok (mk_ndarray 2 4 [1; 1; 0; 0; 1; 1; 0; 0],
        mk_ndarray 2 4 [1; 1; 1; 1; 1; 1; 1; 1]) /\
  exists nuc_map cyt_map,
    MatchNucleusCytosolIds.visualize_filtering_results self
    = Ok (nuc_map, cyt_map) /\
    nrows nuc_map = nrows Examples.nuc_pair /\
    ncols nuc_map = ncols Examples.nuc_pair /\
    nrows cyt_map = nrows Examples.cyt_pair /\
    ncols cyt_map = ncols Examples.cyt_pair /\
    Forall2 (fun v w =>
               (In v (MatchNucleusCytosolIds.nuclei_discard_list self) -> w = 1) /\
               (~ In v (MatchNucleusCytosolIds.nuclei_discard_list self) ->
                v <> 0 -> w = 2) /\
               (~ In v (MatchNucleusCytosolIds.nuclei_discard_list self) ->
                v = 0 -> w = 0))
            (ravel Examples.nuc_pair) (ravel nuc_map) /\
    Forall2 (fun v w =>
               (In v (MatchNucleusCytosolIds.cytosol_discard_list self) -> w = 1) /\
               (~ In v (MatchNucleusCytosolIds.cytosol_discard_list self) ->
                v <> 0 -> w = 2) /\
               (~ In v (MatchNucleusCytosolIds.cytosol_discard_list self) ->
                v = 0 -> w = 0))
            (ravel Examples.cyt_pair) (ravel cyt_map).
Proof.
  intro self. split; [reflexivity|]. split; [reflexivity|].
  exact (visualize_filtering_results_classes self
           Examples.nuc_pair Examples.cyt_pair eq_refl).
Defined.

(** X14.  The class map of [SizeFilter.visualize_filtering_results]: a pixel of
    an id to remove is 1, a pixel of any other scanned id is 2, and every
    other pixel keeps its value. *)
Theorem size_filter_class_map
  (self : SizeFilter.session) (m : ndarray) (R : list Z) :
  SizeFilter.mask self = Some m ->
  SizeFilter.ids_to_remove self = Some R ->
  exists out,
    SizeFilter.visualize_filtering_results self = Ok out /\
    nrows out = nrows m /\ ncols out = ncols m /\
    Forall2 (fun v w =>
               (In v R -> w = 1) /\
               (~ In v R -> In v (SizeFilter.ids self) -> w = 2) /\
               (~ In v R -> ~ In v (SizeFilter.ids self) -> w = v))
            (ravel m) (ravel out).
Proof.
  intros Hm HR. unfold SizeFilter.visualize_filtering_results.
  rewrite Hm, HR. eexists. split; [reflexivity|].
  cbn [nrows ncols ravel]. split; [reflexivity|]. split; [reflexivity|].
  rewrite map_combine_map. apply Forall2_map_In. intros v Hv.
  destruct (np_isin v R) eqn:D.
  - apply np_isin_In in D. repeat split; tauto.
  - apply np_isin_false in D.
    destruct (np_isin v _) eqn:K.
    + apply np_isin_In, filter_In in K. destruct K as [K _].
      apply -> list_set_In in K. repeat split; tauto.
    + apply np_isin_false in K. repeat split; try tauto.
      intros _ Hid. exfalso. apply K. apply filter_In. split.
      * apply list_set_In. exact Hid.
      * apply negb_true_iff, py_in_false. exact D.
Qed.

Lemma size_filter_class_map_witness :
  let self :=
    SizeFilter.mk_session (Some (2 # 1, 2 # 1)) true true None
      (Some Examples.mask_three_objects) [1; 2; 3] (Some [1; 3]) in
  SizeFilter.mask self = Some Examples.mask_three_objects /\
  SizeFilter.ids_to_remove self = Some [1; 3] /\
  SizeFilter.visualize_filtering_results self
  = Ok (mk_ndarray 1 7 [0; 1; 2; 2; 1; 1; 1]) /\
  exists out,
    SizeFilter.visualize_filtering_results self = Ok out /\
    nrows out = nrows Examples.mask_three_objects /\
    ncols out = ncols Examples.mask_three_objects /\
    Forall2 (fun v w =>
               (In v [1; 3] -> w = 1) /\
               (~ In v [1; 3] -> In v (SizeFilter.ids self) -> w = 2) /\
               (~ In v [1; 3] -> ~ In v (SizeFilter.ids self) -> w = v))
            (ravel Examples.mask_three_objects) (ravel out).
Proof.
  intro self. split; [reflexivity|]. split; [reflexivity|].
  split; [reflexivity|].
  exact (size_filter_class_map self Examples.mask_three_objects [1; 3]
           eq_refl eq_refl).
Defined.

(** ** The discard lists against the lookup table *)

Section FinalFacts.
Import MatchNucleusCytosolIds.

Variable threshold : Q.
Variable smooth : bool.
Variable kernel : nat.
Variables nuc cyt : ndarray.
Variables s1 : session.
Hypothesis Hinit :
  _initialize_lookup_table
    (set_cytosol_mask cyt
       (set_nucleus_mask nuc (__init__ threshold None smooth kernel)))
  = Ok s1.

(** For an item of the first pass, the nucleus is finally discarded exactly
    when the cytosol is. *)
Lemma item_discarded_together (n c : Z) :
  In (n, c) (_nucleus_lookup_dict s1) ->
  (In n (final_nuclei_discard s1) <-> In c (final_cytosol_discard cyt s1)).
Proof.
  intro Hin.
  destruct (initialize_lookup_table_consistent nuc cyt _ s1
              (fresh_loaded_consistent threshold smooth kernel nuc cyt) Hinit)
    as ((_ & Hkeys & _) & _ & _ & Hcd0 & _).
  destruct (initialize_fresh_tracks threshold smooth kernel nuc cyt s1 Hinit)
    as (_ & _ & Hdisj & _).
  simpl in Hcd0.
  unfold final_nuclei_discard, final_cytosol_discard.
  rewrite !list_set_In, !in_app_iff, Hcd0. split.
  - intros [Hn|Hm].
    + exfalso. apply (Hdisj n Hn). change n with (fst (n, c)).
      apply in_map. exact Hin.
    + right. apply in_map_iff in Hm. destruct Hm as ([n' c'] & E & Hf).
      simpl in E. subst n'. apply filter_In in Hf. destruct Hf as [Hin' Hm].
      rewrite (dict_item_unique _ n c' c Hkeys Hin' Hin) in *.
      change c with (snd (n, c)). apply in_map. apply filter_In. auto.
  - intros [[[]|Ho]|Hm].
    + unfold orphans in Ho. apply filter_In in Ho.
      destruct Ho as [_ Ho]. apply negb_true_iff, py_in_false in Ho.
      exfalso. apply Ho. change c with (snd (n, c)). apply in_map. exact Hin.
    + right. apply in_map_iff in Hm. destruct Hm as ([n' c'] & E & Hf).
      simpl in E. subst c'. apply filter_In in Hf. destruct Hf as [_ Hm].
      change n with (fst (n, c)). apply in_map. apply filter_In. auto.
Qed.

End FinalFacts.

(** X20.  When [get_lookup_table] completes on a new filter object, every scanned
    nucleus id is either a key of the lookup table or in the nuclei discard
    list, never both; and every scanned cytosol id is either a value of the
    lookup table or in the cytosol discard list, never both. *)
Theorem discard_lists_complement_lookup
  (threshold : Q) (factor : option nat) (smooth : bool) (kernel : nat)
  (nuc cyt : ndarray) (sf : MatchNucleusCytosolIds.session) :
  MatchNucleusCytosolIds.get_lookup_table nuc cyt
    (MatchNucleusCytosolIds.__init__ threshold factor smooth kernel) = Ok sf ->
  (forall n, In n (_BaseFilter.get_unique_ids nuc) ->
     (In n (MatchNucleusCytosolIds.nuclei_discard_list sf) <->
      ~ In n (map fst (MatchNucleusCytosolIds._nucleus_lookup_dict sf)))) /\
  (forall c, In c (_BaseFilter.get_unique_ids cyt) ->
     (In c (MatchNucleusCytosolIds.cytosol_discard_list sf) <->
      ~ In c (dict_values (MatchNucleusCytosolIds._nucleus_lookup_dict sf)))).
Proof.
  intro H.
  destruct (get_lookup_table_fresh threshold smooth kernel nuc cyt factor sf H)
    as (_ & s1 & Hinit & _ & _ & _ & -> & -> & -> & _).
  destruct (initialize_fresh_tracks threshold smooth kernel nuc cyt s1 Hinit)
    as (_ & _ & _ & Hall).
  pose proof (item_discarded_together threshold smooth kernel nuc cyt s1 Hinit)
    as Htogether.
  split.
  - intros n Hn. split.
    + intros Hd Hk. apply in_map_iff in Hk. destruct Hk as ([n' c] & E & Hin).
      simpl in E. subst n'. apply final_lookup_In in Hin. simpl in Hin. tauto.
    + intro Hk.
      destruct (py_in n (MatchNucleusCytosolIds.final_nuclei_discard s1)) eqn:P;
        [apply py_in_In; exact P|].
      apply py_in_false in P. exfalso.
      destruct (Hall n Hn) as [Hkey|Hdis].
      * apply in_map_iff in Hkey. destruct Hkey as ([n' c] & E & Hin).
        simpl in E. subst n'. apply Hk.
        change n with (fst (n, c)). apply in_map. apply final_lookup_In.
        split; [exact Hin|]. split; [exact P|]. simpl.
        intro Hc. apply P. apply (Htogether n c Hin). exact Hc.
      * apply P. unfold MatchNucleusCytosolIds.final_nuclei_discard.
        apply list_set_In, in_or_app. left. exact Hdis.
  - intros c Hc. split.
    + intros Hd Hv. apply in_map_iff in Hv. destruct Hv as ([n c'] & E & Hin).
      simpl in E. subst c'. apply final_lookup_In in Hin. simpl in Hin. tauto.
    + intro Hv.
      destruct (py_in c (MatchNucleusCytosolIds.final_cytosol_discard cyt s1))
        eqn:P; [apply py_in_In; exact P|].
      apply py_in_false in P. exfalso.
      destruct (py_in c (dict_values (MatchNucleusCytosolIds._nucleus_lookup_dict s1)))
        eqn:V.
      * apply py_in_In, in_map_iff in V. destruct V as ([n c'] & E & Hin).
        simpl in E. subst c'. apply Hv.
        change c with (snd (n, c)). apply in_map. apply final_lookup_In.
        split; [exact Hin|]. split; [|exact P]. simpl.
        intro Hn. apply P. apply (Htogether n c Hin). exact Hn.
      * apply P. unfold MatchNucleusCytosolIds.final_cytosol_discard.
        apply list_set_In, in_or_app. left. apply in_or_app. right.
        unfold MatchNucleusCytosolIds.orphans. apply filter_In.
        split; [exact Hc|]. rewrite V. reflexivity.
Qed.

Lemma discard_lists_complement_lookup_witness :
  exists sf,
    MatchNucleusCytosolIds.get_lookup_table Examples.nuc_90 Examples.cyt_90
      (MatchNucleusCytosolIds.__init__ (1 # 2) None true 7) = Ok sf /\
    (forall n, In n (_BaseFilter.get_unique_ids Examples.nuc_90) ->
       (In n (MatchNucleusCytosolIds.nuclei_discard_list sf) <->
        ~ In n (map fst (MatchNucleusCytosolIds._nucleus_lookup_dict sf)))) /\
    (forall c, In c (_BaseFilter.get_unique_ids Examples.cyt_90) ->
       (In c (MatchNucleusCytosolIds.cytosol_discard_list sf) <->
        ~ In c (dict_values (MatchNucleusCytosolIds._nucleus_lookup_dict sf)))).
Proof.
  eexists. split; [vm_compute; reflexivity|].
  apply (discard_lists_complement_lookup (1 # 2) None true 7
           Examples.nuc_90 Examples.cyt_90).
  vm_compute. reflexivity.
Defined.

(** ** Stages of [get_lookup_table], one by one *)

(** X17.  [_count_cytosol_occurances] stores, for every cytosol id, the number of
    lookup items that map to it (0 for an id that no item maps to), and
    changes nothing else of the lookup dict or of the discard lists. *)
Theorem count_cytosol_occurances_counts (self : MatchNucleusCytosolIds.session) :
  exists cc,
    MatchNucleusCytosolIds.cytosol_count
      (MatchNucleusCytosolIds._count_cytosol_occurances self) = Some cc /\
    (forall c,
        MatchNucleusCytosolIds.count_get c cc
        = count_occ Z.eq_dec
            (dict_values (MatchNucleusCytosolIds._nucleus_lookup_dict self)) c) /\
    MatchNucleusCytosolIds._nucleus_lookup_dict
      (MatchNucleusCytosolIds._count_cytosol_occurances self)
    = MatchNucleusCytosolIds._nucleus_lookup_dict self /\
    MatchNucleusCytosolIds.nuclei_discard_list
      (MatchNucleusCytosolIds._count_cytosol_occurances self)
    = MatchNucleusCytosolIds.nuclei_discard_list self /\
    MatchNucleusCytosolIds.cytosol_discard_list
      (MatchNucleusCytosolIds._count_cytosol_occurances self)
    = MatchNucleusCytosolIds.cytosol_discard_list self.
Proof.
  eexists. split; [reflexivity|]. split; [|repeat split].
  intro c. rewrite count_fold. reflexivity.
Qed.

(** X18.  [_cleanup_lookup_dictionary] never fails on a missing key, also when an
    item is listed for deletion twice (nucleus and cytosol both discarded):
    it keeps, in their order, the items whose nucleus is not in the nuclei
    discard list and whose cytosol is not in the cytosol discard list. *)
Theorem cleanup_lookup_dictionary_keeps_undiscarded
  (self : MatchNucleusCytosolIds.session) :
  NoDup (map fst (MatchNucleusCytosolIds._nucleus_lookup_dict self)) ->
  exists self',
    MatchNucleusCytosolIds._cleanup_lookup_dictionary self = Ok self' /\
    MatchNucleusCytosolIds._nucleus_lookup_dict self'
    = List.filter
        (fun item =>
           negb (py_in (fst item) (MatchNucleusCytosolIds.nuclei_discard_list self))
           && negb (py_in (snd item) (MatchNucleusCytosolIds.cytosol_discard_list self)))
        (MatchNucleusCytosolIds._nucleus_lookup_dict self) /\
    MatchNucleusCytosolIds.nuclei_discard_list self'
    = MatchNucleusCytosolIds.nuclei_discard_list self /\
    MatchNucleusCytosolIds.cytosol_discard_list self'
    = MatchNucleusCytosolIds.cytosol_discard_list self.
Proof.
  intro Hkeys. rewrite (cleanup_lookup_dictionary_spec self Hkeys).
  eexists. split; [reflexivity|]. simpl. repeat split.
  apply filter_ext. intros [n c]. unfold MatchNucleusCytosolIds.deleted.
  simpl. apply negb_orb.
Qed.

Lemma cleanup_lookup_dictionary_keeps_undiscarded_witness :
  let self :=
    MatchNucleusCytosolIds.mk_session (1 # 2) None None None
      [(1, 10); (2, 20); (3, 30)] [2; 3] [20] None false in
  NoDup (map fst (MatchNucleusCytosolIds._nucleus_lookup_dict self)) /\
  exists self',
    MatchNucleusCytosolIds._cleanup_lookup_dictionary self = Ok self' /\
    MatchNucleusCytosolIds._nucleus_lookup_dict self'
    = List.filter
        (fun item =>
           negb (py_in (fst item) (MatchNucleusCytosolIds.nuclei_discard_list self))
           && negb (py_in (snd item) (MatchNucleusCytosolIds.cytosol_discard_list self)))
        (MatchNucleusCytosolIds._nucleus_lookup_dict self) /\
    MatchNucleusCytosolIds.nuclei_discard_list self'
    = MatchNucleusCytosolIds.nuclei_discard_list self /\
    MatchNucleusCytosolIds.cytosol_discard_list self'
    = MatchNucleusCytosolIds.cytosol_discard_list self.
Proof.
  intro self.
  assert (Hkeys : NoDup (map fst (MatchNucleusCytosolIds._nucleus_lookup_dict self))).
  { simpl. repeat constructor; simpl; intuition discriminate. }
  split; [exact Hkeys|].
  exact (cleanup_lookup_dictionary_keeps_undiscarded self Hkeys).
Defined.

(** ** Footprints on pixel-aligned masks *)

Lemma footprint_length (l1 l2 : list Z) (v : Z) :
  length l1 = length l2 ->
  length (List.filter (fun p => fst p =? v) (combine l1 l2))
  = count_occ Z.eq_dec l1 v.
Proof.
  revert l2. induction l1 as [|a t IH]; intros [|b t2] H; simpl in *;
    try discriminate; [reflexivity|].
  destruct (Z.eqb_spec a v); destruct (Z.eq_dec a v); try congruence; simpl;
    rewrite IH by lia; reflexivity.
Qed.

(** X16.  On two well-shaped masks of one shape, the fancy index succeeds and the
    footprint of a nucleus id is the list of the cytosol labels at the
    pixels where the nucleus mask carries the id, in row-major order; it has
    as many entries as the nucleus has pixels. *)
Theorem footprint_of_aligned_masks (nuc cyt : ndarray) (nucleus_id : Z) :
  well_shaped nuc -> well_shaped cyt -> same_shape nuc cyt ->
  exists footprint,
    MatchNucleusCytosolIds.potential_cytosol nuc cyt nucleus_id = Ok footprint /\
    footprint
    = map snd (List.filter (fun p => fst p =? nucleus_id)
                           (combine (ravel nuc) (ravel cyt))) /\
    length footprint = count_occ Z.eq_dec (ravel nuc) nucleus_id.
Proof.
  intros Hn Hc Hs. eexists. split; [|split; [reflexivity|]].
  - apply potential_cytosol_aligned; assumption.
  - rewrite length_map. apply footprint_length.
    destruct Hs as [Hr Hcol]. unfold well_shaped in *. congruence.
Qed.

Lemma footprint_of_aligned_masks_witness :
  well_shaped Examples.nuc_90 /\ well_shaped Examples.cyt_90 /\
  same_shape Examples.nuc_90 Examples.cyt_90 /\
  exists footprint,
    MatchNucleusCytosolIds.potential_cytosol Examples.nuc_90 Examples.cyt_90 1
    = Ok footprint /\
    footprint
    = map snd (List.filter (fun p => fst p =? 1)
                           (combine (ravel Examples.nuc_90) (ravel Examples.cyt_90))) /\
    length footprint = count_occ Z.eq_dec (ravel Examples.nuc_90) 1.
Proof.
  assert (H1 : well_shaped Examples.nuc_90) by reflexivity.
  assert (H2 : well_shaped Examples.cyt_90) by reflexivity.
  assert (H3 : same_shape Examples.nuc_90 Examples.cyt_90)
    by (split; reflexivity).
  repeat (split; [assumption|]).
  exact (footprint_of_aligned_masks Examples.nuc_90 Examples.cyt_90 1 H1 H2 H3).
Defined.

(** * Further properties of [get_unique_ids] *)

(** X1.  [get_unique_ids] returns, in strictly ascending order, the values of
    the mask that lie above its least value. *)
Theorem get_unique_ids_above_least (mask : ndarray) :
  StronglySorted Z.lt (_BaseFilter.get_unique_ids mask) /\
  forall v,
    In v (_BaseFilter.get_unique_ids mask) <->
    In v (ravel mask) /\ exists u, In u (ravel mask) /\ u < v.
Proof.
  split; [|apply get_unique_ids_spec].
  unfold _BaseFilter.get_unique_ids.
  pose proof (np_unique_sorted (ravel mask)) as Hs.
  destruct (np_unique (ravel mask)); simpl; [constructor|].
  inversion Hs; assumption.
Qed.

(** X2.  On a mask without negative values that has a background pixel,
    [get_unique_ids] returns exactly the positive values of the mask. *)
Theorem get_unique_ids_of_label_mask (mask : ndarray) :
  Forall (fun x => 0 <= x) (ravel mask) -> In 0 (ravel mask) ->
  ~ In 0 (_BaseFilter.get_unique_ids mask) /\
  forall v,
    In v (_BaseFilter.get_unique_ids mask) <-> In v (ravel mask) /\ 0 < v.
Proof.
  intros Hnn H0. split.
  - apply get_unique_ids_no_background. exact Hnn.
  - intro v. apply get_unique_ids_with_background; assumption.
Qed.

Lemma get_unique_ids_of_label_mask_witness :
  Forall (fun x => 0 <= x) (ravel Examples.cyt_90) /\
  In 0 (ravel Examples.cyt_90) /\
  ~ In 0 (_BaseFilter.get_unique_ids Examples.cyt_90) /\
  forall v,
    In v (_BaseFilter.get_unique_ids Examples.cyt_90) <->
    In v (ravel Examples.cyt_90) /\ 0 < v.
Proof.
  assert (Hnn : Forall (fun x => 0 <= x) (ravel Examples.cyt_90))
    by (repeat constructor; lia).
  assert (H0 : In 0 (ravel Examples.cyt_90)) by (left; reflexivity).
  split; [exact Hnn|]. split; [exact H0|].
  exact (get_unique_ids_of_label_mask Examples.cyt_90 Hnn H0).
Defined.

(** * Witnesses of the conditional forms *)

Lemma size_filter_exact_with_background_witness :
  Forall (fun v => 0 <= v) (ravel Examples.mask_three_objects) /\
  In 0 (ravel Examples.mask_three_objects) /\
  exists self self' m',
    SizeFilter.__init__ (Some (2 # 1, 2 # 1)) true true None true 7 = Ok self /\
    SizeFilter.filter (fun _ => Raise ValueError)
      Examples.mask_three_objects self = Ok (m', self') /\
    nrows m' = nrows Examples.mask_three_objects /\
    ncols m' = ncols Examples.mask_three_objects /\
    Forall2
      (fun v v' =>
         (0 < v /\
          ((inject_Z (Z.of_nat (SizeFilter.pixel_count
                                  Examples.mask_three_objects v)) < 2 # 1)%Q \/
           (2 # 1 < inject_Z (Z.of_nat (SizeFilter.pixel_count
                                          Examples.mask_three_objects v)))%Q) ->
          v' = 0) /\
         (~ (0 < v /\
             ((inject_Z (Z.of_nat (SizeFilter.pixel_count
                                     Examples.mask_three_objects v)) < 2 # 1)%Q \/
              (2 # 1 < inject_Z (Z.of_nat (SizeFilter.pixel_count
                                             Examples.mask_three_objects v)))%Q)) ->
          v' = v))
      (ravel Examples.mask_three_objects) (ravel m').
Proof.
  assert (Hnn : Forall (fun v => 0 <= v) (ravel Examples.mask_three_objects))
    by (repeat constructor; lia).
  assert (H0 : In 0 (ravel Examples.mask_three_objects)) by (left; reflexivity).
  split; [exact Hnn|]. split; [exact H0|].
  exact (size_filter_exact_with_background (fun _ => Raise ValueError)
           (2 # 1) (2 # 1) true 7 Examples.mask_three_objects Hnn H0).
Defined.

Lemma size_filter_idempotent_with_background_witness :
  Forall (fun v => 0 <= v) (ravel Examples.mask_three_objects) /\
  In 0 (ravel Examples.mask_three_objects) /\
  exists self self' self'' m',
    SizeFilter.__init__ (Some (2 # 1, 2 # 1)) true true None true 7 = Ok self /\
    SizeFilter.filter (fun _ => Raise ValueError)
      Examples.mask_three_objects self = Ok (m', self') /\
    SizeFilter.filter (fun _ => Raise ValueError) m' self = Ok (m', self'').
Proof.
  assert (Hnn : Forall (fun v => 0 <= v) (ravel Examples.mask_three_objects))
    by (repeat constructor; lia).
  assert (H0 : In 0 (ravel Examples.mask_three_objects)) by (left; reflexivity).
  split; [exact Hnn|]. split; [exact H0|].
  exact (size_filter_idempotent_with_background (fun _ => Raise ValueError)
           (2 # 1) (2 # 1) true 7 Examples.mask_three_objects Hnn H0).
Defined.

Lemma all_background_nucleus_with_cytosol_background_witness :
  (forall v, In v (ravel Examples.nuc_empty) -> v = 0) /\
  Forall (fun v => 0 <= v) (ravel Examples.cyt_90) /\
  In 0 (ravel Examples.cyt_90) /\
  exists cyt' sf,
    MatchNucleusCytosolIds.filter Examples.no_externals
      Examples.nuc_empty Examples.cyt_90
      (MatchNucleusCytosolIds.__init__ (1 # 2) None true 7)
    = Ok (Examples.nuc_empty, cyt', sf) /\
    MatchNucleusCytosolIds._nucleus_lookup_dict sf = [] /\
    (forall c, In c (ravel Examples.cyt_90) -> 0 < c ->
               In c (MatchNucleusCytosolIds.cytosol_discard_list sf)) /\
    nrows cyt' = nrows Examples.cyt_90 /\
    ncols cyt' = ncols Examples.cyt_90 /\
    length (ravel cyt') = length (ravel Examples.cyt_90) /\
    (forall v, In v (ravel cyt') -> v = 0).
Proof.
  assert (Hn : forall v, In v (ravel Examples.nuc_empty) -> v = 0)
    by (simpl; intuition congruence).
  assert (Hnn : Forall (fun v => 0 <= v) (ravel Examples.cyt_90))
    by (repeat constructor; lia).
  assert (H0 : In 0 (ravel Examples.cyt_90)) by (left; reflexivity).
  split; [exact Hn|]. split; [exact Hnn|]. split; [exact H0|].
  exact (all_background_nucleus_with_cytosol_background Examples.no_externals
           (1 # 2) true 7 Examples.nuc_empty Examples.cyt_90 Hn Hnn H0).
Defined.
